(** * Augment-BYOK: tool schemas, stream collection, model discovery,
      routing shim and the self-test harness

    A shallow embedding of the JavaScript sources

    - [core/self-test/schema-sample.js] and [core/self-test/tool-defs.js]
    - [core/self-test.js]   (collectChatStream, the strict-schema validator,
                             the real-tool round trip, selfTestProvider,
                             runSelfTest)
    - [core/self-test/tools-model.js]   (the head of selfTestToolsModelExec,
                                         fetchLocalToolDefinitionsFromUpstream)
    - [providers/models.js]             (model discovery with URL fallback)
    - [runtime/official.js]             (mergeModels)
    - [runtime/shim.js]                 (the two call handlers,
                                         the prompt encodings, the line
                                         bookkeeping, the id lists and the
                                         cache of context canvases)
    - the configuration panel and its web view (summarizeRuntime, the
      helpers of the namespace [__byokCfgPanel], parseByokModelId)

    Part I holds the definitions, Part II the theorems.

    JavaScript values are modelled by the type [Js.value]; numbers are
    integers (the modelled code only floors, compares and increments them).
    Objects are association lists in [Object.keys] order; a property read
    returns the first binding of the key.  Built-ins whose exact behaviour
    depends on Unicode tables or on the host (trimming, lower-casing,
    [Number] on non-primitive values, [localeCompare]) and the helper
    [normalizeString] of [infra/util], which is not part of the sources at
    hand, are fields of the class [Js.Host]. *)

From Stdlib Require Import String Ascii List ZArith Bool Lia Btauto DecimalString.
From Stdlib Require Import Permutation.
Import ListNotations.
Local Open Scope string_scope.
Local Open Scope list_scope.
Set Warnings "-register-all".

(** String concatenation, the [+] of JavaScript on strings. *)
Infix "+++" := String.append (at level 60, right associativity).

(* ################################################################# *)
(** * Part I: definitions *)

(* ================================================================= *)
(** ** JavaScript values *)

Module Js.

Inductive value : Type :=
| JUndefined
| JNull
| JBool (b : bool)
| JNum (n : Z)
| JStr (s : string)
| JArr (xs : list value)
| JObj (fields : list (string * value)).

(** [Boolean(v)], the test of [if (v)], [!v], [a || b], [a && b]. *)
Definition truthy (v : value) : bool :=
  match v with
  | JUndefined | JNull => false
  | JBool b => b
  | JNum n => negb (n =? 0)%Z
  | JStr s => negb (s =? "")
  | JArr _ | JObj _ => true
  end.

(** [Array.isArray(v)] *)
Definition isArray (v : value) : bool :=
  match v with JArr _ => true | _ => false end.

(** [typeof v === "object"]: holds of [null], of arrays and of objects. *)
Definition typeofObject (v : value) : bool :=
  match v with JNull | JArr _ | JObj _ => true | _ => false end.

(** [typeof v === "string"] *)
Definition typeofString (v : value) : bool :=
  match v with JStr _ => true | _ => false end.

(** [v && typeof v === "object"] *)
Definition isObjectLike (v : value) : bool := truthy v && typeofObject v.

(** [v && typeof v === "object" && !Array.isArray(v)] *)
Definition isPlainObject (v : value) : bool :=
  truthy v && typeofObject v && negb (isArray v).

Fixpoint lookup (k : string) (fs : list (string * value)) : option value :=
  match fs with
  | [] => None
  | (k', v) :: rest => if k' =? k then Some v else lookup k rest
  end.

(** [v.k] and [v?.k] for a fixed property name [k].  The modelled code
    never reads [length] or an index of an array this way, so an array,
    like every primitive, answers [undefined]. *)
Definition get (v : value) (k : string) : value :=
  match v with
  | JObj fs => match lookup k fs with Some x => x | None => JUndefined end
  | _ => JUndefined
  end.

(** [Object.prototype.hasOwnProperty.call(v, k)] and [k in v] for the
    property names used in the sources (none of them is inherited). *)
Definition hasOwn (v : value) (k : string) : bool :=
  match v with
  | JObj fs => match lookup k fs with Some _ => true | None => false end
  | _ => false
  end.

(** [Object.keys(o)] *)
Definition keys (fs : list (string * value)) : list string := map fst fs.

(** [o[k] = v] on an object: overwrite in place, or append a new key. *)
Fixpoint set (k : string) (v : value) (fs : list (string * value))
  : list (string * value) :=
  match fs with
  | [] => [(k, v)]
  | (k', v') :: rest =>
      if k' =? k then (k', v) :: rest else (k', v') :: set k v rest
  end.

(** [a || b] on values *)
Definition orVal (a b : value) : value := if truthy a then a else b.

(** [a ?? b] *)
Definition orElse (a b : value) : value :=
  match a with JUndefined | JNull => b | _ => a end.

(** [a != null] *)
Definition notNullish (a : value) : bool :=
  match a with JUndefined | JNull => false | _ => true end.

(** [Array.isArray(v) ? v : []] *)
Definition elements (v : value) : list value :=
  match v with JArr xs => xs | _ => [] end.

(** [v === s] for a string literal [s] *)
Definition isStr (v : value) (s : string) : bool :=
  match v with JStr s' => s' =? s | _ => false end.

(** [v === false] and [v === true] *)
Definition isFalse (v : value) : bool :=
  match v with JBool false => true | _ => false end.
Definition isTrue (v : value) : bool :=
  match v with JBool true => true | _ => false end.

(** [xs.includes(s)] on a list of strings; also [set.has(s)]. *)
Definition mem (s : string) (xs : list string) : bool :=
  existsb (String.eqb s) xs.

(** [arr.includes(k)] for a string [k] and an array of values *)
Definition includesStr (xs : list value) (k : string) : bool :=
  existsb (fun x => isStr x k) xs.

(** Decimal rendering of a count, as in a template literal. *)
Definition dec (n : nat) : string := NilZero.string_of_uint (Nat.to_uint n).
Definition decZ (z : Z) : string := NilZero.string_of_int (Z.to_int z).

(** [parts.join(sep)] *)
Fixpoint join (sep : string) (parts : list string) : string :=
  match parts with
  | [] => ""
  | [p] => p
  | p :: rest => p +++ sep +++ join sep rest
  end.

(** [a || b] on strings *)
Definition orStr (a b : string) : string := if a =? "" then b else a.

(** Host-dependent built-ins and the helper of [infra/util]. *)
Class Host : Type := {
  (** [normalizeString(v)] of [infra/util] *)
  normalizeString : value -> string;
  (** [s.toLowerCase()] *)
  toLowerCase : string -> string;
  (** [s.trim()] *)
  trim : string -> string;
  (** [Number(v)] for a string, an array or an object; [None] stands for
      NaN and the infinities, which the sources never tell apart *)
  numberOfComposite : value -> option Z;
  (** [a.localeCompare(b)]: negative, zero or positive *)
  localeCompare : string -> string -> Z;
  (** [String(v)] for an array or an object *)
  stringOfComposite : value -> string
}.

(** [Number(v)]; [Some n] exactly when [Number.isFinite(Number(v))]. *)
Definition toNumber `{Host} (v : value) : option Z :=
  match v with
  | JUndefined => None
  | JNull => Some 0%Z
  | JBool b => Some (if b then 1 else 0)%Z
  | JNum n => Some n
  | _ => numberOfComposite v
  end.

(** [String(v)], also the rendering of [v] in a template literal. *)
Definition toString `{Host} (v : value) : string :=
  match v with
  | JUndefined => "undefined"
  | JNull => "null"
  | JBool b => if b then "true" else "false"
  | JNum n => decZ n
  | JStr s => s
  | _ => stringOfComposite v
  end.

(** [a === b] where one of the operands is a primitive. *)
Definition strictEq (a b : value) : bool :=
  match a, b with
  | JUndefined, JUndefined | JNull, JNull => true
  | JBool x, JBool y => Bool.eqb x y
  | JNum x, JNum y => (x =? y)%Z
  | JStr x, JStr y => x =? y
  | _, _ => false
  end.

(** [v?.[0]] *)
Definition index0 (v : value) : value :=
  match v with
  | JArr (x :: _) => x
  | JObj _ => get v "0"
  | JStr (String c _) => JStr (String c EmptyString)
  | _ => JUndefined
  end.

(** [Object.keys(v)] for an object or an array *)
Definition objectKeys (v : value) : list string :=
  match v with
  | JObj fs => keys fs
  | JArr xs => map dec (seq 0 (length xs))
  | _ => []
  end.

(** [xs.sort(cmp)]: the sort is stable, so for a consistent comparator
    the result is that of a stable insertion sort ([x] comes from the left
    of every element of [xs] and stays left of its equals). *)
Fixpoint insertBy {A : Type} (cmp : A -> A -> Z) (x : A) (xs : list A) : list A :=
  match xs with
  | [] => [x]
  | y :: rest => if (cmp x y <=? 0)%Z then x :: y :: rest else y :: insertBy cmp x rest
  end.

Definition sortBy {A : Type} (cmp : A -> A -> Z) (xs : list A) : list A :=
  fold_right (fun x acc => insertBy cmp x acc) [] xs.

(** An ASCII reading of the host, used to run the definitions on
    concrete inputs. *)
Module Ascii7.

Definition isSpace (c : ascii) : bool :=
  let n := nat_of_ascii c in
  (n =? 32)%nat || ((9 <=? n)%nat && (n <=? 13)%nat).

Fixpoint trimLeft (s : string) : string :=
  match s with
  | EmptyString => EmptyString
  | String c rest => if isSpace c then trimLeft rest else s
  end.

Fixpoint trimRight (s : string) : string :=
  match s with
  | EmptyString => EmptyString
  | String c rest =>
      match trimRight rest with
      | EmptyString => if isSpace c then EmptyString else String c EmptyString
      | r => String c r
      end
  end.

Definition trim (s : string) : string := trimRight (trimLeft s).

Definition lowerChar (c : ascii) : ascii :=
  let n := nat_of_ascii c in
  if (65 <=? n)%nat && (n <=? 90)%nat then ascii_of_nat (n + 32) else c.

Fixpoint toLowerCase (s : string) : string :=
  match s with
  | EmptyString => EmptyString
  | String c rest => String (lowerChar c) (toLowerCase rest)
  end.

Definition normalizeString (v : value) : string :=
  match v with JStr s => trim s | _ => "" end.

Definition digit (c : ascii) : option Z :=
  let n := nat_of_ascii c in
  if (48 <=? n)%nat && (n <=? 57)%nat then Some (Z.of_nat (n - 48)) else None.

Fixpoint digits (s : string) (acc : Z) : option Z :=
  match s with
  | EmptyString => Some acc
  | String c rest =>
      match digit c with
      | Some d => digits rest (10 * acc + d)%Z
      | None => None
      end
  end.

Definition numberOfComposite (v : value) : option Z :=
  match v with
  | JStr s => digits (trim s) 0%Z
  | JArr [] => Some 0%Z
  | _ => None
  end.

Definition localeCompare (a b : string) : Z :=
  match String.compare a b with Lt => (-1)%Z | Eq => 0%Z | Gt => 1%Z end.

Definition stringOfComposite (v : value) : string :=
  match v with
  | JArr [] => ""
  | _ => "[object Object]"
  end.

End Ascii7.

Definition asciiHost : Host := {|
  normalizeString := Ascii7.normalizeString;
  toLowerCase := Ascii7.toLowerCase;
  trim := Ascii7.trim;
  numberOfComposite := Ascii7.numberOfComposite;
  localeCompare := Ascii7.localeCompare;
  stringOfComposite := Ascii7.stringOfComposite
|}.

End Js.

Import Js.

(* ================================================================= *)
(** ** core/self-test/tool-defs.js *)

Module ToolDefs.
Section WithHost.
Context `{Host}.

(** The name a tool definition is known by: [normalizeString(d.name)]. *)
Definition nameOf (d : value) : string := normalizeString (get d "name").

(** The loop of [dedupeToolDefsByName], with its two accumulators. *)
Fixpoint dedupeLoop (defs : list value) (seen : list string) (out : list value)
  : list value :=
  match defs with
  | [] => out
  | d :: rest =>
      if negb (isObjectLike d) then dedupeLoop rest seen out
      else
        let name := normalizeString (get d "name") in
        if negb (truthy (JStr name)) || mem name seen
        then dedupeLoop rest seen out
        else dedupeLoop rest (seen ++ [name]) (out ++ [d])
  end.

(** What the loop adds to [out]: the definitions it keeps, in order. *)
Fixpoint kept (defs : list value) (seen : list string) : list value :=
  match defs with
  | [] => []
  | d :: rest =>
      if isObjectLike d && truthy (JStr (nameOf d)) && negb (mem (nameOf d) seen)
      then d :: kept rest (seen ++ [nameOf d])
      else kept rest seen
  end.

Definition dedupeToolDefsByName (toolDefs : value) : list value :=
  dedupeLoop (elements toolDefs) [] [].

Record Summary : Type := {
  count : nat;
  names : list string;
  namesTruncated : bool
}.

(** [Math.max(1, Number(maxNames) || 12)] for a numeric [maxNames]. *)
Definition nameLimit (maxNames : Z) : Z :=
  Z.max 1 (if (maxNames =? 0)%Z then 12 else maxNames).

Fixpoint summarizeLoop (limit : Z) (defs : list value) (seen names : list string)
  : list string :=
  match defs with
  | [] => names
  | d :: rest =>
      if negb (isObjectLike d) then summarizeLoop limit rest seen names
      else
        let n := normalizeString (get d "name") in
        if negb (truthy (JStr n)) || mem n seen
        then summarizeLoop limit rest seen names
        else
          let names' := names ++ [n] in
          if (limit <=? Z.of_nat (length names'))%Z then names'
          else summarizeLoop limit rest (seen ++ [n]) names'
  end.

Definition summarizeToolDefs (toolDefs : value) (maxNames : Z) : Summary :=
  let defs := elements toolDefs in
  let ns := summarizeLoop (nameLimit maxNames) defs [] [] in
  {| count := length defs;
     names := ns;
     namesTruncated := (length ns <? length defs)%nat |}.

End WithHost.
End ToolDefs.

(* ================================================================= *)
(** ** core/self-test/schema-sample.js *)

Module SchemaSample.
Section WithHost.
Context `{Host}.

(** [Array.isArray(list) && list.length ? list[0] : null] *)
Definition pickFirst (list : value) : value :=
  match list with JArr (x :: _) => x | _ => JNull end.

(** The list [types]: the normalized, lower-cased, non-empty type names. *)
Definition typesOf (typeRaw : value) : list string :=
  let norm x := toLowerCase (normalizeString x) in
  let nonEmpty s := truthy (JStr s) in
  match typeRaw with
  | JArr xs => filter nonEmpty (map norm xs)
  | _ => filter nonEmpty [norm typeRaw]
  end.

(** [Number.isFinite(Number(v)) && Number(v) > 0 ? Math.floor(Number(v)) : 0] *)
Definition positiveOrZero (v : value) : Z :=
  match toNumber v with
  | Some n => if (0 <? n)%Z then n else 0%Z
  | None => 0%Z
  end.

(** ["x".repeat(n)] *)
Fixpoint repeatX (n : nat) : string :=
  match n with O => "" | S n' => "x" +++ repeatX n' end.

(** The body of [sampleJsonFromSchema]; [fuel] is [9 - d], so that the
    guard [d > 8] is [fuel = 0] and every recursive call, made at depth
    [d + 1], runs on [fuel - 1]. *)
Fixpoint sampleFuel (fuel : nat) (schema : value) : value :=
  match fuel with
  | O => JObj []
  | S fuel' =>
      let s := if isPlainObject schema then schema else JObj [] in
      if hasOwn s "const" then get s "const"
      else
        match get s "enum" with
        | JArr (e :: _) => e
        | _ =>
            if hasOwn s "default" then get s "default"
            else
              let union :=
                orVal (orVal (pickFirst (get s "oneOf")) (pickFirst (get s "anyOf")))
                      (pickFirst (get s "allOf")) in
              if truthy union then sampleFuel fuel' union
              else
                let types := typesOf (get s "type") in
                let has t := mem t types in
                let props :=
                  match get s "properties" with JObj ps => Some ps | _ => None end in
                if has "object" || (match props with Some _ => true | None => false end)
                then
                  let required :=
                    match get s "required" with
                    | JArr rs =>
                        filter (fun k => truthy (JStr k)) (map normalizeString rs)
                    | _ => []
                    end in
                  let ks := match props with Some ps => keys ps | None => [] end in
                  let chosen :=
                    match required with
                    | [] => ks
                    | _ => filter (fun k => match ks with [] => false | _ => mem k ks end)
                                  required
                    end in
                  let propOf k :=
                    match props with Some ps => get (JObj ps) k | None => JNull end in
                  JObj (fold_left
                          (fun out k => set k (sampleFuel fuel' (propOf k)) out)
                          (firstn 60 chosen) [])
                else
                  let items := get s "items" in
                  if has "array" || truthy items
                  then
                    let n := Z.to_nat (Z.min 3 (positiveOrZero (get s "minItems"))) in
                    JArr (repeat (sampleFuel fuel' items) n)
                  else if has "integer" then
                    match toNumber (get s "minimum") with
                    | Some m => JNum m
                    | None =>
                        match toNumber (get s "exclusiveMinimum") with
                        | Some m => JNum (m + 1)
                        | None => JNum 1
                        end
                    end
                  else if has "number" then
                    match toNumber (get s "minimum") with
                    | Some m => JNum m
                    | None =>
                        match toNumber (get s "exclusiveMinimum") with
                        | Some m => JNum (m + 1)
                        | None => JNum 1
                        end
                    end
                  else if has "boolean" then JBool true
                  else if has "null" then JNull
                  else if has "string" then
                    let minLength := positiveOrZero (get s "minLength") in
                    JStr (repeatX (Z.to_nat (Z.min 16 (Z.max 1 minLength))))
                  else JObj []
        end
  end.

Definition sampleJsonFromSchema (schema : value) (depth : nat) : value :=
  sampleFuel (9 - depth) schema.

End WithHost.

(** [JSON.stringify] on values whose strings need no escaping; [None]
    where [JSON.stringify] has no text to give ([undefined]).  [fuel]
    bounds the nesting depth that is printed. *)
Definition quote : string := String (ascii_of_nat 34) EmptyString.

Fixpoint stringify (fuel : nat) (v : value) : option string :=
  match fuel with
  | O => None
  | S fuel' =>
      match v with
      | JUndefined => None
      | JNull => Some "null"
      | JBool b => Some (if b then "true" else "false")
      | JNum n => Some (decZ n)
      | JStr s => Some (quote +++ s +++ quote)
      | JArr xs =>
          Some ("[" +++ join "," (map (fun x => match stringify fuel' x with
                                                | Some t => t
                                                | None => "null"
                                                end) xs) +++ "]")
      | JObj fs =>
          Some ("{" +++ join ","
                 (flat_map (fun kv => match stringify fuel' (snd kv) with
                                      | Some t => [quote +++ fst kv +++ quote +++ ":" +++ t]
                                      | None => []
                                      end) fs) +++ "}")
      end
  end.


(** A sample is at most ten levels deep. *)
Definition stringifySample (v : value) : option string := stringify 12 v.

End SchemaSample.

(* ================================================================= *)
(** ** core/self-test.js: the strict-schema validator *)

Module StrictSchema.
Section WithHost.
Context `{Host}.

(** [t === "object" || (Array.isArray(t) && t.some(...))] *)
Definition hasObjectType (schema : value) : bool :=
  let t := get schema "type" in
  isStr t "object"
  || match t with
     | JArr xs => existsb (fun x => toLowerCase (normalizeString x) =? "object") xs
     | _ => false
     end.

(** [props]: the [properties] member when it is a plain object. *)
Definition propsOf (schema : value) : option (list (string * value)) :=
  match get schema "properties" with JObj ps => Some ps | _ => None end.

Definition isSome {A : Type} (o : option A) : bool :=
  match o with Some _ => true | None => false end.

(** [path || "<root>"] *)
Definition here (path : string) : string := orStr path "<root>".

(** The template [(path ? path + "." : "") + name] *)
Definition under (path name : string) : string :=
  (if path =? "" then "" else path +++ ".") +++ name.

(** The checks made at one object node. *)
Definition nodeIssues (schema : value) (issues : list string) (path : string)
  : list string :=
  let props := propsOf schema in
  if hasObjectType schema || isSome props then
    let issues1 :=
      if negb (isFalse (get schema "additionalProperties"))
      then issues ++ [here path +++ ": additionalProperties must be false"]
      else issues in
    match get schema "required" with
    | JArr req =>
        match props with
        | Some ps =>
            fold_left
              (fun acc k =>
                 if negb (includesStr req k)
                 then acc ++ [here path +++ ": required missing '" +++ k +++ "'"]
                 else acc)
              (keys ps) issues1
        | None => issues1
        end
    | _ => issues1 ++ [here path +++ ": required must be array"]
    end
  else issues.

(** The loop over an array of schemas; [rec] is the validator one level
    down. *)
Definition walkArray (rec : value -> list string -> string -> list string)
  (xs : list value) (issues : list string) (path : string) : list string :=
  snd (fold_left
         (fun st x =>
            (S (fst st), rec x (snd st) (path +++ "[" +++ dec (fst st) +++ "]")))
         xs (O, issues)).

(** [if (schema[k] != null) validate(schema[k], ...)] *)
Definition ifPresent (rec : value -> list string -> string -> list string)
  (schema : value) (path k : string) (acc : list string) : list string :=
  if notNullish (get schema k) then rec (get schema k) acc (under path k) else acc.

(** [if (Array.isArray(schema[k])) validate(schema[k], ...)] *)
Definition ifArray (rec : value -> list string -> string -> list string)
  (schema : value) (path k : string) (acc : list string) : list string :=
  if isArray (get schema k) then rec (get schema k) acc (under path k) else acc.

(** The loop over the members of [schema.properties], [schema.$defs] or
    [schema.definitions] when that is a plain object. *)
Definition eachOf (rec : value -> list string -> string -> list string)
  (schema : value) (path k : string) (acc : list string) : list string :=
  match get schema k with
  | JObj ds =>
      fold_left
        (fun acc' k' => rec (get (JObj ds) k') acc' (under path (k +++ "." +++ k')))
        (keys ds) acc
  | _ => acc
  end.

(** What the validator does at an object, from the node checks to the
    walk through [definitions]. *)
Definition walkObject (rec : value -> list string -> string -> list string)
  (schema : value) (issues : list string) (path : string) : list string :=
  let i0 := nodeIssues schema issues path in
  let i1 := eachOf rec schema path "properties" i0 in
  let i2 := ifPresent rec schema path "items" i1 in
  let i3 := ifPresent rec schema path "prefixItems" i2 in
  let i4 := ifPresent rec schema path "not" i3 in
  let i5 := ifPresent rec schema path "if" i4 in
  let i6 := ifPresent rec schema path "then" i5 in
  let i7 := ifPresent rec schema path "else" i6 in
  let i8 := ifArray rec schema path "anyOf" i7 in
  let i9 := ifArray rec schema path "oneOf" i8 in
  let i10 := ifArray rec schema path "allOf" i9 in
  let i11 := eachOf rec schema path "$defs" i10 in
  eachOf rec schema path "definitions" i11.

(** The body of [validateOpenAiStrictJsonSchema]; [fuel] is [51 - d], so
    that the guard [d > 50] is [fuel = 0] and every recursive call, made
    at depth [d + 1], runs on [fuel - 1]. *)
Fixpoint validateFuel (fuel : nat) (schema : value) (issues : list string)
  (path : string) : list string :=
  match fuel with
  | O => issues
  | S fuel' =>
      if negb (truthy schema) then issues
      else
        match schema with
        | JArr xs => walkArray (validateFuel fuel') xs issues path
        | JObj _ => walkObject (validateFuel fuel') schema issues path
        | _ => issues
        end
  end.

Definition validateOpenAiStrictJsonSchema (schema : value) (issues : list string)
  (path : string) (depth : nat) : list string :=
  validateFuel (51 - depth) schema issues path.

Record Validation : Type := { ok : bool; issues : list string }.

(** The loop of [validateConvertedToolsForProvider] over the tools. *)
Fixpoint validateToolsLoop (tools : list value) (issues : list string)
  : list string :=
  match tools with
  | [] => issues
  | tool :: rest =>
      let name :=
        orStr (normalizeString (get tool "name"))
              (normalizeString (get (get tool "function") "name")) in
      let params :=
        orElse (get tool "parameters") (get (get tool "function") "parameters") in
      let toolIssues := validateOpenAiStrictJsonSchema params [] "" 0 in
      let issues' :=
        match toolIssues with
        | [] => issues
        | first :: _ => issues ++ [orStr name "(unknown tool)" +++ ": " +++ first]
        end in
      if (30 <=? length issues')%nat then issues'
      else validateToolsLoop rest issues'
  end.

Definition validateConvertedToolsForProvider (providerType convertedTools : value)
  : Validation :=
  let t := normalizeString providerType in
  let tools := elements convertedTools in
  if negb (t =? "openai_responses") then {| ok := true; issues := [] |}
  else
    let found := validateToolsLoop tools [] in
    {| ok := (length found =? 0)%nat; issues := found |}.

End WithHost.
End StrictSchema.

(* ================================================================= *)
(** ** core/augment-chat: the OpenAI-responses tool converter *)

Module Normalizer.
Section WithHost.
Context `{Host}.

(** [shared.resolveToolSchema], which picks the input schema of a tool
    definition; its module is not among the sources. *)
Variable resolveToolSchema : value -> value.

(** The keywords under which a schema holds one subschema or an array of them,
    and those under which it holds a map from names to subschemas: the
    positions the strict-mode walk visits. *)
Definition isSchemaKey (k : string) : bool :=
  mem k ["items"; "prefixItems"; "not"; "if"; "then"; "else";
         "anyOf"; "oneOf"; "allOf"].

Definition isSchemaMapKey (k : string) : bool :=
  mem k ["properties"; "$defs"; "definitions"].

(** Modelled from the spec: [coerceOpenAiStrictJsonSchema] of
    [core/augment-chat.shared] is not among the sources.  Section 4.2 asks
    the normalizer to rewrite a schema so that every object-typed or
    has-properties (sub)schema sets [additionalProperties:false] and lists
    every declared property key in [required]; the rewrite below does
    that at every node and descends through [properties], [items],
    [prefixItems], [not], [if], [then], [else], [anyOf], [oneOf], [allOf],
    [$defs] and [definitions]. *)
Fixpoint coerceOpenAiStrictJsonSchema (schema : value) : value :=
  match schema with
  | JArr xs => JArr (map coerceOpenAiStrictJsonSchema xs)
  | JObj fields =>
      let rewritten :=
        (fix members (fs : list (string * value)) : list (string * value) :=
           match fs with
           | [] => []
           | (k, v) :: rest =>
               (k,
                if isSchemaKey k then coerceOpenAiStrictJsonSchema v
                else if isSchemaMapKey k then
                  match v with
                  | JObj named =>
                      JObj ((fix each (ns : list (string * value)) :=
                               match ns with
                               | [] => []
                               | (n, s) :: more =>
                                   (n, coerceOpenAiStrictJsonSchema s) :: each more
                               end) named)
                  | _ => v
                  end
                else v) :: members rest
           end) fields in
      if StrictSchema.hasObjectType schema
         || StrictSchema.isSome (StrictSchema.propsOf schema)
      then
        let declared :=
          match StrictSchema.propsOf schema with
          | Some ps => keys ps
          | None => []
          end in
        JObj (set "required" (JArr (map JStr declared))
                (set "additionalProperties" (JBool false) rewritten))
      else JObj rewritten
  | _ => schema
  end.

(** What the rewrite does to the member [k] of an object. *)
Definition rewriteMember (k : string) (v : value) : value :=
  if isSchemaKey k then coerceOpenAiStrictJsonSchema v
  else if isSchemaMapKey k then
    match v with
    | JObj named =>
        JObj (map (fun ns => (fst ns, coerceOpenAiStrictJsonSchema (snd ns))) named)
    | _ => v
    end
  else v.

Definition rewrittenMembers (fields : list (string * value)) : list (string * value) :=
  map (fun kv => (fst kv, rewriteMember (fst kv) (snd kv))) fields.

(** Modelled from the spec: [convertOpenAiResponsesTools] of
    [core/augment-chat] is not among the sources.  Sections 3 and 4.2:
    the tool list is de-duplicated by name (first occurrence wins) and
    each definition becomes a function tool with its name, description
    and the strict-mode rewrite of its input schema as [parameters]
    (the callers in [core/self-test.js] read [tool.parameters]). *)
Definition convertOpenAiResponsesTools (toolDefs : value) : value :=
  JArr (map (fun d =>
               JObj [("type", JStr "function");
                     ("name", JStr (ToolDefs.nameOf d));
                     ("description", get d "description");
                     ("parameters",
                      coerceOpenAiStrictJsonSchema (resolveToolSchema d));
                     ("strict", JBool true)])
            (ToolDefs.dedupeToolDefsByName toolDefs)).

End WithHost.
End Normalizer.

(* ================================================================= *)
(** ** core/self-test.js: collecting a chat stream *)

Module ChatStream.

(** The object [collectChatStream] returns. *)
Record Collected : Type := {
  chunks : list value;
  nodes : list value;
  text : string;
  stop_reason : value
}.

Definition start : Collected :=
  {| chunks := []; nodes := []; text := ""; stop_reason := JNull |}.

(** One turn of the [for await] loop past the [break] test. *)
Definition absorb (acc : Collected) (ch : value) : Collected :=
  {| chunks := chunks acc ++ [ch];
     nodes :=
       match get ch "nodes" with
       | JArr ns => nodes acc ++ ns
       | _ => nodes acc
       end;
     text :=
       match get ch "text" with
       | JStr t => if truthy (JStr t) then text acc +++ t else text acc
       | _ => text acc
       end;
     stop_reason :=
       if isObjectLike ch && hasOwn ch "stop_reason"
       then get ch "stop_reason"
       else stop_reason acc |}.

(** The loop over the chunks the generator yields before it finishes. *)
Fixpoint collectLoop (maxChunks : nat) (gen : list value) (acc : Collected)
  : Collected :=
  match gen with
  | [] => acc
  | ch :: rest =>
      if (maxChunks <=? length (chunks acc))%nat then acc
      else collectLoop maxChunks rest (absorb acc ch)
  end.

(** [collectChatStream(gen, { maxChunks })] on a generator that yields
    the chunks of [gen] and then finishes. *)
Definition collectChatStream (gen : list value) (maxChunks : nat) : Collected :=
  collectLoop maxChunks gen start.

(** The default of the options argument. *)
Definition defaultMaxChunks : nat := 500.

(** What section 4.4 asks of the collection helper, stated on a
    sequence of chunks: all text deltas in yield order, all node lists
    flattened, and the stop reason of the last chunk that carries one
    ([null] when none does). *)
Definition textDelta (ch : value) : string :=
  match get ch "text" with JStr t => t | _ => "" end.

Definition nodesOf (ch : value) : list value :=
  match get ch "nodes" with JArr ns => ns | _ => [] end.

Definition carriesStop (ch : value) : bool :=
  isObjectLike ch && hasOwn ch "stop_reason".

Definition allText (gen : list value) : string :=
  fold_right (fun ch rest => textDelta ch +++ rest) "" gen.

Definition allNodes (gen : list value) : list value := flat_map nodesOf gen.

Definition finalStop (gen : list value) : value :=
  match rev (filter carriesStop gen) with
  | [] => JNull
  | ch :: _ => get ch "stop_reason"
  end.

(** The number of chunks that carry a stop reason. *)
Definition stopCount (gen : list value) : nat :=
  length (filter carriesStop gen).

End ChatStream.

(* ================================================================= *)
(** ** providers/models.js *)

Module Models.

(** A response as the discovery loop sees it: the HTTP status and the
    outcome of [resp.json().catch(() => null)]. *)
Record Response : Type := { status : Z; json : value }.

(** [resp.ok]: the status is in the range 200-299. *)
Definition respOk (r : Response) : bool :=
  (200 <=? status r)%Z && (status r <=? 299)%Z.

(** The ways discovery fails: the error of [makeUpstreamHttpError], the
    two errors the loop builds itself, and anything a helper throws. *)
Inductive Failure : Type :=
| UpstreamHttpError (label : string) (upstreamStatus : Z)
| NoModelList (label : string)
| AllNotFound (label : string) (triedCount : nat)
| Raised (message : string).

(** How a run of the loop ends, together with its local list [tried]. *)
Record Run : Type := {
  result : list string + Failure;
  tried : list string
}.

(** [s.includes(part)] *)
Definition includes (s part : string) : bool :=
  match String.index 0 part s with Some _ => true | None => false end.

(** [Object.keys(v).length] for an object or an array *)
Definition keyCount (v : value) : nat :=
  match v with JObj fs => length fs | JArr xs => length xs | _ => O end.

Section WithHost.
Context `{Host}.

Fixpoint uniqLoop (xs : list value) (seen out : list string) : list string :=
  match xs with
  | [] => out
  | it :: rest =>
      let s := normalizeString it in
      if negb (truthy (JStr s)) || mem s seen then uniqLoop rest seen out
      else uniqLoop rest (seen ++ [s]) (out ++ [s])
  end.

Definition uniqKeepOrder (xs : value) : list string :=
  uniqLoop (elements xs) [] [].

(** [m?.id ?? m?.name ?? m?.model ?? ""] *)
Definition idOf (m : value) : value :=
  orElse (orElse (orElse (get m "id") (get m "name")) (get m "model")) (JStr "").

Definition parseModelIds (j : value) : list string :=
  if negb (truthy j) || negb (typeofObject j) then []
  else
    match get j "data" with
    | JArr data => uniqKeepOrder (JArr (map idOf data))
    | _ =>
        match get j "models" with
        | JArr models =>
            uniqKeepOrder
              (JArr (map (fun m => if typeofString m then m else idOf m) models))
        | _ =>
            match get j "model_ids" with
            | JArr ids => uniqKeepOrder (JArr ids)
            | _ =>
                match get j "modelIds" with
                | JArr ids => uniqKeepOrder (JArr ids)
                | _ => []
                end
            end
        end
    end.

(** [fetchWithRetry(url, ...)] of [providers/request-util]: the response,
    or the message of what it throws. *)
Variable fetchWithRetry : string -> Response + string.

(** The [for] loop of [fetchModelsWithFallback]. *)
Fixpoint fallbackLoop (label : string) (urls tried : list string) : Run :=
  match urls with
  | [] => {| result := inr (AllNotFound label (length tried)); tried := tried |}
  | url :: rest =>
      let tried' := tried ++ [url] in
      match fetchWithRetry url with
      | inr message => {| result := inr (Raised message); tried := tried' |}
      | inl resp =>
          if negb (respOk resp) then
            if (status resp =? 404)%Z then fallbackLoop label rest tried'
            else {| result := inr (UpstreamHttpError label (status resp));
                    tried := tried' |}
          else
            let models := parseModelIds (json resp) in
            match models with
            | _ :: _ => {| result := inl models; tried := tried' |}
            | [] => {| result := inr (NoModelList label); tried := tried' |}
            end
      end
  end.

Definition fetchModelsWithFallback (urls : list string) (label : string) : Run :=
  fallbackLoop label (uniqKeepOrder (JArr (map JStr urls))) [].

(** Helpers of [infra/util] and [providers/http]; [requireString] gives
    [None] where it throws. *)
Variable requireString : string -> option string.
Variable normalizeRawToken : string -> string.
Variable joinBaseUrl : string -> string -> string.

(** The URL list [fetchOpenAiCompatibleModels] builds. *)
Definition openAiModelUrls (b : string) : list string :=
  [joinBaseUrl b "models"]
  ++ (if negb (includes b "/v1") then [joinBaseUrl b "v1/models"] else []).

Definition fetchOpenAiCompatibleModels (baseUrl apiKey : string)
  (extraHeaders : value) : Run :=
  match requireString baseUrl with
  | None => {| result := inr (Raised "OpenAI baseUrl"); tried := [] |}
  | Some b =>
      let key := normalizeRawToken apiKey in
      let extra := if isObjectLike extraHeaders then extraHeaders else JObj [] in
      if negb (truthy (JStr key)) && (keyCount extra =? 0)%nat
      then {| result := inr (Raised "OpenAI apiKey"); tried := [] |}
      else fetchModelsWithFallback (openAiModelUrls b) "OpenAI(models)"
  end.

End WithHost.
End Models.

(* ================================================================= *)
(** ** runtime/official.js: mergeModels *)

Module Official.
Section WithHost.
Context `{Host}.

(** [makeModelInfo] of [core/protocol] and [ensureModelRegistryFeatureFlags]
    of [core/model-registry]; neither module is among the sources.  The
    second takes the base flags, the BYOK model ids and the default model
    (passed twice, as [defaultModel] and as [agentChatModel]). *)
Variable makeModelInfo : string -> value.
Variable ensureModelRegistryFeatureFlags : value -> list string -> value -> value.

(** The own enumerable properties [{...base}] copies. *)
Definition spread (base : value) : list (string * value) :=
  match base with
  | JObj fs => fs
  | JArr xs => combine (map dec (seq 0 (length xs))) xs
  | _ => []
  end.

(** [m && typeof m.name === "string" ? m.name : ""] *)
Definition modelName (m : value) : string :=
  if truthy m then match get m "name" with JStr n => n | _ => "" end else "".

(** The [for] loop over [byokModelNames]. *)
Fixpoint appendByok (names : list string) (existing : list string)
  (models : list value) : list value :=
  match names with
  | [] => models
  | name :: rest =>
      if negb (truthy (JStr name)) || mem name existing
      then appendByok rest existing models
      else appendByok rest (existing ++ [name]) (models ++ [makeModelInfo name])
  end.

(** The names the loop appends a model for, in order. *)
Fixpoint freshNames (names : list string) (existing : list string) : list string :=
  match names with
  | [] => []
  | name :: rest =>
      if truthy (JStr name) && negb (mem name existing)
      then name :: freshNames rest (existing ++ [name])
      else freshNames rest existing
  end.

(** The set [existing] as built from the upstream models. *)
Definition existingNames (base : value) : list string :=
  filter (fun n => truthy (JStr n)) (map modelName (elements (get base "models"))).

Definition mergedModels (base : value) (byokModelNames : list string)
  : list value :=
  let models := elements (get base "models") in
  let existing := filter (fun n => truthy (JStr n)) (map modelName models) in
  appendByok byokModelNames existing models.

Definition mergeModels (upstreamJson : value) (byokModelNames : list string)
  (opts : value) : value :=
  let base := if isObjectLike upstreamJson then upstreamJson else JObj [] in
  let models := mergedModels base byokModelNames in
  let baseDefaultModel :=
    match get base "default_model" with
    | JStr dm =>
        if truthy (JStr dm) then JStr dm
        else orVal (get (nth 0 models JUndefined) "name") (JStr "unknown")
    | _ => orVal (get (nth 0 models JUndefined) "name") (JStr "unknown")
    end in
  let baseFlags :=
    if isPlainObject (get base "feature_flags") then get base "feature_flags"
    else JObj [] in
  let preferredDefaultModel := normalizeString (get opts "defaultModel") in
  let defaultModel :=
    if truthy (JStr preferredDefaultModel) then JStr preferredDefaultModel
    else baseDefaultModel in
  let flags := ensureModelRegistryFeatureFlags baseFlags byokModelNames defaultModel in
  JObj (set "feature_flags" flags
          (set "models" (JArr models)
             (set "default_model" defaultModel (spread base)))).

End WithHost.
End Official.

(* ================================================================= *)
(** ** runtime/shim.js: the two call handlers *)

Module Shim.

(** What a handler hands back to the patched upstream client. *)
Inductive Answer : Type :=
| PassThrough                 (** [undefined]: the official request goes on *)
| Replied (v : value)         (** a transformed BYOK or stub result *)
| EmptyStream                 (** [emptyAsyncGenerator()] *)
| Failed (message : string).  (** the handler throws *)

(** The calls a handler makes on its collaborators, in order. *)
Inductive Effect : Type :=
| HistoryCacheDeleted (conversationId : string)
| RouteDecided (endpoint : string)
| TransformCalled (argument : value)
| ByokServed (endpoint : string).  (** the branch of an endpoint is entered *)

Section WithHost.
Context `{Host}.

(** Collaborators from modules that are not among the sources:
    [normalizeEndpoint] and [safeTransform] of [infra/util] (the latter
    applied to the caller's [transform]; [None] where it throws),
    [decideRoute] of [core/router], and, for each endpoint a handler
    knows, the body of its branch ([serveByok], [serveByokStream]),
    which builds the answer with the providers and the protocol
    modules.  [deleteHistorySummaryCache] is called inside a [try] whose
    [catch] swallows the error; the call is kept as an effect. *)
Variable normalizeEndpoint : value -> string.
Variable safeTransform : value -> option value.
Variable decideRoute : value -> string -> value -> bool -> value.
Variable serveByok : value -> string -> value -> value -> Answer.
Variable serveByokStream : value -> string -> value -> value -> Answer.

Definition maybeDeleteHistorySummaryCacheForEndpoint (ep : string) (body : value)
  : list Effect :=
  let endpoint := normalizeEndpoint (JStr ep) in
  if negb (truthy (JStr endpoint)) then []
  else
    let lower := toLowerCase endpoint in
    if negb (Models.includes lower "delete")
       && negb (Models.includes lower "remove")
       && negb (Models.includes lower "archive")
    then []
    else
      let b := if isPlainObject body then body else JNull in
      let conversationId :=
        normalizeString
          (orElse (orElse (get b "conversation_id") (get b "conversationId"))
                  (get b "conversationID")) in
      if negb (truthy (JStr conversationId)) then []
      else [HistoryCacheDeleted conversationId].

(** [isTelemetryDisabled(cfg, ep)] *)
Definition isTelemetryDisabled (cfg : value) (ep : string) : bool :=
  includesStr (elements (get (get cfg "telemetry") "disabledEndpoints")) ep.

(** The endpoints that have a branch in [maybeHandleCallApi] and in
    [maybeHandleCallApiStream], in the order of the branches. *)
Definition callApiEndpoints : list string :=
  ["/get-models"; "/completion"; "/chat-input-completion"; "/edit"; "/chat";
   "/next_edit_loc"].

Definition callApiStreamEndpoints : list string :=
  ["/chat-stream"; "/prompt-enhancer"; "/generate-conversation-title";
   "/instruction-stream"; "/smart-paste-stream"; "/generate-commit-message-stream";
   "/next-edit-stream"].

(** [maybeHandleCallApi]; [runtimeEnabled] is [state.runtimeEnabled] and
    [cfg] what the configuration manager holds.  On a route of mode
    [byok] the branch of the endpoint answers; an endpoint without a
    branch reaches the final [return undefined]. *)
Definition maybeHandleCallApi (runtimeEnabled : bool) (cfg : value)
  (endpoint body : value) : Answer * list Effect :=
  let ep := normalizeEndpoint endpoint in
  if negb (truthy (JStr ep)) then (PassThrough, [])
  else
    let e0 := maybeDeleteHistorySummaryCacheForEndpoint ep body in
    if negb runtimeEnabled then (PassThrough, e0)
    else if isTelemetryDisabled cfg ep then
      match safeTransform (JObj []) with
      | Some v => (Replied v, e0 ++ [TransformCalled (JObj [])])
      | None => (PassThrough, e0 ++ [TransformCalled (JObj [])])
      end
    else
      let route := decideRoute cfg ep body runtimeEnabled in
      let e1 := e0 ++ [RouteDecided ep] in
      if isStr (get route "mode") "official" then (PassThrough, e1)
      else if isStr (get route "mode") "disabled" then
        match safeTransform (JObj []) with
        | Some v => (Replied v, e1 ++ [TransformCalled (JObj [])])
        | None => (Replied (JObj []), e1 ++ [TransformCalled (JObj [])])
        end
      else if negb (isStr (get route "mode") "byok") then (PassThrough, e1)
      else if mem ep callApiEndpoints
      then (serveByok cfg ep route body, e1 ++ [ByokServed ep])
      else (PassThrough, e1).

(** [maybeHandleCallApiStream] *)
Definition maybeHandleCallApiStream (runtimeEnabled : bool) (cfg : value)
  (endpoint body : value) : Answer * list Effect :=
  let ep := normalizeEndpoint endpoint in
  if negb (truthy (JStr ep)) then (PassThrough, [])
  else
    let e0 := maybeDeleteHistorySummaryCacheForEndpoint ep body in
    if negb runtimeEnabled then (PassThrough, e0)
    else
      let route := decideRoute cfg ep body runtimeEnabled in
      let e1 := e0 ++ [RouteDecided ep] in
      if isStr (get route "mode") "official" then (PassThrough, e1)
      else if isStr (get route "mode") "disabled" then (EmptyStream, e1)
      else if negb (isStr (get route "mode") "byok") then (PassThrough, e1)
      else if isTelemetryDisabled cfg ep then (EmptyStream, e1)
      else if mem ep callApiStreamEndpoints
      then (serveByokStream cfg ep route body, e1 ++ [ByokServed ep])
      else (PassThrough, e1).

(** The effects that touch the request: routing, the caller's transform
    and the BYOK service. *)
Definition touchesRequest (e : Effect) : bool :=
  match e with HistoryCacheDeleted _ => false | _ => true end.

End WithHost.
End Shim.

(* ================================================================= *)
(** ** core/self-test.js and the head of core/self-test/tools-model.js *)

Module SelfTest.

(** An awaited call returns or throws. *)
Inductive outcome (A : Type) : Type :=
| Returns (a : A)
| Throws (message : string).
Arguments Returns {A} a.
Arguments Throws {A} message.

(** An awaited call as the harness meets it: how long it took on the
    clock of [nowMs] and how it ended. *)
Record Call (A : Type) : Type := { elapsed : Z; ending : outcome A }.
Arguments elapsed {A} c.
Arguments ending {A} c.

(** The object [withTimed] resolves to: [{ ok: true, ms, res }] or
    [{ ok: false, ms, error }]. *)
Record Timed (A : Type) : Type := {
  t_ok : bool;
  t_ms : Z;
  t_res : option A;
  t_error : option string
}.
Arguments t_ok {A} t.
Arguments t_ms {A} t.
Arguments t_res {A} t.
Arguments t_error {A} t.

Definition withTimed {A : Type} (c : Call A) : Timed A :=
  match ending c with
  | Returns r => {| t_ok := true; t_ms := elapsed c; t_res := Some r; t_error := None |}
  | Throws m => {| t_ok := false; t_ms := elapsed c; t_res := None; t_error := Some m |}
  end.

(** What a provider's chat generator does: the chunks it yields and,
    if it ends by throwing, the message. *)
Record Stream : Type := { yielded : list value; thrown : option string }.

(** A [Map] with string keys, in insertion order. *)
Fixpoint mapGet {A : Type} (k : string) (m : list (string * A)) : option A :=
  match m with
  | [] => None
  | (k', a) :: rest => if k' =? k then Some a else mapGet k rest
  end.

Fixpoint mapSet {A : Type} (k : string) (a : A) (m : list (string * A))
  : list (string * A) :=
  match m with
  | [] => [(k, a)]
  | (k', a') :: rest =>
      if k' =? k then (k', a) :: rest else (k', a') :: mapSet k a rest
  end.

(** [new Map(pairs)] *)
Definition mapOf {A : Type} (pairs : list (string * A)) : list (string * A) :=
  fold_left (fun m kv => mapSet (fst kv) (snd kv) m) pairs [].

(** The slices [xs.slice(i, i + size)] for [i = 0, size, 2 size, ...];
    [fuel] bounds the number of slices. *)
Fixpoint slices {A : Type} (fuel size : nat) (xs : list A) : list (list A) :=
  match fuel, xs with
  | O, _ | _, [] => []
  | S fuel', _ => firstn size xs :: slices fuel' size (skipn size xs)
  end.

(** One extracted tool use. *)
Record ToolUse : Type := {
  tool_use_id : string;
  tool_name : string;
  input_json : string;
  mcp_server_name : string;
  mcp_tool_name : string
}.

(** One entry of a test list.  The global tests leave [ms] or [detail]
    out in places. *)
Record TestResult : Type := {
  name : string;
  ok : bool;
  ms : option Z;
  detail : option string
}.

Definition test (n : string) (b : bool) (m : Z) (d : string) : TestResult :=
  {| name := n; ok := b; ms := Some m; detail := Some d |}.

(** The entry [selfTestProvider] builds. *)
Record Entry : Type := {
  providerId : string;
  providerType : string;
  model : string;
  tests : list TestResult;
  entryOk : bool;
  msTotal : Z
}.

(** The closure [record] of [selfTestProvider], on the entry it mutates. *)
Definition recordOn (t : TestResult) (e : Entry) : Entry :=
  {| providerId := providerId e;
     providerType := providerType e;
     model := model e;
     tests := tests e ++ [t];
     entryOk := if negb (ok t) then false else entryOk e;
     msTotal := msTotal e |}.

Definition withModel (m : string) (e : Entry) : Entry :=
  {| providerId := providerId e;
     providerType := providerType e;
     model := m;
     tests := tests e;
     entryOk := entryOk e;
     msTotal := msTotal e |}.

Definition withMsTotal (t : Z) (e : Entry) : Entry :=
  {| providerId := providerId e;
     providerType := providerType e;
     model := model e;
     tests := tests e;
     entryOk := entryOk e;
     msTotal := t |}.

(** The body of [selfTestProvider] runs on the entry and may leave by
    [return entry]. *)
Inductive Flow (A : Type) : Type :=
| Goes (a : A)
| Left.
Arguments Goes {A} a.
Arguments Left {A}.

Definition Probe (A : Type) : Type := Entry -> Flow A * Entry.

Definition ret {A : Type} (a : A) : Probe A := fun e => (Goes a, e).

Definition bind {A B : Type} (m : Probe A) (k : A -> Probe B) : Probe B :=
  fun e =>
    match m e with
    | (Goes a, e') => k a e'
    | (Left, e') => (Left, e')
    end.

Definition record (t : TestResult) : Probe unit :=
  fun e => (Goes tt, recordOn t e).

Definition setModel (m : string) : Probe unit :=
  fun e => (Goes tt, withModel m e).

Definition getModel : Probe string := fun e => (Goes (model e), e).

Definition returnEntry {A : Type} : Probe A := fun e => (Left, e).

Notation "x <- m ;; k" := (bind m (fun x => k))
  (at level 61, m at next level, right associativity).
Notation "m ;; k" := (bind m (fun _ => k))
  (at level 61, right associativity).

(** A chat call: how long it took and what the generator did. *)
Record ChatCall : Type := { chatElapsed : Z; chatStream : Stream }.

(** What one batch of the real-tool round trip meets: the two chat
    calls and, for each, whether [abortSignal.aborted] holds when its
    [catch] runs. *)
Record BatchWorld : Type := {
  firstTurn : Stream;
  firstAborted : bool;
  secondTurn : Stream;
  secondAborted : bool
}.

(** What the probes of one provider meet. *)
Record ProviderWorld : Type := {
  modelsCall : Call value;
  completeTextCall : Call string;
  streamTextCall : Call string;
  nextEditCall : Call string;
  nextEditLocCall : Call string;
  chatCall : ChatCall;
  schemaMs : Z;
  realToolsMs : Z;
  realToolsBatch : nat -> BatchWorld;
  toolChatCall : ChatCall;
  toolRoundtripCall : ChatCall;
  totalMs : Z
}.

(** The counters and lists of [realToolsToolRoundtripByProvider]. *)
Record Tally : Type := {
  metaMismatches : list string;
  callFailed : list string;
  roundtripFailed : list string;
  calledOk : nat;
  roundtripOk : nat
}.

Record ProbeResult : Type := { probeOk : bool; probeDetail : string }.

(** What [runSelfTest] meets outside the providers. *)
Record RunWorld : Type := {
  captured : value;
  upstreamFetch : Call value;
  strictCapturedMs : Z;
  toolsExecCall : Call value;
  providerWorld : nat -> ProviderWorld;
  historyRun1 : Call bool;
  historyRun2 : Call bool
}.

Record Report : Type := {
  reportOk : bool;
  globalTests : list TestResult;
  capturedCount : nat;
  capturedSource : string;
  providers : list Entry
}.

Section WithHost.
Context `{Host}.

(** Constants of [core/augment-protocol] and helpers of
    [core/augment-chat] and [core/augment-chat.shared]; none of these
    modules is among the sources. *)
Variable RESPONSE_NODE_TOOL_USE : Z.
Variable RESPONSE_NODE_TOKEN_USAGE : Z.
Variable STOP_REASON_TOOL_USE_REQUESTED : value.
Variable resolveToolSchema : value -> value.
Variable convertOpenAiTools : value -> value.
Variable convertAnthropicTools : value -> value.
Variable convertGeminiTools : value -> value.
Variable convertOpenAiResponsesTools : value -> value.

Definition nonEmpty (s : string) : bool := truthy (JStr s).

(** [hasAuthHeader(headers)] *)
Definition hasAuthHeader (headers : value) : bool :=
  let h := if isPlainObject headers then headers else JObj [] in
  let ks :=
    match h with
    | JObj fs => map (fun k => toLowerCase (trim k)) (keys fs)
    | _ => []
    end in
  existsb (fun k => (k =? "authorization") || (k =? "x-api-key")
                    || (k =? "api-key") || (k =? "x-goog-api-key")) ks.

(** [formatMaybeInt(v)] *)
Definition formatMaybeInt (v : value) : string :=
  match toNumber v with Some n => decZ n | None => "" end.

(** [a.find(Boolean)] on normalized strings, [""] for [undefined || ""] *)
Definition firstNonEmpty (xs : list string) : string :=
  match find nonEmpty xs with Some s => s | None => "" end.

Definition pickProviderModel (provider fetchedModels : value) : string :=
  let dm := normalizeString (get provider "defaultModel") in
  if nonEmpty dm then dm
  else
    let firstLocal :=
      firstNonEmpty (map normalizeString (elements (get provider "models"))) in
    if nonEmpty firstLocal then firstLocal
    else firstNonEmpty (map normalizeString (elements fetchedModels)).

(** The provider families the dispatchers know. *)
Definition knownType (t : string) : bool :=
  (t =? "openai_compatible") || (t =? "anthropic")
  || (t =? "openai_responses") || (t =? "gemini_ai_studio").

Definition unknownType (t : string) : string := "未知 provider.type: " +++ t.

(** [chatStreamByProvider]: the provider's generator is drained by
    [collectChatStream] with its default limit.  A generator that throws
    does so when the loop asks for the chunk after the last one it
    yielded, unless the loop has left by [break] before. *)
Definition chatStreamByProvider (type : string) (s : Stream)
  : outcome ChatStream.Collected :=
  if negb (knownType type) then Throws (unknownType type)
  else
    match thrown s with
    | Some m =>
        if (length (yielded s) <=? ChatStream.defaultMaxChunks)%nat then Throws m
        else Returns (ChatStream.collectChatStream (yielded s)
                        ChatStream.defaultMaxChunks)
    | None =>
        Returns (ChatStream.collectChatStream (yielded s)
                   ChatStream.defaultMaxChunks)
    end.

(** [r.a && typeof r.a === "object" ? r.a
      : r.b && typeof r.b === "object" ? r.b : null] *)
Definition objectMember (r : value) (a b : string) : value :=
  if isObjectLike (get r a) then get r a
  else if isObjectLike (get r b) then get r b
  else JNull.

(** One turn of the loop of [extractToolUsesFromNodes]. *)
Definition toolUseOf (n : value) : option ToolUse :=
  if negb (isObjectLike n) then None
  else
    match toNumber (get n "type") with
    | None => None
    | Some t =>
        if negb (t =? RESPONSE_NODE_TOOL_USE)%Z then None
        else
          let tu := objectMember n "tool_use" "toolUse" in
          let id := normalizeString (orElse (get tu "tool_use_id") (get tu "toolUseId")) in
          let nm := normalizeString (orElse (get tu "tool_name") (get tu "toolName")) in
          let ij :=
            match orElse (get tu "input_json") (get tu "inputJson") with
            | JStr j => j
            | _ => ""
            end in
          let server :=
            normalizeString (orElse (get tu "mcp_server_name") (get tu "mcpServerName")) in
          let tool :=
            normalizeString (orElse (get tu "mcp_tool_name") (get tu "mcpToolName")) in
          if negb (nonEmpty id) || negb (nonEmpty nm) then None
          else Some {| tool_use_id := id; tool_name := nm; input_json := ij;
                       mcp_server_name := server; mcp_tool_name := tool |}
    end.

Definition extractToolUsesFromNodes (nodes : list value) : list ToolUse :=
  flat_map (fun n => match toolUseOf n with Some t => [t] | None => [] end) nodes.

Definition extractTokenUsageFromNodes (nodes : list value) : option value :=
  fold_left
    (fun last n =>
       if negb (isObjectLike n) then last
       else
         match toNumber (get n "type") with
         | None => last
         | Some t =>
             if negb (t =? RESPONSE_NODE_TOKEN_USAGE)%Z then last
             else
               match objectMember n "token_usage" "tokenUsage" with
               | JNull => last
               | tu => Some tu
               end
         end)
    nodes None.

(** [countSchemaProperties(schema)] *)
Definition countSchemaProperties (schema : value) : nat :=
  let s := if isPlainObject schema then schema else JNull in
  match get s "properties" with
  | JObj ps => length ps
  | _ => O
  end.

(** [Boolean(normalizeString(d?.mcp_server_name ?? d?.mcpServerName)
      || normalizeString(d?.mcp_tool_name ?? d?.mcpToolName))] *)
Definition hasMcpMeta (d : value) : bool :=
  nonEmpty (normalizeString (orElse (get d "mcp_server_name") (get d "mcpServerName")))
  || nonEmpty (normalizeString (orElse (get d "mcp_tool_name") (get d "mcpToolName"))).

Record SchemaSummary : Type := {
  toolCount : nat;
  withMcpMeta : nat;
  sampleOk : nat;
  sampleFailedNames : list string;
  sampleFailedTruncated : bool
}.

(** [summarizeCapturedToolsSchemas].  On values of [Js.value] neither
    [sampleJsonFromSchema] nor [JSON.stringify] throws, so the [catch]
    of the loop is never entered: every tool counts as sampled. *)
Definition summarizeCapturedToolsSchemas (toolDefs : value) : SchemaSummary :=
  let defs := ToolDefs.dedupeToolDefsByName toolDefs in
  let sampled :=
    map (fun d => SchemaSample.sampleJsonFromSchema (resolveToolSchema d) 0) defs in
  let failed : list string := [] in
  {| toolCount := length defs;
     withMcpMeta := length (filter hasMcpMeta defs);
     sampleOk := length sampled;
     sampleFailedNames := firstn 12 failed;
     sampleFailedTruncated := (12 <? length failed)%nat |}.

(** The comparator [(a, b) => name(a).localeCompare(name(b))] *)
Definition byName (a b : value) : Z :=
  localeCompare (ToolDefs.nameOf a) (ToolDefs.nameOf b).

(** The closure [pickByName] on its two captured variables. *)
Definition pickByName (index : list (string * value)) (n : value)
  (st : list value * list string) : list value * list string :=
  let k := normalizeString n in
  match (if nonEmpty k then mapGet k index else None) with
  | None => st
  | Some d =>
      if mem k (snd st) then st
      else (fst st ++ [d], snd st ++ [k])
  end.

(** [for (x of xs) { if (chosen.length >= maxTools) break; pickByName(x) }]:
    [chosen] never shrinks, so once the guard holds it holds for the
    rest of the list. *)
Definition pickWhileRoom (index : list (string * value)) (maxTools : Z)
  (xs : list value) (st : list value * list string)
  : list value * list string :=
  fold_left
    (fun st x =>
       if (maxTools <=? Z.of_nat (length (fst st)))%Z then st
       else pickByName index x st)
    xs st.

Definition pickRealToolsForUsabilityProbe (toolDefs : value) (maxTools : Z)
  : list value :=
  let defs := ToolDefs.dedupeToolDefsByName toolDefs in
  let max := Z.max 1 (if (maxTools =? 0)%Z then 4 else maxTools) in
  if (Z.of_nat (length defs) <=? max)%Z then sortBy byName defs
  else
    let index :=
      mapOf (filter (fun x => nonEmpty (fst x))
                    (map (fun d => (ToolDefs.nameOf d, d)) defs)) in
    let room st := (Z.of_nat (length (fst st)) <? maxTools)%Z in
    let preferredNames :=
      ["str-replace-editor"; "codebase-retrieval"; "web-fetch"; "web-search";
       "diagnostics"] in
    let st1 := pickWhileRoom index maxTools (map JStr preferredNames) ([], []) in
    let st2 :=
      if room st1 then
        let mcp := sortBy byName (filter hasMcpMeta defs) in
        pickWhileRoom index maxTools (map (fun d => get d "name") mcp) st1
      else st1 in
    let st3 :=
      if room st2 then
        let ranked :=
          sortBy
            (fun a b =>
               let diff := (Z.of_nat (snd b) - Z.of_nat (snd a))%Z in
               if negb (diff =? 0)%Z then diff else byName (fst a) (fst b))
            (map (fun d => (d, countSchemaProperties (resolveToolSchema d))) defs) in
        pickWhileRoom index maxTools (map (fun it => get (fst it) "name") ranked) st2
      else st2 in
    let st4 :=
      if room st3 then
        pickWhileRoom index maxTools
          (map (fun d => get d "name") (sortBy byName defs)) st3
      else st3 in
    firstn (Z.to_nat max) (fst st4).

(** [convertToolsByProviderType] *)
Definition convertToolsByProviderType (providerType toolDefs : value)
  : outcome value :=
  let t := normalizeString providerType in
  if t =? "openai_compatible" then Returns (convertOpenAiTools toolDefs)
  else if t =? "anthropic" then Returns (convertAnthropicTools toolDefs)
  else if t =? "gemini_ai_studio" then Returns (convertGeminiTools toolDefs)
  else if t =? "openai_responses" then Returns (convertOpenAiResponsesTools toolDefs)
  else Throws (unknownType t).

(** *** The real-tool round trip *)

Definition emptyTally : Tally :=
  {| metaMismatches := []; callFailed := []; roundtripFailed := [];
     calledOk := O; roundtripOk := O |}.

Definition failCalls (ns : list string) (t : Tally) : Tally :=
  {| metaMismatches := metaMismatches t;
     callFailed := callFailed t ++ ns;
     roundtripFailed := roundtripFailed t;
     calledOk := calledOk t;
     roundtripOk := roundtripOk t |}.

Definition failRoundtrips (ns : list string) (t : Tally) : Tally :=
  {| metaMismatches := metaMismatches t;
     callFailed := callFailed t;
     roundtripFailed := roundtripFailed t ++ ns;
     calledOk := calledOk t;
     roundtripOk := roundtripOk t |}.

Definition passRoundtrips (n : nat) (t : Tally) : Tally :=
  {| metaMismatches := metaMismatches t;
     callFailed := callFailed t;
     roundtripFailed := roundtripFailed t;
     calledOk := calledOk t;
     roundtripOk := roundtripOk t + n |}.

(** The part of the per-tool loop that follows [calledOk += 1]: the two
    comparisons of the declared MCP names with the echoed ones. *)
Definition metaMismatchesOf (toolName : string) (toolDef : value) (used : ToolUse)
  : list string :=
  let expectedMcpServerName :=
    normalizeString (orElse (get toolDef "mcp_server_name") (get toolDef "mcpServerName")) in
  let expectedMcpToolName :=
    normalizeString (orElse (get toolDef "mcp_tool_name") (get toolDef "mcpToolName")) in
  let gotServer := normalizeString (JStr (mcp_server_name used)) in
  let gotTool := normalizeString (JStr (mcp_tool_name used)) in
  (if nonEmpty expectedMcpServerName && negb (gotServer =? expectedMcpServerName)
   then ["mcp_server_name " +++ toolName +++ ": expected=" +++ expectedMcpServerName
         +++ " got=" +++ orStr gotServer "?"]
   else [])
  ++
  (if nonEmpty expectedMcpToolName && negb (gotTool =? expectedMcpToolName)
   then ["mcp_tool_name " +++ toolName +++ ": expected=" +++ expectedMcpToolName
         +++ " got=" +++ orStr gotTool "?"]
   else []).

(** One turn of [for (const toolName of namesBatch)]. *)
Definition checkTool (toolDefsByName : list (string * value))
  (usedByName : list (string * ToolUse)) (t : Tally) (toolName : string) : Tally :=
  let toolDef :=
    match mapGet toolName toolDefsByName with Some d => d | None => JNull end in
  match mapGet toolName usedByName with
  | None => failCalls [toolName] t
  | Some used =>
      {| metaMismatches := metaMismatches t ++ metaMismatchesOf toolName toolDef used;
         callFailed := callFailed t;
         roundtripFailed := roundtripFailed t;
         calledOk := calledOk t + 1;
         roundtripOk := roundtripOk t |}
  end.

(** The map [usedByName] built from the extracted tool uses. *)
Definition usedByNameOf (namesBatch : list string) (toolUses : list ToolUse)
  : list (string * ToolUse) :=
  fold_left
    (fun used t =>
       let n := normalizeString (JStr (tool_name t)) in
       if negb (nonEmpty n) || StrictSchema.isSome (mapGet n used) then used
       else if negb (mem n namesBatch) then used
       else mapSet n t used)
    toolUses [].

(** The loop over the batches; [bi] is the index of the batch at hand. *)
Fixpoint batchLoop (type : string) (w : nat -> BatchWorld)
  (toolDefsByName : list (string * value)) (bi : nat)
  (batches : list (list string)) (t : Tally) : outcome Tally :=
  match batches with
  | [] => Returns t
  | namesBatch :: rest =>
      let defsBatch :=
        flat_map (fun n => match mapGet n toolDefsByName with
                           | Some d => [d]
                           | None => []
                           end) namesBatch in
      match defsBatch with
      | [] => batchLoop type w toolDefsByName (S bi) rest t
      | _ :: _ =>
          match chatStreamByProvider type (firstTurn (w bi)) with
          | Throws m =>
              if firstAborted (w bi) then Throws m
              else batchLoop type w toolDefsByName (S bi) rest (failCalls namesBatch t)
          | Returns res1 =>
              let toolUses := extractToolUsesFromNodes (ChatStream.nodes res1) in
              let usedByName := usedByNameOf namesBatch toolUses in
              let t1 := fold_left (checkTool toolDefsByName usedByName) namesBatch t in
              match usedByName with
              | [] => batchLoop type w toolDefsByName (S bi) rest t1
              | _ :: _ =>
                  let used := map fst usedByName in
                  match chatStreamByProvider type (secondTurn (w bi)) with
                  | Throws m =>
                      if secondAborted (w bi) then Throws m
                      else batchLoop type w toolDefsByName (S bi) rest
                             (failRoundtrips used t1)
                  | Returns res2 =>
                      let text2 := normalizeString (JStr (ChatStream.text res2)) in
                      if negb (nonEmpty text2)
                      then batchLoop type w toolDefsByName (S bi) rest
                             (failRoundtrips used t1)
                      else batchLoop type w toolDefsByName (S bi) rest
                             (passRoundtrips (length used) t1)
                  end
              end
          end
      end
  end.

(** The closing lines: the detail text and the verdict. *)
Definition roundtripVerdict (toolNamesCount uniqueCount : nat) (t : Tally)
  : ProbeResult :=
  let detailParts :=
    ["tools=" +++ dec toolNamesCount +++ "/" +++ dec uniqueCount;
     "call=" +++ dec (calledOk t) +++ "/" +++ dec toolNamesCount;
     "roundtrip=" +++ dec (roundtripOk t) +++ "/" +++ dec toolNamesCount]
    ++ match callFailed t with
       | [] => []
       | first :: _ =>
           ["call_fail=" +++ dec (length (callFailed t)) +++ " first=" +++ first]
       end
    ++ match roundtripFailed t with
       | [] => []
       | first :: _ =>
           ["roundtrip_fail=" +++ dec (length (roundtripFailed t)) +++ " first=" +++ first]
       end
    ++ match metaMismatches t with
       | [] => []
       | first :: _ =>
           ["meta_mismatch=" +++ dec (length (metaMismatches t)) +++ " first=" +++ first]
       end in
  {| probeOk :=
       (length (callFailed t) =? 0)%nat && (length (roundtripFailed t) =? 0)%nat
       && (length (metaMismatches t) =? 0)%nat;
     probeDetail := trim (join " " detailParts) |}.

Definition realToolsToolRoundtripByProvider (provider : value)
  (toolDefinitions maxTools : value) (w : nat -> BatchWorld)
  : outcome ProbeResult :=
  let providerType := normalizeString (get provider "type") in
  let toolDefsAll := JArr (elements toolDefinitions) in
  let uniqueDefs := ToolDefs.dedupeToolDefsByName toolDefsAll in
  let uniqueCount := length uniqueDefs in
  if (uniqueCount =? 0)%nat then Returns {| probeOk := false; probeDetail := "no tools" |}
  else
    let desired :=
      match toNumber maxTools with
      | Some n => if (0 <? n)%Z then n else Z.of_nat uniqueCount
      | None => Z.of_nat uniqueCount
      end in
    let pickedToolDefs :=
      pickRealToolsForUsabilityProbe toolDefsAll
        (Z.max 1 (Z.min desired (Z.of_nat uniqueCount))) in
    let toolNames := filter nonEmpty (map ToolDefs.nameOf pickedToolDefs) in
    match toolNames with
    | [] => Returns {| probeOk := false; probeDetail := "no toolNames" |}
    | _ :: _ =>
        let toolDefsByName :=
          mapOf (filter (fun x => nonEmpty (fst x))
                        (map (fun d => (ToolDefs.nameOf d, d)) pickedToolDefs)) in
        let batchSize := 6%nat in
        let batches := slices (length toolNames) batchSize toolNames in
        match batchLoop providerType w toolDefsByName 0 batches emptyTally with
        | Throws m => Throws m
        | Returns t => Returns (roundtripVerdict (length toolNames) uniqueCount t)
        end
    end.

(** *** The probes of one provider *)

(** [res.error] as [normalizeString] receives it: [undefined] when the
    call returned. *)
Definition errorOf {A : Type} (r : Timed A) : string :=
  match t_error r with Some m => m | None => "" end.

Definition errorValue {A : Type} (r : Timed A) : value :=
  match t_error r with Some m => JStr m | None => JUndefined end.

Definition timedChat (type : string) (c : ChatCall) : Timed ChatStream.Collected :=
  withTimed {| elapsed := chatElapsed c;
               ending := chatStreamByProvider type (chatStream c) |}.

(** The probes [completeText], [streamText], [nextEdit] and
    [nextEditLoc] share one shape: the call is timed and one of three
    tests is recorded.  [textTest] is the test the branch at hand hands
    to [record]. *)
Definition textTest (label : string) (c : Call string) : TestResult :=
  let r := withTimed c in
  match t_res r with
  | Some res =>
      if nonEmpty (normalizeString (JStr res))
      then test label true (t_ms r) ("len=" +++ dec (String.length res))
      else test label false (t_ms r) "empty output"
  | None => test label false (t_ms r) (errorOf r)
  end.

Definition textProbe (label : string) (c : Call string) : Probe unit :=
  record (textTest label c).

Definition usageText (nodes : list value) : string :=
  match extractTokenUsageFromNodes nodes with
  | Some tu =>
      " tokens="
      +++ orStr (formatMaybeInt (orElse (get tu "input_tokens") (get tu "inputTokens"))) "?"
      +++ "/"
      +++ orStr (formatMaybeInt (orElse (get tu "output_tokens") (get tu "outputTokens"))) "?"
      +++ " cached="
      +++ orStr (formatMaybeInt (orElse (get tu "cache_read_input_tokens")
                                        (get tu "cacheReadInputTokens"))) "0"
  | None => ""
  end.

(** The test the basic chat probe records. *)
Definition chatTest (type : string) (c : ChatCall) : TestResult :=
  let r := timedChat type c in
  match t_res r with
  | Some res =>
      if nonEmpty (normalizeString (JStr (ChatStream.text res)))
         || (0 <? length (ChatStream.nodes res))%nat
      then test "chatStream" true (t_ms r)
             ("textLen=" +++ dec (String.length (ChatStream.text res))
              +++ " nodes=" +++ dec (length (ChatStream.nodes res))
              +++ usageText (ChatStream.nodes res))
      else test "chatStream" false (t_ms r) "empty output"
  | None => test "chatStream" false (t_ms r) (errorOf r)
  end.

Definition chatProbe (type : string) (c : ChatCall) : Probe unit :=
  record (chatTest type c).

(** The callback of the [realToolsSchema] probe. *)
Definition schemaCheck (type : string) (realToolDefs : value) : outcome nat :=
  match convertToolsByProviderType (JStr type) realToolDefs with
  | Throws m => Throws m
  | Returns converted =>
      let v := StrictSchema.validateConvertedToolsForProvider (JStr type) converted in
      if negb (StrictSchema.ok v)
      then Throws (join " | " (firstn 8 (StrictSchema.issues v)))
      else Returns (length (elements converted))
  end.

(** The test the [realToolsSchema] probe records on a non-empty
    captured tool list. *)
Definition realToolsSchemaTest (w : ProviderWorld) (type : string)
  (realToolDefs : value) : TestResult :=
  let sum := ToolDefs.summarizeToolDefs realToolDefs 12 in
  let schemaRes :=
    withTimed {| elapsed := schemaMs w; ending := schemaCheck type realToolDefs |} in
  match t_res schemaRes with
  | Some convertedCount =>
      test "realToolsSchema" true (t_ms schemaRes)
        ("tools=" +++ dec (ToolDefs.count sum)
         +++ " converted=" +++ dec convertedCount
         +++ " names=" +++ join "," (ToolDefs.names sum)
         +++ (if ToolDefs.namesTruncated sum then ",…" else ""))
  | None => test "realToolsSchema" false (t_ms schemaRes) (errorOf schemaRes)
  end.

(** The test the [realToolsToolRoundtrip] probe records on a non-empty
    captured tool list. *)
Definition realToolsRoundtripTest (w : ProviderWorld) (provider realToolDefs : value)
  : TestResult :=
  let roundtripRes :=
    withTimed {| elapsed := realToolsMs w;
                 ending := realToolsToolRoundtripByProvider provider realToolDefs
                             (JNum 9999) (realToolsBatch w) |} in
  match t_res roundtripRes with
  | Some r =>
      if probeOk r
      then test "realToolsToolRoundtrip" true (t_ms roundtripRes)
             (orStr (probeDetail r) "")
      else test "realToolsToolRoundtrip" false (t_ms roundtripRes)
             (orStr (probeDetail r) "failed")
  | None =>
      test "realToolsToolRoundtrip" false (t_ms roundtripRes) (errorOf roundtripRes)
  end.

Definition realToolsProbes (w : ProviderWorld) (provider : value) (type : string)
  (capturedToolDefinitions : value) : Probe unit :=
  let realToolDefs := JArr (elements capturedToolDefinitions) in
  if (0 <? length (elements realToolDefs))%nat then
    record (realToolsSchemaTest w type realToolDefs) ;;
    record (realToolsRoundtripTest w provider realToolDefs)
  else
    record (test "realToolsSchema" true 0 "skipped (no captured tool_definitions yet)") ;;
    record (test "realToolsToolRoundtrip" true 0
              "skipped (no captured tool_definitions yet)").

(** The test the tool-result round trip records. *)
Definition toolRoundtripTest (roundtripRes : Timed ChatStream.Collected) : TestResult :=
  match t_res roundtripRes with
  | Some res2 =>
      if nonEmpty (normalizeString (JStr (ChatStream.text res2)))
      then test "toolRoundtrip" true (t_ms roundtripRes)
             ("textLen=" +++ dec (String.length (ChatStream.text res2)))
      else test "toolRoundtrip" false (t_ms roundtripRes) "empty output"
  | None => test "toolRoundtrip" false (t_ms roundtripRes) (errorOf roundtripRes)
  end.

(** The two tool probes that close the run of a provider. *)
Definition toolProbes (w : ProviderWorld) (type : string) : Probe unit :=
  let toolChatRes := timedChat type (toolChatCall w) in
  match t_res toolChatRes with
  | None =>
      record (test "tools+multimodal" false (t_ms toolChatRes) (errorOf toolChatRes)) ;;
      returnEntry
  | Some res =>
      let stop := ChatStream.stop_reason res in
      match extractToolUsesFromNodes (ChatStream.nodes res) with
      | [] =>
          record (test "tools+multimodal" true (t_ms toolChatRes)
                    ("no tool_use observed (stop_reason="
                     +++ orStr (normalizeString stop) "n/a" +++ ")")) ;;
          record (test "toolRoundtrip" true 0 "skipped (no tool call)") ;;
          returnEntry
      | first :: _ =>
          record (test "tools+multimodal" true (t_ms toolChatRes)
                    ("tool=" +++ tool_name first +++ " id=" +++ tool_use_id first
                     +++ " stop_reason=" +++ orStr (normalizeString stop) "n/a")) ;;
          let roundtripRes := timedChat type (toolRoundtripCall w) in
          record (toolRoundtripTest roundtripRes) ;;
          (if nonEmpty (normalizeString (errorValue roundtripRes))
              && Models.includes (normalizeString (errorValue roundtripRes))
                   "tool_result_missing"
           then record (test "note" true 0
                          "观察到 tool_result_missing：说明工具执行/回填缺失被容错降级（不是 400/422）。")
           else ret tt) ;;
          (if truthy stop && negb (strictEq stop STOP_REASON_TOOL_USE_REQUESTED)
           then record (test "note" true 0
                          ("模型 stop_reason=" +++ toString stop
                           +++ "（可能未真正进入工具模式）"))
           else ret tt)
      end
  end.

(** [authOk] of [selfTestProvider] *)
Definition authOk (provider : value) : bool :=
  let apiKey := normalizeString (get provider "apiKey") in
  let headers :=
    if isPlainObject (get provider "headers") then get provider "headers" else JObj [] in
  nonEmpty apiKey || hasAuthHeader headers.

(** The model the entry holds after the discovery probe. *)
Definition discoveredModel (w : ProviderWorld) (provider : value) : string :=
  match t_res (withTimed (modelsCall w)) with
  | Some res => pickProviderModel provider (JArr (elements res))
  | None => pickProviderModel provider (JArr [])
  end.

(** The body of [selfTestProvider] inside its [try]. *)
Definition providerBody (w : ProviderWorld) (provider : value) (type : string)
  (capturedToolDefinitions : value) : Probe unit :=
  let baseUrl := normalizeString (get provider "baseUrl") in
  let authOk := authOk provider in
  if negb (nonEmpty type) || negb (nonEmpty baseUrl) || negb authOk then
    record (test "config" false 0
              ("type/baseUrl/auth 未配置完整（type=" +++ orStr type "?"
               +++ ", baseUrl=" +++ orStr baseUrl "?"
               +++ ", auth=" +++ (if authOk then "set" else "empty") +++ "）")) ;;
    returnEntry
  else
    let modelsRes := withTimed (modelsCall w) in
    (match t_res modelsRes with
     | Some res =>
         let models := JArr (elements res) in
         record (test "models" true (t_ms modelsRes)
                   ("models=" +++ dec (length (elements models)))) ;;
         setModel (pickProviderModel provider models)
     | None =>
         record (test "models" false (t_ms modelsRes) (errorOf modelsRes)) ;;
         setModel (pickProviderModel provider (JArr []))
     end) ;;
    entryModel <- getModel ;;
    let model := normalizeString (JStr entryModel) in
    if negb (nonEmpty model) then
      record (test "model" false 0
                "未找到可用 model（请配置 providers[].defaultModel 或 models[]）") ;;
      returnEntry
    else
      textProbe "completeText" (completeTextCall w) ;;
      textProbe "streamText" (streamTextCall w) ;;
      textProbe "nextEdit" (nextEditCall w) ;;
      textProbe "nextEditLoc" (nextEditLocCall w) ;;
      chatProbe type (chatCall w) ;;
      realToolsProbes w provider type capturedToolDefinitions ;;
      toolProbes w type.

Definition selfTestProvider (w : ProviderWorld) (provider : value)
  (capturedToolDefinitions : value) : Entry :=
  let pid := orStr (normalizeString (get provider "id")) "" in
  let type := normalizeString (get provider "type") in
  let entry :=
    {| providerId := pid; providerType := type; model := ""; tests := [];
       entryOk := true; msTotal := 0 |} in
  withMsTotal (totalMs w)
    (snd (providerBody w provider type capturedToolDefinitions entry)).

(** What decides how far the probes of a provider go. *)
Definition configComplete (provider : value) : bool :=
  nonEmpty (normalizeString (get provider "type"))
  && nonEmpty (normalizeString (get provider "baseUrl"))
  && authOk provider.

Definition resolvedModel (w : ProviderWorld) (provider : value) : string :=
  normalizeString (JStr (discoveredModel w provider)).

(** The probes that run in a row once the configuration is complete and
    a model is known. *)
Definition firstProbes : list string :=
  ["models"; "completeText"; "streamText"; "nextEdit"; "nextEditLoc";
   "chatStream"; "realToolsSchema"; "realToolsToolRoundtrip"; "tools+multimodal"].

(** *** When a probe passes

    Each probe awaits one call and records one test; what follows reads
    off the call what the branch that records the test asks of it. *)

(** The call returned instead of throwing. *)
Definition returned {A : Type} (o : outcome A) : bool :=
  match o with Returns _ => true | Throws _ => false end.

(** [completeText], [streamText], [nextEdit], [nextEditLoc]: the call
    returns a text that is not blank. *)
Definition textPasses (c : Call string) : bool :=
  match ending c with
  | Returns res => nonEmpty (normalizeString (JStr res))
  | Throws _ => false
  end.

(** [chatStream]: the chat returns a text that is not blank, or nodes. *)
Definition chatPasses (type : string) (c : ChatCall) : bool :=
  match chatStreamByProvider type (chatStream c) with
  | Returns res =>
      nonEmpty (normalizeString (JStr (ChatStream.text res)))
      || (0 <? length (ChatStream.nodes res))%nat
  | Throws _ => false
  end.

(** [realToolsSchema]: conversion and validation of the captured
    definitions do not throw; with no captured definition the probe is
    skipped and counts as passed. *)
Definition realToolsSchemaPasses (type : string) (capturedToolDefinitions : value)
  : bool :=
  match elements capturedToolDefinitions with
  | [] => true
  | _ :: _ => returned (schemaCheck type (JArr (elements capturedToolDefinitions)))
  end.

(** [realToolsToolRoundtrip]: the round trip returns a result that is
    ok; skipped with no captured definition. *)
Definition realToolsRoundtripPasses (w : ProviderWorld)
  (provider capturedToolDefinitions : value) : bool :=
  match elements capturedToolDefinitions with
  | [] => true
  | _ :: _ =>
      match realToolsToolRoundtripByProvider provider
              (JArr (elements capturedToolDefinitions)) (JNum 9999) (realToolsBatch w) with
      | Returns r => probeOk r
      | Throws _ => false
      end
  end.

(** [toolRoundtrip]: the second chat returns a text that is not blank. *)
Definition toolRoundtripPasses (type : string) (c : ChatCall) : bool :=
  match chatStreamByProvider type (chatStream c) with
  | Returns res => nonEmpty (normalizeString (JStr (ChatStream.text res)))
  | Throws _ => false
  end.

(** The name and the flag of a recorded test. *)
Definition flagOf (t : TestResult) : string * bool := (name t, ok t).

(** *** The global phase and the run *)

(** [selfTestHistorySummary]: the two runs of the compactor, each
    resolving to a boolean. *)
Definition selfTestHistorySummary (run1 run2 : Timed bool) : TestResult :=
  let shown (r : Timed bool) :=
    match t_res r with
    | Some b => if b then "true" else "false"
    | None => errorOf r
    end in
  let ok1 := match t_res run1 with Some true => true | _ => false end in
  let ok2 := match t_res run2 with Some true => true | _ => false end in
  if ok1 && ok2
  then {| name := "historySummary"; ok := true;
          ms := Some (t_ms run1 + t_ms run2)%Z;
          detail := Some ("run1=" +++ decZ (t_ms run1) +++ "ms run2="
                          +++ decZ (t_ms run2) +++ "ms") |}
  else {| name := "historySummary"; ok := false;
          ms := Some (t_ms run1 + t_ms run2)%Z;
          detail := Some ("run1=" +++ shown run1 +++ " run2=" +++ shown run2) |}.

(** The definitions [selfTestOpenAiResponsesStrictSchema] converts. *)
Definition strictSchemaSelfTestDefs : value :=
  JArr [JObj [("name", JStr "schema_self_test");
              ("input_schema",
               JObj [("type", JStr "object");
                     ("properties",
                      JObj [("a", JObj [("type", JStr "string")]);
                            ("insert_line_1", JObj [("type", JStr "integer")])]);
                     ("required", JArr [JStr "a"])])]].

(** [Boolean(selfTestOpenAiResponsesStrictSchema(log))] *)
Definition selfTestOpenAiResponsesStrictSchema : bool :=
  let tools := convertOpenAiResponsesTools strictSchemaSelfTestDefs in
  let p0 := get (index0 tools) "parameters" in
  let props :=
    if isObjectLike p0 && isObjectLike (get p0 "properties")
    then objectKeys (get p0 "properties") else [] in
  let req := elements (get p0 "required") in
  let missing := filter (fun k => negb (includesStr req k)) props in
  truthy p0 && isFalse (get p0 "additionalProperties")
  && isArray (get p0 "required") && (length missing =? 0)%nat.

(** The head of [selfTestToolsModelExec]: the names it will run. *)
Definition toolsExecNames (toolDefinitions : value) : list string :=
  let defs := ToolDefs.dedupeToolDefsByName toolDefinitions in
  let index :=
    mapOf (filter (fun x => nonEmpty (fst x))
                  (map (fun d => (ToolDefs.nameOf d, d)) defs)) in
  sortBy localeCompare (map fst index).

(** [selfTestToolsModelExec]: the early return on an empty name list,
    then the execution against the host, which [rest] stands for. *)
Definition selfTestToolsModelExec (toolDefinitions : value) (rest : outcome value)
  : outcome value :=
  match toolsExecNames toolDefinitions with
  | [] => Returns (JObj [("ok", JBool false); ("ms", JNum 0); ("detail", JStr "no tools")])
  | _ :: _ => rest
  end.

(** The provider loop of [runSelfTest]; [i] is the index of the provider
    at hand. *)
Fixpoint providerLoop (w : nat -> ProviderWorld) (toolDefs : value) (i : nat)
  (ps : list value) (okSoFar : bool) (done : list Entry) : bool * list Entry :=
  match ps with
  | [] => (okSoFar, done)
  | p :: rest =>
      let res := selfTestProvider (w i) p toolDefs in
      providerLoop w toolDefs (S i) rest
        (if negb (entryOk res) then false else okSoFar) (done ++ [res])
  end.

(** The test the strict-schema check of the captured tools pushes. *)
Definition strictCapturedTest (w : RunWorld) (toolDefs : value) : TestResult :=
  let strictCaptured :=
    withTimed
      {| elapsed := strictCapturedMs w;
         ending :=
           let tools := convertOpenAiResponsesTools toolDefs in
           let v := StrictSchema.validateConvertedToolsForProvider
                      (JStr "openai_responses") tools in
           if negb (StrictSchema.ok v)
           then Throws (join " | " (firstn 10 (StrictSchema.issues v)))
           else Returns (length (elements tools)) |} in
  match t_res strictCaptured with
  | Some n =>
      test "responsesStrictSchema(capturedTools)" true (t_ms strictCaptured)
        ("tools=" +++ dec n)
  | None =>
      test "responsesStrictSchema(capturedTools)" false (t_ms strictCaptured)
        (errorOf strictCaptured)
  end.

(** The test the real-tool execution pushes. *)
Definition toolsExecTest (w : RunWorld) (toolDefs : value) : TestResult :=
  let execRes :=
    withTimed {| elapsed := elapsed (toolsExecCall w);
                 ending := selfTestToolsModelExec toolDefs (ending (toolsExecCall w)) |} in
  match t_res execRes with
  | Some res =>
      let r := if isObjectLike res then res else JNull in
      let ms :=
        match toNumber (get r "ms") with
        | Some n => if (0 <=? n)%Z then n else t_ms execRes
        | None => t_ms execRes
        end in
      test "toolsExec" (truthy (get r "ok")) ms
        (orStr (normalizeString (get r "detail")) "")
  | None => test "toolsExec" false (t_ms execRes) (errorOf execRes)
  end.

(** [p => normalizeString(p?.type) && normalizeString(p?.baseUrl)
         && (normalizeString(p?.apiKey) || hasAuthHeader(p?.headers))] *)
Definition configured (p : value) : bool :=
  nonEmpty (normalizeString (get p "type"))
  && nonEmpty (normalizeString (get p "baseUrl"))
  && (nonEmpty (normalizeString (get p "apiKey")) || hasAuthHeader (get p "headers")).

Definition runSelfTest (w : RunWorld) (cfg : value) : Report :=
  let c := if isObjectLike cfg then cfg else JObj [] in
  let providerList := elements (get c "providers") in
  let capturedDefs0 := elements (get (captured w) "toolDefinitions") in
  let localRes := withTimed (upstreamFetch w) in
  let fetched :=
    match capturedDefs0, t_res localRes with
    | [], Some res =>
        match get res "defs" with
        | JArr (d :: ds) => Some (d :: ds)
        | _ => None
        end
    | _, _ => None
    end in
  let toolDefsForSelfTest :=
    match fetched with Some defs => defs | None => capturedDefs0 end in
  let toolDefsSource :=
    match fetched with
    | Some _ => "upstream(toolsModel)"
    | None => match capturedDefs0 with [] => "none" | _ :: _ => "captured" end
    end in
  let toolDefs := JArr toolDefsForSelfTest in
  let haveTools := (0 <? length toolDefsForSelfTest)%nat in
  let capturedSummary := ToolDefs.summarizeToolDefs toolDefs 12 in
  let ok0 := true in
  let t1 :=
    if (0 <? ToolDefs.count capturedSummary)%nat
    then {| name := "capturedToolsAvailable"; ok := true; ms := None;
            detail := Some ("count=" +++ dec (ToolDefs.count capturedSummary)
                            +++ " source=" +++ toolDefsSource) |}
    else {| name := "capturedToolsAvailable"; ok := false; ms := None;
            detail := Some "未捕获到真实 tool_definitions 且无法自动拉取；Self Test 无法覆盖真实工具集" |} in
  let ok1 := if (0 <? ToolDefs.count capturedSummary)%nat then ok0 else false in
  let t2 :=
    if haveTools then
      let schemaSum := summarizeCapturedToolsSchemas toolDefs in
      {| name := "capturedToolsSchemaSamples";
         ok := (sampleOk schemaSum =? toolCount schemaSum)%nat;
         ms := None;
         detail :=
           Some ("sampleable=" +++ dec (sampleOk schemaSum) +++ "/"
                 +++ dec (toolCount schemaSum)
                 +++ " mcpMeta=" +++ dec (withMcpMeta schemaSum)
                 +++ match sampleFailedNames schemaSum with
                     | [] => ""
                     | _ :: _ =>
                         " failed=" +++ join "," (sampleFailedNames schemaSum)
                         +++ (if sampleFailedTruncated schemaSum then ",…" else "")
                     end) |}
    else {| name := "capturedToolsSchemaSamples"; ok := true; ms := None;
            detail := Some "skipped (no captured tools)" |} in
  let ok2 := if negb (ok t2) then false else ok1 in
  let localSchemaOk := selfTestOpenAiResponsesStrictSchema in
  let t3 :=
    {| name := "responsesStrictSchema"; ok := localSchemaOk; ms := None;
       detail := None |} in
  let ok3 := if negb localSchemaOk then false else ok2 in
  let t4 :=
    if haveTools then strictCapturedTest w toolDefs
    else test "responsesStrictSchema(capturedTools)" true 0 "skipped (no captured tools)" in
  let ok4 := if negb (ok t4) then false else ok3 in
  let t5 :=
    if haveTools then toolsExecTest w toolDefs
    else test "toolsExec" true 0 "skipped (no tools)" in
  let ok5 := if negb (ok t5) then false else ok4 in
  let '(ok6, entries) := providerLoop (providerWorld w) toolDefs 0 providerList ok5 [] in
  let firstOkProvider :=
    match find configured providerList with Some p => p | None => JUndefined end in
  let fallbackProvider :=
    orVal (orVal firstOkProvider (nth 0 providerList JUndefined)) JNull in
  let fallbackModel :=
    orStr (orStr (normalizeString (get fallbackProvider "defaultModel"))
                 (normalizeString (index0 (get fallbackProvider "models")))) "" in
  let t6 :=
    if truthy fallbackProvider && nonEmpty fallbackModel
    then selfTestHistorySummary (withTimed (historyRun1 w)) (withTimed (historyRun2 w))
    else {| name := "historySummary"; ok := true; ms := None;
            detail := Some "skipped (no provider configured)" |} in
  let ok7 := if negb (ok t6) then false else ok6 in
  {| reportOk := ok7;
     globalTests := [t1; t2; t3; t4; t5; t6];
     capturedCount := ToolDefs.count capturedSummary;
     capturedSource := toolDefsSource;
     providers := entries |}.

End WithHost.

(** The list of recorded metadata mismatches only grows. *)
Definition Grows (t t' : Tally) : Prop :=
  exists extra, metaMismatches t' = metaMismatches t ++ extra.

(** The entry's flag tells whether all its tests passed. *)
Definition Sound (e : Entry) : Prop := entryOk e = forallb ok (tests e).

(** A probe keeps that agreement. *)
Definition Keeps {A : Type} (m : Probe A) : Prop :=
  forall e, Sound e -> Sound (snd (m e)).

End SelfTest.

(* ================================================================= *)
(** ** Concrete inputs

    The inputs on which the theorems of Part II are run.  They are read
    with the ASCII host; tool-use nodes carry the type tag 5 and token
    usage nodes the tag 10. *)

Module Examples.

#[local] Existing Instance asciiHost.

Definition toolUseTag : Z := 5.
Definition tokenUsageTag : Z := 10.
Definition stopToolUse : value := JNum 3.
Definition inputSchemaOf (d : value) : value := get d "input_schema".
Definition noTools (toolDefs : value) : value := JArr [].

(** The schema of the sampling scenario. *)
Definition requiredAB : value :=
  JObj [("type", JStr "object");
        ("required", JArr [JStr "a"; JStr "b"]);
        ("properties",
         JObj [("a", JObj [("type", JStr "string")]);
               ("b", JObj [("type", JStr "integer")])])].

(** Two definitions named [x]; the second pads the name with blanks. *)
Definition firstX : value := JObj [("name", JStr "x"); ("description", JStr "first")].

(** A stream of 501 chunks whose last chunk carries the stop reason. *)
Definition chunkA : value := JObj [("text", JStr "a")].
Definition chunkEnd : value := JObj [("text", JStr "b"); ("stop_reason", JNum 1)].
Definition longStream : list value := repeat chunkA 500 ++ [chunkEnd].

(** A provider with a complete configuration and a default model. *)
Definition provider1 : value :=
  JObj [("id", JStr "p1"); ("type", JStr "openai_compatible");
        ("baseUrl", JStr "https://x/v1"); ("apiKey", JStr "k");
        ("defaultModel", JStr "m1")].

Definition okText : SelfTest.Call string :=
  {| SelfTest.elapsed := 1; SelfTest.ending := SelfTest.Returns "OK" |}.

Definition okChat : SelfTest.ChatCall :=
  {| SelfTest.chatElapsed := 1;
     SelfTest.chatStream :=
       {| SelfTest.yielded := [JObj [("text", JStr "OK-chat"); ("stop_reason", JNum 1)]];
          SelfTest.thrown := None |} |}.

Definition failedChat : SelfTest.ChatCall :=
  {| SelfTest.chatElapsed := 1;
     SelfTest.chatStream :=
       {| SelfTest.yielded := []; SelfTest.thrown := Some "HTTP 500" |} |}.

(** A tool with declared MCP metadata, and a provider that calls it but
    echoes another server name. *)
Definition mcpTool : value :=
  JObj [("name", JStr "t"); ("mcp_server_name", JStr "srv")].

Definition echoedToolUse : value :=
  JObj [("type", JNum 5);
        ("tool_use",
         JObj [("tool_use_id", JStr "u1"); ("tool_name", JStr "t");
               ("mcp_server_name", JStr "other")])].

Definition mismatchBatch : SelfTest.BatchWorld :=
  {| SelfTest.firstTurn :=
       {| SelfTest.yielded := [JObj [("nodes", JArr [echoedToolUse]);
                                     ("stop_reason", JNum 3)]];
          SelfTest.thrown := None |};
     SelfTest.firstAborted := false;
     SelfTest.secondTurn :=
       {| SelfTest.yielded := [JObj [("text", JStr "OK-realtools-batch");
                                     ("stop_reason", JNum 1)]];
          SelfTest.thrown := None |};
     SelfTest.secondAborted := false |}.

Definition echoed : SelfTest.ToolUse :=
  {| SelfTest.tool_use_id := "u1"; SelfTest.tool_name := "t";
     SelfTest.input_json := ""; SelfTest.mcp_server_name := "other";
     SelfTest.mcp_tool_name := "" |}.

(** A provider world in which every call succeeds except the
    tools+multimodal chat call. *)
Definition toolChatFails : SelfTest.ProviderWorld :=
  {| SelfTest.modelsCall :=
       {| SelfTest.elapsed := 1; SelfTest.ending := SelfTest.Returns (JArr [JStr "m1"]) |};
     SelfTest.completeTextCall := okText;
     SelfTest.streamTextCall := okText;
     SelfTest.nextEditCall := okText;
     SelfTest.nextEditLocCall := okText;
     SelfTest.chatCall := okChat;
     SelfTest.schemaMs := 0;
     SelfTest.realToolsMs := 0;
     SelfTest.realToolsBatch := fun _ => mismatchBatch;
     SelfTest.toolChatCall := failedChat;
     SelfTest.toolRoundtripCall := okChat;
     SelfTest.totalMs := 9 |}.

(** Model discovery: the unversioned URL answers 404, the versioned one
    200 with a model list. *)
Definition joinUrl (b p : string) : string := b +++ "/" +++ p.

Definition discovery (url : string) : Models.Response + string :=
  if url =? "https://x/models"
  then inl {| Models.status := 404; Models.json := JNull |}
  else inl {| Models.status := 200;
              Models.json := JObj [("data", JArr [JObj [("id", JStr "m1")]])] |}.

(** An upstream get-models answer and the BYOK names merged into it. *)
Definition upstreamModels : list (string * value) :=
  [("default_model", JStr "m0");
   ("models", JArr [JObj [("name", JStr "m0")]]);
   ("user_tier", JStr "pro")].

Definition byokNames : list string := ["byok:p1:m1"; "m0"; "byok:p1:m1"].

Definition modelInfo (n : string) : value := JObj [("name", JStr n)].
Definition keepFlags (flags : value) (ids : list string) (dm : value) : value := flags.

End Examples.

(* ================================================================= *)
(** ** String built-ins used by the panel and by the shim *)

Module Text.

Definition CR : ascii := ascii_of_nat 13.
Definition LF : ascii := ascii_of_nat 10.

(** [s.replace(/c/g, repl)] for a pattern of one character [c] and a
    replacement [repl] without [$]. *)
Fixpoint replaceChar (c : ascii) (repl : string) (s : string) : string :=
  match s with
  | EmptyString => EmptyString
  | String d rest =>
      if Ascii.eqb d c then repl +++ replaceChar c repl rest
      else String d (replaceChar c repl rest)
  end.

(** [s.replace(/\r\n/g, "\n")] *)
Fixpoint replaceCrLf (s : string) : string :=
  match s with
  | EmptyString => EmptyString
  | String c rest =>
      match rest with
      | String d rest' =>
          if Ascii.eqb c CR && Ascii.eqb d LF then String LF (replaceCrLf rest')
          else String c (replaceCrLf rest)
      | EmptyString => String c EmptyString
      end
  end.

(** [s.split(c)] for a separator of one character; the result is never
    empty. *)
Fixpoint splitOn (c : ascii) (s : string) : list string :=
  match s with
  | EmptyString => [EmptyString]
  | String d rest =>
      if Ascii.eqb d c then EmptyString :: splitOn c rest
      else
        match splitOn c rest with
        | [] => [String d EmptyString]
        | piece :: pieces => String d piece :: pieces
        end
  end.

(** [s.indexOf(c)] for one character [c]; [None] stands for [-1]. *)
Fixpoint indexOfChar (c : ascii) (s : string) : option nat :=
  match s with
  | EmptyString => None
  | String d rest =>
      if Ascii.eqb d c then Some O
      else match indexOfChar c rest with Some i => Some (S i) | None => None end
  end.

(** [s.slice(from)] and [s.slice(0, to)] for indices within the string
    or beyond its end. *)
Fixpoint sliceFrom (from : nat) (s : string) : string :=
  match from, s with
  | O, _ => s
  | S n, EmptyString => EmptyString
  | S n, String _ rest => sliceFrom n rest
  end.

Fixpoint sliceTo (to : nat) (s : string) : string :=
  match to, s with
  | O, _ => EmptyString
  | S n, EmptyString => EmptyString
  | S n, String c rest => String c (sliceTo n rest)
  end.

(** The characters of a string, for statements about what occurs in it. *)
Fixpoint chars (s : string) : list ascii :=
  match s with
  | EmptyString => []
  | String c rest => c :: chars rest
  end.

End Text.

(* ================================================================= *)
(** ** The helpers of the panel's web view and ui/config-panel.webview.js *)

Module Panel.
Section WithHost.
Context `{Host}.

(** [ns.normalizeStr]: [String(v ?? "").trim()] *)
Definition normalizeStr (v : value) : string :=
  trim (toString (orElse v (JStr ""))).

(** [Array.from(new Set(xs))]: the elements in the order of their first
    occurrence. *)
Fixpoint setOf (xs seen : list string) : list string :=
  match xs with
  | [] => seen
  | x :: rest => if mem x seen then setOf rest seen else setOf rest (seen ++ [x])
  end.

(** [ns.uniq] *)
Definition uniq (xs : value) : list string :=
  setOf (filter (fun s => truthy (JStr s)) (map normalizeStr (elements xs))) [].

(** [ns.parseModelsTextarea] *)
Definition parseModelsTextarea (s : value) : list string :=
  let text := toString (orElse s (JStr "")) in
  let lines :=
    Text.splitOn Text.LF
      (Text.replaceChar Text.CR (String Text.LF EmptyString) (Text.replaceCrLf text)) in
  uniq (JArr (map JStr lines)).

(** [ns.escapeHtml] *)
Definition escapeHtml (s : value) : string :=
  let s0 := toString (orElse s (JStr "")) in
  let s1 := Text.replaceChar "&" "&amp;" s0 in
  let s2 := Text.replaceChar "<" "&lt;" s1 in
  let s3 := Text.replaceChar ">" "&gt;" s2 in
  let s4 := Text.replaceChar (ascii_of_nat 34) "&quot;" s3 in
  Text.replaceChar "'" "&#39;" s4.

(** [ns.computeProviderIndexById]: the own properties of the object it
    builds, which is read by property name only.  An assignment to the
    name [__proto__] sets the prototype of the object and adds no own
    property. *)
Definition computeProviderIndexById (cfg : value) : list (string * value) :=
  fold_left
    (fun out p =>
       let id := normalizeStr (get p "id") in
       if truthy (JStr id)
       then (if id =? "__proto__" then out else set id p out)
       else out)
    (elements (get cfg "providers")) [].

(** [s.startsWith("byok:")] *)
Definition startsWithByok (s : string) : bool := String.prefix "byok:" s.

(** [parseByokModelId] of the panel script; [None] stands for [null]. *)
Definition parseByokModelId (raw : value) : option (string * string) :=
  let s := normalizeStr raw in
  if negb (startsWithByok s) then None
  else
    let rest := Text.sliceFrom 5 s in
    match Text.indexOfChar ":" rest with
    | None => None
    | Some idx =>
        if (idx <=? 0)%nat then None
        else
          let providerId := normalizeStr (JStr (Text.sliceTo idx rest)) in
          let modelId := normalizeStr (JStr (Text.sliceFrom (idx + 1) rest)) in
          if negb (truthy (JStr providerId)) || negb (truthy (JStr modelId)) then None
          else Some (providerId, modelId)
    end.

End WithHost.
End Panel.

(* ================================================================= *)
(** ** runtime/shim.js: messages for the four provider families *)

Module Prompt.
Section WithHost.
Context `{Host}.

(** [typeof m.content === "string" && m.content] *)
Definition hasText (m : value) : bool :=
  match get m "content" with JStr c => truthy (JStr c) | _ => false end.

(** [asOpenAiMessages] *)
Definition asOpenAiMessages (system messages : value) : list value :=
  let sys := match system with JStr s => s | _ => "" end in
  filter (fun m => truthy m && hasText m)
         (JObj [("role", JStr "system"); ("content", JStr sys)] :: elements messages).

(** [asAnthropicMessages] *)
Definition asAnthropicMessages (system messages : value) : value :=
  let out :=
    map (fun m => JObj [("role", get m "role"); ("content", get m "content")])
        (filter (fun m =>
                   truthy m
                   && (isStr (get m "role") "user" || isStr (get m "role") "assistant")
                   && hasText m)
                (elements messages)) in
  JObj [("system", JStr (normalizeString system)); ("messages", JArr out)].

(** The loop body shared in shape by [asGeminiContents] and
    [asOpenAiResponsesInput]: the role under the name the family uses
    ([assistantRole] for [assistant]) and the content, or nothing when
    the message is skipped. *)
Definition turnOf (assistantRole : string) (m : value) : option (string * string) :=
  if negb (isObjectLike m) then None
  else
    let role :=
      if isStr (get m "role") "assistant" then assistantRole
      else if isStr (get m "role") "user" then "user" else "" in
    let content := match get m "content" with JStr c => c | _ => "" end in
    if negb (truthy (JStr role)) || negb (truthy (JStr content)) then None
    else Some (role, content).

(** [asGeminiContents] *)
Definition asGeminiContents (system messages : value) : value :=
  let contents :=
    flat_map (fun m =>
                match turnOf "model" m with
                | Some (role, content) =>
                    [JObj [("role", JStr role);
                           ("parts", JArr [JObj [("text", JStr content)]])]]
                | None => []
                end) (elements messages) in
  JObj [("systemInstruction", JStr (normalizeString system));
        ("contents", JArr contents)].

(** [asOpenAiResponsesInput] *)
Definition asOpenAiResponsesInput (system messages : value) : value :=
  let input :=
    flat_map (fun m =>
                match turnOf "assistant" m with
                | Some (role, content) =>
                    [JObj [("type", JStr "message"); ("role", JStr role);
                           ("content", JStr content)]]
                | None => []
                end) (elements messages) in
  JObj [("instructions", JStr (normalizeString system)); ("input", JArr input)].

End WithHost.
End Prompt.

(* ================================================================= *)
(** ** runtime/shim.js: line bookkeeping of the instruction endpoints *)

Module Lines.

(** [normalizeNewlines] *)
Definition normalizeNewlines (s : value) : string :=
  match s with JStr t => Text.replaceCrLf t | _ => "" end.

(** The loop of [countNewlines]: the number of characters of code 10. *)
Fixpoint countLF (text : string) : nat :=
  match text with
  | EmptyString => O
  | String c rest => (if Ascii.eqb c Text.LF then 1 else 0) + countLF rest
  end.

Definition countNewlines (s : value) : nat :=
  countLF (match s with JStr t => t | _ => "" end).

(** [t.replace(/\n+$/g, "")]: the run of line feeds that ends the text
    is removed. *)
Fixpoint stripTrailingLF (t : string) : string :=
  match t with
  | EmptyString => EmptyString
  | String c rest =>
      match stripTrailingLF rest with
      | EmptyString => if Ascii.eqb c Text.LF then EmptyString else String c EmptyString
      | r => String c r
      end
  end.

(** [trimTrailingNewlines] *)
Definition trimTrailingNewlines (s : value) : string :=
  stripTrailingLF (normalizeNewlines s).

(** ["\n".repeat(k)] *)
Fixpoint lineFeeds (k : nat) : string :=
  match k with O => EmptyString | S k' => String Text.LF (lineFeeds k') end.

Section WithHost.
Context `{Host}.

(** [normalizeLineNumber]; [None] stands for [null]. *)
Definition normalizeLineNumber (v : value) : option Z :=
  match toNumber v with
  | None => None
  | Some n => if (n <=? 0)%Z then Some 0%Z else Some n
  end.

(** [clampLineNumber] *)
Definition clampLineNumber (n : value) : Z :=
  match toNumber n with
  | None => 1%Z
  | Some v => if (v <=? 1)%Z then 1%Z else v
  end.

End WithHost.
End Lines.

(* ================================================================= *)
(** ** runtime/shim.js: lists of ids *)

Module Sources.
Section WithHost.
Context `{Host}.

(** The limit of [normalizeStringList]: [maxItems] when it is a
    positive number, 100 otherwise. *)
Definition listLimit (maxItems : value) : Z :=
  match toNumber maxItems with
  | Some n => if (0 <? n)%Z then n else 100%Z
  | None => 100%Z
  end.

(** The loop of [normalizeStringList]. *)
Fixpoint stringListLoop (lim : Z) (items : list value) (seen out : list string)
  : list string :=
  match items with
  | [] => out
  | v :: rest =>
      let s := normalizeString (JStr (toString (orElse v (JStr "")))) in
      if negb (truthy (JStr s)) || mem s seen then stringListLoop lim rest seen out
      else
        let out' := out ++ [s] in
        if (lim <=? Z.of_nat (length out'))%Z then out'
        else stringListLoop lim rest (seen ++ [s]) out'
  end.

Definition normalizeStringList (raw maxItems : value) : list string :=
  stringListLoop (listLimit maxItems) (elements raw) [] [].

(** [(Array.isArray(r.k1) && r.k1) || (Array.isArray(r.k2) && r.k2) || ... || []]:
    the first member, in the order of the names, that is an array. *)
Fixpoint firstArray (r : value) (names : list string) : list value :=
  match names with
  | [] => []
  | k :: rest =>
      match get r k with
      | JArr xs => xs
      | _ => firstArray r rest
      end
  end.

(** The id an item of the list gives, if any. *)
Definition sourceIdOf (it : value) : list value :=
  match it with
  | JStr s => [JStr s]
  | _ =>
      if isObjectLike it then
        let cand :=
          orElse (orElse (orElse (orElse (orElse (orElse
            (get it "id") (get it "source_id")) (get it "sourceId"))
            (get it "external_source_id")) (get it "externalSourceId"))
            (get it "externalSourceID")) (JStr "") in
        match cand with JStr s => [JStr s] | _ => [] end
      else []
  end.

(** [normalizeExternalSourceIdsFromImplicitResult] *)
Definition normalizeExternalSourceIdsFromImplicitResult (raw : value) : list string :=
  let out :=
    match raw with
    | JArr xs => xs
    | _ =>
        if isObjectLike raw then
          firstArray raw
            ["external_source_ids"; "externalSourceIds"; "source_ids"; "sourceIds";
             "implicit_external_source_ids"; "implicitExternalSourceIds";
             "external_sources"; "externalSources"; "sources";
             "implicit_external_sources"; "implicitExternalSources"]
        else []
    end in
  normalizeStringList (JArr (flat_map sourceIdOf out)) (JNum 200).

End WithHost.
End Sources.

(* ================================================================= *)
(** ** runtime/shim.js: the cache of context canvases *)

Module CanvasCache.

(** One entry of [CONTEXT_CANVAS_CACHE]. *)
Record Entry : Type := { expiresAtMs : Z; byId : list (string * value) }.

(** The [Map] from completion URLs to entries. *)
Definition Cache : Type := list (string * Entry).

Definition CONTEXT_CANVAS_CACHE_TTL_MS : Z := 5 * 60 * 1000.

(** [map.delete(k)] *)
Definition mapDelete {A : Type} (k : string) (m : list (string * A))
  : list (string * A) :=
  filter (fun kv => negb (fst kv =? k)) m.

Section WithHost.
Context `{Host}.

(** [cacheKeyForCanvas] *)
Definition cacheKeyForCanvas (completionURL : value) : string :=
  let key := normalizeString completionURL in
  if truthy (JStr key) then key else "".

(** [getCanvasCacheEntry]; [now] is the reading of [Date.now()].  The
    entry is handed out by reference: the result names the key it is
    stored under. *)
Definition getCanvasCacheEntry (now : Z) (completionURL : value) (cache : Cache)
  : option (string * Entry) * Cache :=
  let key := cacheKeyForCanvas completionURL in
  if negb (truthy (JStr key)) then (None, cache)
  else
    match SelfTest.mapGet key cache with
    | None => (None, cache)
    | Some e =>
        if (expiresAtMs e <=? now)%Z then (None, mapDelete key cache)
        else (Some (key, e), cache)
    end.

(** [ensureCanvasCacheEntry]; [now1] and [now2] are the two readings of
    the clock it may make. *)
Definition ensureCanvasCacheEntry (now1 now2 : Z) (completionURL : value)
  (cache : Cache) : option (string * Entry) * Cache :=
  let key := cacheKeyForCanvas completionURL in
  if negb (truthy (JStr key)) then (None, cache)
  else
    match getCanvasCacheEntry now1 (JStr key) cache with
    | (Some existing, cache1) => (Some existing, cache1)
    | (None, cache1) =>
        let created :=
          {| expiresAtMs := (now2 + CONTEXT_CANVAS_CACHE_TTL_MS)%Z; byId := [] |} in
        (Some (key, created), SelfTest.mapSet key created cache1)
    end.

(** The loop of [upsertCanvasCache] on the map [byId] of the entry. *)
Definition upsertAll (canvases : list value) (ids : list (string * value))
  : list (string * value) :=
  fold_left
    (fun acc c =>
       if negb (isObjectLike c) then acc
       else
         let id := normalizeString (get c "id") in
         if negb (truthy (JStr id)) then acc else SelfTest.mapSet id c acc)
    canvases ids.

(** [upsertCanvasCache]; the entry is updated where it is stored. *)
Definition upsertCanvasCache (now1 now2 now3 : Z) (completionURL canvases : value)
  (cache : Cache) : Cache :=
  match ensureCanvasCacheEntry now1 now2 completionURL cache with
  | (None, cache1) => cache1
  | (Some (at_, entry), cache1) =>
      SelfTest.mapSet at_
        {| expiresAtMs := (now3 + CONTEXT_CANVAS_CACHE_TTL_MS)%Z;
           byId := upsertAll (elements canvases) (byId entry) |}
        cache1
  end.

(** [getCanvasFromCache]; [JNull] is [null]. *)
Definition getCanvasFromCache (now : Z) (completionURL canvasId : value)
  (cache : Cache) : value * Cache :=
  match getCanvasCacheEntry now completionURL cache with
  | (None, cache1) => (JNull, cache1)
  | (Some (_, entry), cache1) =>
      let id := normalizeString canvasId in
      if negb (truthy (JStr id)) then (JNull, cache1)
      else
        match SelfTest.mapGet id (byId entry) with
        | Some c => (orVal c JNull, cache1)
        | None => (JNull, cache1)
        end
  end.

End WithHost.
End CanvasCache.

(* ================================================================= *)
(** ** core/self-test/schema-sample.js: the keys of a sampled object *)

Module SampleKeys.
Section WithHost.
Context `{Host}.

(** The list [required] of the object branch of [sampleJsonFromSchema]. *)
Definition requiredOf (s : value) : list string :=
  match get s "required" with
  | JArr rs => filter (fun k => truthy (JStr k)) (map normalizeString rs)
  | _ => []
  end.

(** The list [chosen] of that branch, for the property map [ps]. *)
Definition chosenKeys (s : value) (ps : list (string * value)) : list string :=
  match requiredOf s with
  | [] => keys ps
  | _ :: _ =>
      filter (fun k => match keys ps with [] => false | _ :: _ => mem k (keys ps) end)
             (requiredOf s)
  end.

End WithHost.
End SampleKeys.

(* ================================================================= *)
(** ** runtime/shim.js: reading the effects of a handler *)

Module ShimRead.

(** The handler has handed the request to the BYOK service. *)
Definition servesByok (e : Shim.Effect) : bool :=
  match e with Shim.ByokServed _ => true | _ => false end.

End ShimRead.
(* ================================================================= *)
(** ** A world in which no tool can be found *)

Module Quiet.

#[local] Existing Instance asciiHost.

(** A run that has captured no tool definitions and cannot fetch any:
    the upstream object is not exposed. *)
Definition noToolsWorld : SelfTest.RunWorld :=
  {| SelfTest.captured := JNull;
     SelfTest.upstreamFetch :=
       {| SelfTest.elapsed := 1;
          SelfTest.ending :=
            SelfTest.Returns
              (JObj [("ok", JBool false);
                     ("detail", JStr "upstream toolsModel not exposed/found")]) |};
     SelfTest.strictCapturedMs := 0;
     SelfTest.toolsExecCall :=
       {| SelfTest.elapsed := 0; SelfTest.ending := SelfTest.Throws "unused" |};
     SelfTest.providerWorld := fun _ => Examples.toolChatFails;
     SelfTest.historyRun1 :=
       {| SelfTest.elapsed := 2; SelfTest.ending := SelfTest.Returns true |};
     SelfTest.historyRun2 :=
       {| SelfTest.elapsed := 1; SelfTest.ending := SelfTest.Returns true |} |}.

End Quiet.

(* ================================================================= *)
(** ** The configuration panel: the summary it shows *)

Module ConfigPanel.
Section WithHost.
Context `{Host}.

(** One entry of [summary.providers]. *)
Record ProviderSummary : Type := {
  id : string;
  type : string;
  baseUrl : string;
  defaultModel : string;
  modelsCount : nat;
  apiKeySet : bool;
  headersCount : nat;
  authSet : bool
}.

(** The local [hasAuthHeader] of [summarizeRuntime]. *)
Definition hasAuthHeader (headers : value) : bool :=
  let h := if isPlainObject headers then headers else JObj [] in
  let ks :=
    match h with
    | JObj fs => map (fun k => toLowerCase (trim k)) (keys fs)
    | _ => []
    end in
  existsb (fun k => (k =? "authorization") || (k =? "x-api-key")
                    || (k =? "api-key") || (k =? "x-goog-api-key")) ks.

(** The callback of [providers.map] in [summarizeRuntime]. *)
Definition summarizeProvider (p : value) : ProviderSummary :=
  {| id := orStr (normalizeString (get p "id")) "(unknown)";
     type := normalizeString (get p "type");
     baseUrl := normalizeString (get p "baseUrl");
     defaultModel := normalizeString (get p "defaultModel");
     modelsCount :=
       length (filter (fun m => truthy (JStr (normalizeString m)))
                      (elements (get p "models")));
     apiKeySet := truthy (JStr (normalizeString (get p "apiKey")));
     headersCount :=
       if isPlainObject (get p "headers")
       then length (objectKeys (get p "headers")) else O;
     authSet :=
       truthy (JStr (normalizeString (get p "apiKey")))
       || hasAuthHeader (get p "headers") |}.

Record RuntimeSummary : Type := {
  runtimeEnabled : bool;
  storageKey : string;
  completionUrl : string;
  apiTokenSet : bool;
  providers : list ProviderSummary
}.

(** [summarizeRuntime]; [held] is what [cfgMgr?.get?.()] gives,
    [defaultConfig] the value of [defaultConfig()], [enabled] the value
    of [state?.runtimeEnabled] and [key] the storage key of the
    configuration manager, or [""]. *)
Definition summarizeRuntime (held defaultConfig enabled : value) (key : string)
  : RuntimeSummary :=
  let cfg := orVal held defaultConfig in
  let off := if isObjectLike (get cfg "official") then get cfg "official" else JObj [] in
  {| runtimeEnabled := truthy enabled;
     storageKey := key;
     completionUrl := normalizeString (get off "completionUrl");
     apiTokenSet := truthy (JStr (normalizeString (get off "apiToken")));
     providers := map summarizeProvider (elements (get cfg "providers")) |}.

End WithHost.
End ConfigPanel.

(* ================================================================= *)
(** ** core/self-test/tools-model.js: fetching the tool definitions *)

Module ToolsModel.
Section WithHost.
Context `{Host}.

(** [it && typeof it === "object"
      ? it.definition ?? it.toolDefinition ?? it : null] *)
Definition unwrapDefinition (it : value) : value :=
  if isObjectLike it
  then orElse (orElse (get it "definition") (get it "toolDefinition")) it
  else JNull.

(** The loop of [fetchLocalToolDefinitionsFromUpstream] over the list
    the tools model returned. *)
Fixpoint fetchedLoop (items : list value) (seen : list string) (defs : list value)
  : list value :=
  match items with
  | [] => defs
  | it :: rest =>
      let def := unwrapDefinition it in
      if negb (isObjectLike def) then fetchedLoop rest seen defs
      else
        let name := normalizeString (get def "name") in
        if negb (truthy (JStr name)) || mem name seen then fetchedLoop rest seen defs
        else fetchedLoop rest (seen ++ [name]) (defs ++ [def])
  end.

(** What the function resolves to. *)
Record Fetched : Type := {
  fetchedOk : bool;
  fetchedDefs : list value;
  fetchedDetail : string
}.

(** [fetchLocalToolDefinitionsFromUpstream]; [toolsModel] is [None]
    when no tools model is found, and otherwise tells how
    [toolsModel.getToolDefinitions()] ends. *)
Definition fetchLocalToolDefinitionsFromUpstream
  (toolsModel : option (SelfTest.outcome value)) : SelfTest.outcome Fetched :=
  match toolsModel with
  | None =>
      SelfTest.Returns
        {| fetchedOk := false; fetchedDefs := [];
           fetchedDetail := "upstream toolsModel not exposed/found" |}
  | Some (SelfTest.Throws m) => SelfTest.Throws m
  | Some (SelfTest.Returns defsRaw) =>
      let defs := fetchedLoop (elements defsRaw) [] [] in
      if (length defs =? 0)%nat
      then (* this answer has no [defs] *)
           SelfTest.Returns
             {| fetchedOk := false; fetchedDefs := []; fetchedDetail := "empty list" |}
      else SelfTest.Returns
             {| fetchedOk := true; fetchedDefs := defs;
                fetchedDetail := "tools=" +++ dec (length defs) |}
  end.

End WithHost.
End ToolsModel.

(* ################################################################# *)
(** * Part II: theorems *)

(* ================================================================= *)
(** ** Values, strings and objects *)

Section JsFacts.

Lemma mem_app_one : forall s xs y, mem s (xs ++ [y]) = mem s xs || (s =? y).
Proof.
  intros s xs y. unfold mem. rewrite existsb_app. cbn [existsb].
  now rewrite orb_false_r.
Qed.

Lemma mem_true_iff : forall s xs, mem s xs = true <-> In s xs.
Proof.
  intros s xs. unfold mem. rewrite existsb_exists. split.
  - intros [x [Hin Heq]]. apply String.eqb_eq in Heq. now subst.
  - intros Hin. exists s. split; [assumption | apply String.eqb_refl].
Qed.

Lemma mem_false_iff : forall s xs, mem s xs = false <-> ~ In s xs.
Proof.
  intros s xs. rewrite <- mem_true_iff. destruct (mem s xs); split; congruence.
Qed.

Lemma truthy_str : forall s, truthy (JStr s) = true <-> s <> "".
Proof.
  intros s. cbn [truthy]. destruct (String.eqb_spec s ""); cbn [negb]; split; congruence.
Qed.

Lemma append_empty_r : forall s : string, s +++ "" = s.
Proof. induction s as [|c s IH]; cbn; [reflexivity | now rewrite IH]. Qed.

Lemma append_assoc : forall a b c : string, (a +++ b) +++ c = a +++ (b +++ c).
Proof. induction a as [|x a IH]; intros b c; cbn; [reflexivity | now rewrite IH]. Qed.

Lemma lookup_set_same : forall k v fs, lookup k (set k v fs) = Some v.
Proof.
  induction fs as [|[k' v'] rest IH]; cbn [set lookup].
  - now rewrite String.eqb_refl.
  - destruct (String.eqb_spec k' k) as [-> | Hne]; cbn [lookup].
    + now rewrite String.eqb_refl.
    + apply String.eqb_neq in Hne. now rewrite Hne.
Qed.

Lemma lookup_set_other : forall k k' v fs,
  k <> k' -> lookup k' (set k v fs) = lookup k' fs.
Proof.
  induction fs as [|[k0 v0] rest IH]; intros Hne; cbn [set lookup].
  - apply String.eqb_neq in Hne. now rewrite Hne.
  - destruct (String.eqb_spec k0 k) as [-> | Hne0]; cbn [lookup].
    + apply String.eqb_neq in Hne. now rewrite Hne.
    + now rewrite IH.
Qed.

Lemma get_set_same : forall k v fs, get (JObj (set k v fs)) k = v.
Proof. intros. cbn [get]. now rewrite lookup_set_same. Qed.

Lemma get_set_other : forall k k' v fs,
  k <> k' -> get (JObj (set k v fs)) k' = get (JObj fs) k'.
Proof. intros. cbn [get]. now rewrite lookup_set_other. Qed.

Lemma hasOwn_set_other : forall k k' v fs,
  k <> k' -> hasOwn (JObj (set k v fs)) k' = hasOwn (JObj fs) k'.
Proof. intros. cbn [hasOwn]. now rewrite lookup_set_other. Qed.

Lemma lookup_map_members : forall (f : string -> value -> value) k fs,
  lookup k (map (fun kv => (fst kv, f (fst kv) (snd kv))) fs)
  = option_map (f k) (lookup k fs).
Proof.
  induction fs as [|[k' v'] rest IH]; cbn [map lookup fst snd].
  - reflexivity.
  - destruct (String.eqb_spec k' k) as [-> | Hne]; [reflexivity | apply IH].
Qed.

Lemma keys_map_members : forall (f : string -> value -> value) fs,
  keys (map (fun kv => (fst kv, f (fst kv) (snd kv))) fs) = keys fs.
Proof. intros f fs. unfold keys. now rewrite map_map. Qed.

Lemma includesStr_keys : forall ks k, In k ks -> includesStr (map JStr ks) k = true.
Proof.
  intros ks k Hin. unfold includesStr. apply existsb_exists.
  exists (JStr k). split; [now apply in_map | cbn; apply String.eqb_refl].
Qed.

Lemma fold_left_same : forall (A B : Type) (f : A -> B -> A) (xs : list B) (a : A),
  (forall a' x, f a' x = a') -> fold_left f xs a = a.
Proof.
  induction xs as [|x rest IH]; intros a Hf; cbn [fold_left]; [reflexivity|].
  rewrite Hf. now apply IH.
Qed.

Lemma flag_and : forall b c : bool, (if negb b then false else c) = c && b.
Proof. now intros [] []. Qed.

End JsFacts.

(* ================================================================= *)
(** ** De-duplication of tool definitions *)

Section DedupeFacts.
Context `{Host}.
Import ToolDefs.

Lemma dedupeLoop_kept : forall defs seen out,
  dedupeLoop defs seen out = out ++ kept defs seen.
Proof.
  induction defs as [|d rest IH]; intros seen out; cbn [dedupeLoop kept].
  - now rewrite app_nil_r.
  - fold (nameOf d). destruct (isObjectLike d); cbn [negb andb orb].
    + destruct (truthy (JStr (nameOf d))); cbn [negb andb orb].
      * destruct (mem (nameOf d) seen); cbn [negb andb orb].
        -- apply IH.
        -- rewrite IH. now rewrite <- app_assoc.
      * apply IH.
    + apply IH.
Qed.

Lemma dedupe_kept : forall toolDefs,
  dedupeToolDefsByName toolDefs = kept (elements toolDefs) [].
Proof. intros l. unfold dedupeToolDefsByName. now rewrite dedupeLoop_kept. Qed.

Lemma kept_in : forall defs seen d,
  In d (kept defs seen) ->
  In d defs /\ isObjectLike d = true /\ nameOf d <> "" /\ mem (nameOf d) seen = false.
Proof.
  induction defs as [|x rest IH]; intros seen d Hin; cbn [kept] in Hin.
  - contradiction.
  - destruct (isObjectLike x && truthy (JStr (nameOf x)) && negb (mem (nameOf x) seen)) eqn:E.
    + apply andb_prop in E. destruct E as [E1 E2]. apply negb_true_iff in E2.
      apply andb_prop in E1. destruct E1 as [E0 E1]. apply truthy_str in E1.
      destruct Hin as [<- | Hin].
      * repeat split; auto. now left.
      * apply IH in Hin. destruct Hin as (Hi & He & Hn & Hm).
        rewrite mem_app_one in Hm. apply orb_false_iff in Hm.
        repeat split; try tauto. now right.
    + apply IH in Hin. destruct Hin as (Hi & He & Hn & Hm).
      repeat split; auto. now right.
Qed.

Lemma kept_nodup : forall defs seen, NoDup (map nameOf (kept defs seen)).
Proof.
  induction defs as [|x rest IH]; intros seen; cbn [kept].
  - constructor.
  - destruct (isObjectLike x && truthy (JStr (nameOf x)) && negb (mem (nameOf x) seen)) eqn:E.
    + cbn [map]. constructor; [| apply IH].
      intros Hin. apply in_map_iff in Hin. destruct Hin as [d [Hname Hin]].
      apply kept_in in Hin. destruct Hin as (_ & _ & _ & Hm).
      rewrite mem_app_one, Hname, String.eqb_refl, orb_true_r in Hm. discriminate.
    + apply IH.
Qed.


Lemma kept_all : forall l seen,
  Forall (fun d => isObjectLike d = true /\ nameOf d <> "") l ->
  NoDup (map nameOf l) ->
  (forall d, In d l -> mem (nameOf d) seen = false) ->
  kept l seen = l.
Proof.
  induction l as [|x rest IH]; intros seen Hall Hnd Hseen; cbn [kept].
  - reflexivity.
  - inversion Hall as [|? ? [Hx Hn] Hrest]; subst.
    cbn [map] in Hnd. inversion Hnd as [|? ? Hnotin Hnd']; subst.
    apply truthy_str in Hn. rewrite Hx, Hn. rewrite (Hseen x) by now left.
    cbn [andb negb]. f_equal. apply IH; auto.
    intros d Hd. rewrite mem_app_one. rewrite (Hseen d) by now right. cbn [orb].
    apply String.eqb_neq. intros Heq. apply Hnotin. rewrite <- Heq. now apply in_map.
Qed.

Lemma dedupe_idempotent : forall toolDefs,
  dedupeToolDefsByName (JArr (dedupeToolDefsByName toolDefs))
  = dedupeToolDefsByName toolDefs.
Proof.
  intros toolDefs. rewrite (dedupe_kept (JArr _)). cbn [elements].
  rewrite dedupe_kept. apply kept_all.
  - apply Forall_forall. intros d Hd. apply kept_in in Hd. tauto.
  - apply kept_nodup.
  - intros d _. reflexivity.
Qed.



End DedupeFacts.

Section DedupeConsumers.
Context `{Host}.
Import ToolDefs.
Variable RESPONSE_NODE_TOOL_USE : Z.
Variable resolveToolSchema : value -> value.



End DedupeConsumers.

(* ================================================================= *)
(** ** Strict-mode schemas *)

Section CoerceFacts.
Context `{Host}.
Import StrictSchema Normalizer.

Lemma coerce_arr : forall xs,
  coerceOpenAiStrictJsonSchema (JArr xs) = JArr (map coerceOpenAiStrictJsonSchema xs).
Proof. reflexivity. Qed.

(** The rewrite of an object, with its nested loops read as maps. *)
Lemma coerce_obj : forall fields,
  coerceOpenAiStrictJsonSchema (JObj fields)
  = if hasObjectType (JObj fields) || isSome (propsOf (JObj fields))
    then JObj (set "required"
                 (JArr (map JStr (match propsOf (JObj fields) with
                                  | Some ps => keys ps
                                  | None => []
                                  end)))
                 (set "additionalProperties" (JBool false) (rewrittenMembers fields)))
    else JObj (rewrittenMembers fields).
Proof.
  intros fields. cbn [coerceOpenAiStrictJsonSchema].
  assert (E : (fix members (fs : list (string * value)) : list (string * value) :=
           match fs with
           | [] => []
           | (k, v) :: rest =>
               (k,
                if isSchemaKey k then coerceOpenAiStrictJsonSchema v
                else if isSchemaMapKey k then
                  match v with
                  | JObj named =>
                      JObj ((fix each (ns : list (string * value)) :=
                               match ns with
                               | [] => []
                               | (n, s) :: more =>
                                   (n, coerceOpenAiStrictJsonSchema s) :: each more
                               end) named)
                  | _ => v
                  end
                else v) :: members rest
           end) fields = rewrittenMembers fields).
  { induction fields as [|[k v] rest IH]; [reflexivity|].
    unfold rewrittenMembers. cbn [map fst snd]. rewrite IH. f_equal. f_equal.
    unfold rewriteMember. destruct (isSchemaKey k); [reflexivity|].
    destruct (isSchemaMapKey k); [|reflexivity].
    destruct v as [| | | | | |named]; try reflexivity. f_equal.
    induction named as [|[n s] more IHm]; [reflexivity|].
    cbn [map fst snd]. now rewrite IHm. }
  now rewrite E.
Qed.

Lemma coerce_is_obj : forall fields,
  exists fs', coerceOpenAiStrictJsonSchema (JObj fields) = JObj fs'.
Proof.
  intros fields. rewrite coerce_obj.
  destruct (hasObjectType (JObj fields) || isSome (propsOf (JObj fields))); eauto.
Qed.

Lemma get_coerced : forall fields k,
  k <> "required" -> k <> "additionalProperties" ->
  get (coerceOpenAiStrictJsonSchema (JObj fields)) k
  = match lookup k fields with
    | Some v => rewriteMember k v
    | None => JUndefined
    end.
Proof.
  intros fields k Hr Ha. rewrite coerce_obj.
  destruct (hasObjectType (JObj fields) || isSome (propsOf (JObj fields))).
  - rewrite get_set_other by congruence. rewrite get_set_other by congruence.
    cbn [get]. unfold rewrittenMembers. rewrite lookup_map_members.
    now destruct (lookup k fields).
  - cbn [get]. unfold rewrittenMembers. rewrite lookup_map_members.
    now destruct (lookup k fields).
Qed.

Lemma hasObjectType_coerced : forall fields,
  hasObjectType (coerceOpenAiStrictJsonSchema (JObj fields))
  = hasObjectType (JObj fields).
Proof.
  intros fields. unfold hasObjectType. rewrite get_coerced by discriminate.
  cbn [get]. now destruct (lookup "type" fields).
Qed.

Lemma propsOf_coerced : forall fields,
  propsOf (coerceOpenAiStrictJsonSchema (JObj fields))
  = option_map (map (fun ns => (fst ns, coerceOpenAiStrictJsonSchema (snd ns))))
               (propsOf (JObj fields)).
Proof.
  intros fields. unfold propsOf. rewrite get_coerced by discriminate.
  cbn [get]. destruct (lookup "properties" fields) as [v|]; [|reflexivity].
  unfold rewriteMember.
  cbn [isSchemaKey isSchemaMapKey mem existsb String.eqb Ascii.eqb Bool.eqb orb].
  now destruct v.
Qed.

Section Walk.
Variable rec : value -> list string -> string -> list string.
Hypothesis rec_coerced :
  forall s acc p, rec (coerceOpenAiStrictJsonSchema s) acc p = acc.

Lemma walkArray_coerced : forall xs issues path,
  walkArray rec (map coerceOpenAiStrictJsonSchema xs) issues path = issues.
Proof.
  intros xs issues path. unfold walkArray.
  generalize 0%nat as i. induction xs as [|x rest IH]; intros i;
    cbn [map fold_left fst snd].
  - reflexivity.
  - rewrite rec_coerced. apply IH.
Qed.

Lemma ifPresent_coerced : forall fields path k acc,
  isSchemaKey k = true ->
  ifPresent rec (coerceOpenAiStrictJsonSchema (JObj fields)) path k acc = acc.
Proof.
  intros fields path k acc Hk. unfold ifPresent.
  assert (Hr : k <> "required") by (intros ->; discriminate).
  assert (Ha : k <> "additionalProperties") by (intros ->; discriminate).
  rewrite get_coerced by assumption.
  destruct (lookup k fields) as [v|]; [|reflexivity].
  unfold rewriteMember. rewrite Hk. rewrite rec_coerced.
  now destruct (notNullish _).
Qed.

Lemma ifArray_coerced : forall fields path k acc,
  isSchemaKey k = true ->
  ifArray rec (coerceOpenAiStrictJsonSchema (JObj fields)) path k acc = acc.
Proof.
  intros fields path k acc Hk. unfold ifArray.
  assert (Hr : k <> "required") by (intros ->; discriminate).
  assert (Ha : k <> "additionalProperties") by (intros ->; discriminate).
  rewrite get_coerced by assumption.
  destruct (lookup k fields) as [v|]; [|reflexivity].
  unfold rewriteMember. rewrite Hk. rewrite rec_coerced.
  now destruct (isArray _).
Qed.

Lemma eachOf_coerced : forall fields path k acc,
  isSchemaKey k = false -> isSchemaMapKey k = true ->
  eachOf rec (coerceOpenAiStrictJsonSchema (JObj fields)) path k acc = acc.
Proof.
  intros fields path k acc Hk Hm. unfold eachOf.
  assert (Hr : k <> "required") by (intros ->; discriminate).
  assert (Ha : k <> "additionalProperties") by (intros ->; discriminate).
  rewrite get_coerced by assumption.
  destruct (lookup k fields) as [v|]; [|reflexivity].
  unfold rewriteMember. rewrite Hk, Hm.
  destruct v as [| | | | | |named]; try reflexivity.
  apply fold_left_same. intros a' k'. cbn [get].
  rewrite (lookup_map_members (fun _ s => coerceOpenAiStrictJsonSchema s)).
  destruct (lookup k' named) as [s|]; cbn [option_map].
  - apply rec_coerced.
  - apply (rec_coerced JUndefined).
Qed.

Lemma nodeIssues_coerced : forall fields issues path,
  nodeIssues (coerceOpenAiStrictJsonSchema (JObj fields)) issues path = issues.
Proof.
  intros fields issues path. unfold nodeIssues.
  rewrite hasObjectType_coerced, propsOf_coerced.
  assert (Ec : isSome (option_map
                 (map (fun ns => (fst ns, coerceOpenAiStrictJsonSchema (snd ns))))
                 (propsOf (JObj fields))) = isSome (propsOf (JObj fields))).
  { now destruct (propsOf (JObj fields)). }
  rewrite Ec.
  destruct (hasObjectType (JObj fields) || isSome (propsOf (JObj fields))) eqn:Ecnd;
    [|reflexivity].
  rewrite coerce_obj, Ecnd.
  rewrite (get_set_other "required" "additionalProperties") by discriminate.
  rewrite get_set_same. cbn [isFalse negb].
  rewrite get_set_same.
  destruct (propsOf (JObj fields)) as [ps|]; cbn [option_map]; [|reflexivity].
  rewrite (keys_map_members (fun _ s => coerceOpenAiStrictJsonSchema s)).
  assert (G : forall ks acc, (forall k, In k ks -> In k (keys ps)) ->
            fold_left
              (fun acc0 k =>
                 if negb (includesStr (map JStr (keys ps)) k)
                 then acc0 ++ [here path +++ ": required missing '" +++ k +++ "'"]
                 else acc0) ks acc = acc).
  { induction ks as [|k ks IH]; intros acc Hsub; cbn [fold_left]; [reflexivity|].
    rewrite includesStr_keys by (apply Hsub; now left). cbn [negb].
    apply IH. intros k0 Hk0. apply Hsub. now right. }
  apply G. auto.
Qed.

Lemma walkObject_coerced : forall fields issues path,
  walkObject rec (coerceOpenAiStrictJsonSchema (JObj fields)) issues path = issues.
Proof.
  intros fields issues path. unfold walkObject.
  rewrite nodeIssues_coerced.
  rewrite eachOf_coerced by reflexivity.
  rewrite !ifPresent_coerced by reflexivity.
  rewrite !ifArray_coerced by reflexivity.
  rewrite !eachOf_coerced by reflexivity.
  reflexivity.
Qed.

End Walk.

(** Whatever the depth budget, the validator adds no issue on a
    rewritten schema. *)
Lemma validateFuel_coerced : forall fuel s issues path,
  validateFuel fuel (coerceOpenAiStrictJsonSchema s) issues path = issues.
Proof.
  induction fuel as [|fuel IH]; intros s issues path; [reflexivity|].
  destruct s as [| |b|n|t|xs|fields]; try reflexivity.
  - cbn. now destruct b.
  - cbn. now destruct (n =? 0)%Z.
  - cbn. now destruct (t =? "").
  - rewrite coerce_arr. cbn [validateFuel truthy negb].
    apply walkArray_coerced. exact IH.
  - destruct (coerce_is_obj fields) as [fs' E].
    cbn [validateFuel]. rewrite E. cbn [truthy negb]. rewrite <- E.
    apply walkObject_coerced. exact IH.
Qed.

Variable resolveToolSchema : value -> value.

Lemma converted_parameters : forall toolDefs tool,
  In tool (elements (convertOpenAiResponsesTools resolveToolSchema toolDefs)) ->
  exists d, get tool "parameters" = coerceOpenAiStrictJsonSchema (resolveToolSchema d)
            /\ get tool "function" = JUndefined.
Proof.
  intros toolDefs tool Hin. unfold convertOpenAiResponsesTools in Hin.
  cbn [elements] in Hin. apply in_map_iff in Hin. destruct Hin as [d [<- _]].
  exists d. split; reflexivity.
Qed.

Lemma validateToolsLoop_converted : forall tools,
  (forall tool, In tool tools ->
     exists d, get tool "parameters" = coerceOpenAiStrictJsonSchema (resolveToolSchema d)
               /\ get tool "function" = JUndefined) ->
  validateToolsLoop tools [] = [].
Proof.
  induction tools as [|tool rest IH]; intros Hall; cbn [validateToolsLoop].
  - reflexivity.
  - destruct (Hall tool (or_introl eq_refl)) as [d [Hp Hf]].
    rewrite Hp, Hf. cbn [get].
    assert (E : validateOpenAiStrictJsonSchema
                  (orElse (coerceOpenAiStrictJsonSchema (resolveToolSchema d)) JUndefined)
                  [] "" 0 = []).
    { unfold validateOpenAiStrictJsonSchema.
      destruct (coerceOpenAiStrictJsonSchema (resolveToolSchema d)) eqn:Ec;
        cbn [orElse]; try (rewrite <- Ec; apply validateFuel_coerced);
        reflexivity. }
    rewrite E. cbn [length Nat.leb]. apply IH.
    intros t Ht. apply Hall. now right.
Qed.

(** C1: on the output of the OpenAI-responses tool conversion the
    strict-schema validator reports no issue, for every list of tool
    definitions: the check the self-test runs answers ok with an empty
    issue list, and the walk finds nothing in the parameters of any
    converted tool, at any path and with any depth budget (the source
    gives it 51 levels).  The walk adds no issue on any rewritten schema. *)
Theorem responses_tools_pass_strict_validation :
  forall (toolDefs schema : value) (found : list string),
    validateConvertedToolsForProvider (JStr "openai_responses")
      (convertOpenAiResponsesTools resolveToolSchema toolDefs)
    = {| ok := true; issues := [] |}
    /\ Forall (fun tool =>
                 forall fuel path,
                   validateFuel fuel (get tool "parameters") [] path = []
                   /\ validateOpenAiStrictJsonSchema (get tool "parameters") [] path 0 = [])
              (elements (convertOpenAiResponsesTools resolveToolSchema toolDefs))
    /\ validateOpenAiStrictJsonSchema (coerceOpenAiStrictJsonSchema schema) found "" 0
       = found.
Proof.
  intros toolDefs schema found. refine (conj _ (conj _ _)).
  - unfold validateConvertedToolsForProvider.
    destruct (negb (normalizeString (JStr "openai_responses") =? "openai_responses"));
      [reflexivity|].
    rewrite validateToolsLoop_converted; [reflexivity|].
    apply converted_parameters.
  - apply Forall_forall. intros tool Hin fuel path.
    destruct (converted_parameters toolDefs tool Hin) as [d [Hp _]].
    rewrite Hp. split; [| unfold validateOpenAiStrictJsonSchema];
      apply validateFuel_coerced.
  - apply validateFuel_coerced.
Qed.

End CoerceFacts.

(* ================================================================= *)
(** ** Collecting a chat stream *)

Section CollectFacts.
Import ChatStream.

Lemma text_absorb : forall acc ch, text (absorb acc ch) = text acc +++ textDelta ch.
Proof.
  intros acc ch. unfold absorb, textDelta. cbn [text].
  destruct (get ch "text") as [| | | |t| |]; try (now rewrite append_empty_r).
  cbn [truthy]. destruct (String.eqb_spec t "") as [-> | Hne]; cbn [negb].
  - now rewrite append_empty_r.
  - reflexivity.
Qed.

Lemma nodes_absorb : forall acc ch, nodes (absorb acc ch) = nodes acc ++ nodesOf ch.
Proof.
  intros acc ch. unfold absorb, nodesOf. cbn [nodes].
  destruct (get ch "nodes"); try (now rewrite app_nil_r). reflexivity.
Qed.

(** The [break] of the loop: only the chunks below the limit are
    absorbed. *)
Lemma collectLoop_firstn : forall gen maxChunks acc,
  collectLoop maxChunks gen acc
  = fold_left absorb (firstn (maxChunks - length (chunks acc)) gen) acc.
Proof.
  induction gen as [|ch rest IH]; intros maxChunks acc; cbn [collectLoop].
  - now rewrite firstn_nil.
  - destruct (Nat.leb_spec maxChunks (length (chunks acc))) as [Hle | Hlt].
    + replace (maxChunks - length (chunks acc)) with 0 by lia. reflexivity.
    + rewrite IH. cbn [absorb chunks]. rewrite length_app. cbn [length].
      replace (maxChunks - length (chunks acc))
        with (S (maxChunks - (length (chunks acc) + 1))) by lia.
      reflexivity.
Qed.

Lemma stop_fold_last : forall gen sr,
  fold_left (fun sr ch => if carriesStop ch then get ch "stop_reason" else sr) gen sr
  = match rev (filter carriesStop gen) with
    | [] => sr
    | ch :: _ => get ch "stop_reason"
    end.
Proof.
  induction gen as [|ch rest IH]; intros sr; cbn [fold_left filter].
  - reflexivity.
  - rewrite IH. destruct (carriesStop ch) eqn:E.
    + cbn [rev]. destruct (rev (filter carriesStop rest)); reflexivity.
    + reflexivity.
Qed.

Lemma fold_absorb : forall gen acc,
  chunks (fold_left absorb gen acc) = chunks acc ++ gen
  /\ text (fold_left absorb gen acc) = text acc +++ allText gen
  /\ nodes (fold_left absorb gen acc) = nodes acc ++ allNodes gen
  /\ stop_reason (fold_left absorb gen acc)
     = fold_left (fun sr ch => if carriesStop ch then get ch "stop_reason" else sr)
                 gen (stop_reason acc).
Proof.
  induction gen as [|ch rest IH]; intros acc;
    cbn [fold_left allText allNodes fold_right flat_map].
  - rewrite !app_nil_r, append_empty_r. auto.
  - destruct (IH (absorb acc ch)) as (Hc & Ht & Hn & Hs).
    rewrite Hc, Ht, Hn, Hs. rewrite text_absorb, nodes_absorb.
    rewrite append_assoc. cbn [absorb chunks stop_reason].
    rewrite <- !app_assoc. cbn [app].
    unfold carriesStop. repeat split; reflexivity.
Qed.

(** C7 (as amended): the collection helper reconstructs the first
    [maxChunks] chunks of a finished sequence (500 by default), which is
    the whole sequence when it is no longer than that: the text is the
    concatenation of their text deltas in yield order, the node list the
    flat concatenation of their node lists, and the stop reason that of
    the last of them that carries one. *)
Theorem collect_reconstructs_up_to_limit :
  forall (gen : list value) (maxChunks : nat),
    chunks (collectChatStream gen maxChunks) = firstn maxChunks gen
    /\ text (collectChatStream gen maxChunks) = allText (firstn maxChunks gen)
    /\ nodes (collectChatStream gen maxChunks) = allNodes (firstn maxChunks gen)
    /\ stop_reason (collectChatStream gen maxChunks) = finalStop (firstn maxChunks gen).
Proof.
  intros gen maxChunks. unfold collectChatStream. rewrite collectLoop_firstn.
  cbn [start chunks length]. rewrite Nat.sub_0_r.
  destruct (fold_absorb (firstn maxChunks gen) start) as (Hc & Ht & Hn & Hs).
  rewrite Hc, Ht, Hn, Hs. cbn [start chunks text nodes stop_reason app].
  rewrite stop_fold_last. repeat split; reflexivity.
Qed.

(** Within the limit nothing is lost. *)
Lemma collect_whole_within_limit : forall (gen : list value) (maxChunks : nat),
  length gen <= maxChunks ->
  text (collectChatStream gen maxChunks) = allText gen
  /\ nodes (collectChatStream gen maxChunks) = allNodes gen
  /\ stop_reason (collectChatStream gen maxChunks) = finalStop gen.
Proof.
  intros gen maxChunks Hlen. unfold collectChatStream. rewrite collectLoop_firstn.
  cbn [start chunks length]. rewrite Nat.sub_0_r, firstn_all2 by assumption.
  destruct (fold_absorb gen start) as (_ & Ht & Hn & Hs).
  rewrite Ht, Hn, Hs. cbn [start text nodes stop_reason app].
  rewrite stop_fold_last. repeat split; reflexivity.
Qed.

End CollectFacts.

(** C7, as stated, fails on a finished sequence of 501 chunks of which
    exactly one, the last, carries the stop reason: the default limit of
    500 chunks leaves the last text delta and the stop reason out. *)
Lemma collect_drops_chunks_past_limit :
  ChatStream.stopCount Examples.longStream = 1
  /\ ChatStream.text
       (ChatStream.collectChatStream Examples.longStream ChatStream.defaultMaxChunks)
     <> ChatStream.allText Examples.longStream
  /\ ChatStream.stop_reason
       (ChatStream.collectChatStream Examples.longStream ChatStream.defaultMaxChunks)
     <> ChatStream.finalStop Examples.longStream.
Proof.
  split; [vm_compute; reflexivity|]. split.
  - vm_compute. discriminate.
  - vm_compute. discriminate.
Qed.

(* ================================================================= *)
(** ** Sampling a value from a schema *)

Section SampleFacts.
Context `{Host}.
Import SchemaSample.

Lemma typesOf_name : forall t,
  normalizeString (JStr t) = t -> toLowerCase t = t -> t <> "" ->
  typesOf (JStr t) = [t].
Proof.
  intros t Hn Hl Ht. unfold typesOf. cbn [map filter]. rewrite Hn, Hl.
  apply truthy_str in Ht. now rewrite Ht.
Qed.

Lemma sample_string : forall fuel,
  normalizeString (JStr "string") = "string" -> toLowerCase "string" = "string" ->
  sampleFuel (S fuel) (JObj [("type", JStr "string")]) = JStr "x".
Proof.
  intros fuel Hn Hl. cbn [sampleFuel]. cbn -[typesOf sampleFuel].
  rewrite (typesOf_name "string") by (assumption || discriminate).
  cbn -[sampleFuel]. reflexivity.
Qed.

Lemma sample_integer : forall fuel,
  normalizeString (JStr "integer") = "integer" -> toLowerCase "integer" = "integer" ->
  sampleFuel (S fuel) (JObj [("type", JStr "integer")]) = JNum 1.
Proof.
  intros fuel Hn Hl. cbn [sampleFuel]. cbn -[typesOf sampleFuel].
  rewrite (typesOf_name "integer") by (assumption || discriminate).
  cbn -[sampleFuel]. reflexivity.
Qed.

Lemma sample_root : forall fuel,
  (forall s, In s ["a"; "b"; "object"; "string"; "integer"] ->
             normalizeString (JStr s) = s) ->
  (forall s, In s ["object"; "string"; "integer"] -> toLowerCase s = s) ->
  sampleFuel (S (S fuel)) Examples.requiredAB = JObj [("a", JStr "x"); ("b", JNum 1)].
Proof.
  intros fuel Hn Hl.
  remember (S fuel) as fuel' eqn:Ef.
  unfold Examples.requiredAB.
  cbn [sampleFuel]. cbn -[typesOf sampleFuel].
  rewrite (typesOf_name "object")
    by (try discriminate; (apply Hn || apply Hl); cbn; tauto).
  rewrite !(Hn "a") by (cbn; tauto). rewrite !(Hn "b") by (cbn; tauto).
  cbn -[sampleFuel].
  subst fuel'.
  rewrite sample_string by ((apply Hn || apply Hl); cbn; tauto).
  rewrite sample_integer by ((apply Hn || apply Hl); cbn; tauto).
  reflexivity.
Qed.

(** C8: on the schema [{type:"object", required:["a","b"],
    properties:{a:{type:"string"}, b:{type:"integer"}}}] the sampler
    returns the object [{a:"x", b:1}]: its field [a] is a string, its
    field [b] an integer that is at least 0, and [JSON.stringify] gives
    it a text.  The host is any in which [normalizeString] leaves the
    five names of the schema as they are and lower-casing leaves the
    three type names as they are. *)
Theorem sample_required_a_b :
  (forall s, In s ["a"; "b"; "object"; "string"; "integer"] ->
             normalizeString (JStr s) = s) ->
  (forall s, In s ["object"; "string"; "integer"] -> toLowerCase s = s) ->
  sampleJsonFromSchema Examples.requiredAB 0 = JObj [("a", JStr "x"); ("b", JNum 1)]
  /\ (exists s, get (sampleJsonFromSchema Examples.requiredAB 0) "a" = JStr s)
  /\ (exists n, get (sampleJsonFromSchema Examples.requiredAB 0) "b" = JNum n
                /\ (0 <= n)%Z)
  /\ stringifySample (sampleJsonFromSchema Examples.requiredAB 0)
     = Some ("{" +++ quote +++ "a" +++ quote +++ ":" +++ quote +++ "x" +++ quote
             +++ "," +++ quote +++ "b" +++ quote +++ ":1}").
Proof.
  intros Hn Hl.
  assert (E : sampleJsonFromSchema Examples.requiredAB 0
              = JObj [("a", JStr "x"); ("b", JNum 1)])
    by exact (sample_root 7 Hn Hl).
  rewrite E. refine (conj eq_refl (conj _ (conj _ eq_refl))).
  - exists "x". reflexivity.
  - exists 1%Z. split; [reflexivity | lia].
Qed.

End SampleFacts.

Lemma sample_required_a_b_witness :
  @SchemaSample.sampleJsonFromSchema asciiHost Examples.requiredAB 0
  = JObj [("a", JStr "x"); ("b", JNum 1)].
Proof.
  refine (proj1 (@sample_required_a_b asciiHost _ _)).
  - intros s Hs. cbn in Hs.
    repeat destruct Hs as [<- | Hs]; try reflexivity; contradiction.
  - intros s Hs. cbn in Hs.
    repeat destruct Hs as [<- | Hs]; try reflexivity; contradiction.
Defined.

(* ================================================================= *)
(** ** Merging the BYOK models into the upstream answer *)

Section MergeFacts.
Context `{Host}.
Import Official.
Variable makeModelInfo : string -> value.
Variable ensureModelRegistryFeatureFlags : value -> list string -> value -> value.

Lemma appendByok_fresh : forall names existing models,
  appendByok makeModelInfo names existing models
  = models ++ map makeModelInfo (freshNames names existing).
Proof.
  induction names as [|n rest IH]; intros existing models; cbn [appendByok freshNames].
  - now rewrite app_nil_r.
  - destruct (truthy (JStr n)); cbn [negb orb andb]; [| apply IH].
    destruct (mem n existing); cbn [negb]; [apply IH |].
    rewrite IH. cbn [map]. now rewrite <- app_assoc.
Qed.

Lemma freshNames_in : forall names existing n,
  In n (freshNames names existing) <-> In n names /\ n <> "" /\ ~ In n existing.
Proof.
  induction names as [|x rest IH]; intros existing n; cbn [freshNames].
  - cbn. tauto.
  - destruct (truthy (JStr x)) eqn:Et; cbn [andb].
    + apply truthy_str in Et.
      destruct (mem x existing) eqn:Em; cbn [negb].
      * apply mem_true_iff in Em. rewrite IH. cbn [In]. split.
        -- tauto.
        -- intros [[-> | Hin] [Hn Hex]]; [contradiction | tauto].
      * apply mem_false_iff in Em. cbn [In]. rewrite IH. rewrite in_app_iff. cbn [In].
        split.
        -- intros [-> | (Hin & Hn & Hex)]; [tauto|]. tauto.
        -- intros [[-> | Hin] [Hn Hex]]; [now left|].
           destruct (string_dec x n) as [-> | Hne]; [now left|]. right. tauto.
    + rewrite IH. cbn [In]. split; [tauto|].
      intros [[-> | Hin] [Hn Hex]]; [|tauto].
      apply truthy_str in Hn. congruence.
Qed.

Lemma freshNames_nodup : forall names existing, NoDup (freshNames names existing).
Proof.
  induction names as [|x rest IH]; intros existing; cbn [freshNames].
  - constructor.
  - destruct (truthy (JStr x) && negb (mem x existing)); [| apply IH].
    constructor; [| apply IH].
    rewrite freshNames_in. rewrite in_app_iff. cbn [In]. tauto.
Qed.

Lemma existingNames_in : forall base n,
  In n (existingNames base)
  <-> n <> "" /\ In n (map modelName (elements (get base "models"))).
Proof.
  intros base n. unfold existingNames. rewrite filter_In, truthy_str. tauto.
Qed.

(** C10: [mergeModels] leaves every field of the upstream object other
    than [default_model], [models] and [feature_flags] as it is (present
    with the same value, or absent), and its [models] list is the
    upstream list, in order, followed by one model info for each BYOK
    name that is non-empty and not the name of an upstream model, each
    such name once. *)
Theorem mergeModels_frame :
  forall (fields : list (string * value)) (byokModelNames : list string)
         (opts : value) (k : string),
    k <> "default_model" -> k <> "models" -> k <> "feature_flags" ->
    let out := mergeModels makeModelInfo ensureModelRegistryFeatureFlags
                 (JObj fields) byokModelNames opts in
    let upstream := elements (get (JObj fields) "models") in
    let added := freshNames byokModelNames (existingNames (JObj fields)) in
    get out k = get (JObj fields) k
    /\ hasOwn out k = hasOwn (JObj fields) k
    /\ get out "models" = JArr (upstream ++ map makeModelInfo added)
    /\ NoDup added
    /\ (forall n, In n added <->
                  In n byokModelNames /\ n <> "" /\ ~ In n (map modelName upstream)).
Proof.
  intros fields byok opts k Hd Hm Hf out upstream added.
  subst out. unfold mergeModels. cbn [isObjectLike truthy typeofObject andb spread].
  refine (conj _ (conj _ (conj _ (conj _ _)))).
  - rewrite !get_set_other by congruence. reflexivity.
  - rewrite !hasOwn_set_other by congruence. reflexivity.
  - rewrite (get_set_other "feature_flags" "models") by discriminate.
    rewrite get_set_same. unfold mergedModels. now rewrite appendByok_fresh.
  - apply freshNames_nodup.
  - intros n. subst added upstream. rewrite freshNames_in, existingNames_in. tauto.
Qed.

End MergeFacts.

Lemma mergeModels_frame_witness :
  get (@Official.mergeModels asciiHost Examples.modelInfo Examples.keepFlags
         (JObj Examples.upstreamModels) Examples.byokNames JUndefined) "user_tier"
  = JStr "pro"
  /\ get (@Official.mergeModels asciiHost Examples.modelInfo Examples.keepFlags
            (JObj Examples.upstreamModels) Examples.byokNames JUndefined) "models"
     = JArr [JObj [("name", JStr "m0")]; JObj [("name", JStr "byok:p1:m1")]].
Proof.
  pose proof (@mergeModels_frame asciiHost Examples.modelInfo Examples.keepFlags
                Examples.upstreamModels Examples.byokNames JUndefined "user_tier") as M.
  cbv zeta in M.
  destruct M as (Hk & _ & Hm & _); try discriminate.
  split; [exact Hk | exact Hm].
Defined.

(* ================================================================= *)
(** ** The call handlers with the runtime disabled *)

Section ShimFacts.
Context `{Host}.
Import Shim.
Variable normalizeEndpoint : value -> string.
Variable safeTransform : value -> option value.
Variable decideRoute : value -> string -> value -> bool -> value.
Variable serveByok : value -> string -> value -> value -> Answer.
Variable serveByokStream : value -> string -> value -> value -> Answer.

Lemma cache_effects_only : forall ep body,
  forallb (fun e => negb (touchesRequest e))
    (maybeDeleteHistorySummaryCacheForEndpoint normalizeEndpoint ep body) = true.
Proof.
  intros ep body. unfold maybeDeleteHistorySummaryCacheForEndpoint.
  repeat match goal with
         | |- context [if ?c then _ else _] => destruct c
         end; reflexivity.
Qed.

(** C4: with [runtimeEnabled] false both call handlers pass the request
    through to the official service, which is what they do for a route
    of mode [official]: they answer [undefined] for every configuration,
    endpoint and body, whatever the router would decide and whatever the
    BYOK service would do, and on the way they neither ask the router,
    nor call the caller's transform, nor serve the request themselves. *)
Theorem runtime_disabled_passes_through :
  forall (cfg endpoint body : value),
    fst (maybeHandleCallApi normalizeEndpoint safeTransform decideRoute serveByok
           false cfg endpoint body) = PassThrough
    /\ forallb (fun e => negb (touchesRequest e))
         (snd (maybeHandleCallApi normalizeEndpoint safeTransform decideRoute serveByok
                 false cfg endpoint body)) = true
    /\ fst (maybeHandleCallApiStream normalizeEndpoint decideRoute serveByokStream
              false cfg endpoint body) = PassThrough
    /\ forallb (fun e => negb (touchesRequest e))
         (snd (maybeHandleCallApiStream normalizeEndpoint decideRoute serveByokStream
                 false cfg endpoint body)) = true.
Proof.
  intros cfg endpoint body. unfold maybeHandleCallApi, maybeHandleCallApiStream.
  destruct (negb (truthy (JStr (normalizeEndpoint endpoint))));
    cbn [negb fst snd forallb];
    repeat split; try reflexivity; apply cache_effects_only.
Qed.

End ShimFacts.

(* ================================================================= *)
(** ** Model discovery with a versioned fallback *)

Section ModelsFacts.
Context `{Host}.
Import Models.
Variable fetchWithRetry : string -> Response + string.
Variable requireString : string -> option string.
Variable normalizeRawToken : string -> string.
Variable joinBaseUrl : string -> string -> string.

Lemma uniq_two : forall u0 u1,
  normalizeString (JStr u0) = u0 -> normalizeString (JStr u1) = u1 ->
  u0 <> "" -> u1 <> "" -> u0 <> u1 ->
  uniqKeepOrder (JArr (map JStr [u0; u1])) = [u0; u1].
Proof.
  intros u0 u1 N0 N1 E0 E1 D. unfold uniqKeepOrder. cbn [map elements uniqLoop].
  rewrite N0, N1.
  apply truthy_str in E0. apply truthy_str in E1. rewrite E0, E1.
  cbn [negb orb mem existsb app].
  apply String.eqb_neq in D. rewrite String.eqb_sym in D. rewrite D. reflexivity.
Qed.

Lemma respOk_404 : forall r, status r = 404%Z -> respOk r = false.
Proof. intros r E. unfold respOk. now rewrite E. Qed.

Lemma respOk_not_404 : forall r, respOk r = true -> (status r =? 404)%Z = false.
Proof.
  intros r E. unfold respOk in E. apply andb_prop in E. destruct E as [_ E].
  apply Z.leb_le in E. apply Z.eqb_neq. lia.
Qed.

(** C5: for a base URL without [/v1], discovery asks the unversioned
    URL and then the [v1] one.  When the first answers with a response
    and the second answers 200 with a parseable model list, the second
    URL is tried exactly when the first answers 404; and when it does,
    discovery succeeds with the models of the second URL, its list
    [tried] holding both URLs in the order of the attempts. *)
Theorem fallback_after_404 :
  forall (label baseUrl apiKey b u0 u1 : string) (extraHeaders : value)
         (r0 r1 : Response) (m : string) (ms : list string),
    requireString baseUrl = Some b ->
    normalizeRawToken apiKey <> "" ->
    includes b "/v1" = false ->
    joinBaseUrl b "models" = u0 ->
    joinBaseUrl b "v1/models" = u1 ->
    normalizeString (JStr u0) = u0 -> normalizeString (JStr u1) = u1 ->
    u0 <> "" -> u1 <> "" -> u0 <> u1 ->
    fetchWithRetry u0 = inl r0 ->
    fetchWithRetry u1 = inl r1 ->
    status r1 = 200%Z ->
    parseModelIds (json r1) = m :: ms ->
    (status r0 = 404%Z ->
     fetchOpenAiCompatibleModels fetchWithRetry requireString normalizeRawToken
       joinBaseUrl baseUrl apiKey extraHeaders
     = {| result := inl (m :: ms); tried := [u0; u1] |}
     /\ fetchModelsWithFallback fetchWithRetry [u0; u1] label
        = {| result := inl (m :: ms); tried := [u0; u1] |})
    /\ (In u1 (tried (fetchModelsWithFallback fetchWithRetry [u0; u1] label))
        <-> status r0 = 404%Z)
    /\ (In u1 (tried (fetchOpenAiCompatibleModels fetchWithRetry requireString
                        normalizeRawToken joinBaseUrl baseUrl apiKey extraHeaders))
        <-> status r0 = 404%Z).
Proof.
  intros label baseUrl apiKey b u0 u1 extraHeaders r0 r1 m ms
    Hb Hkey Hv1 Hu0 Hu1 N0 N1 E0 E1 D F0 F1 S1 P1.
  assert (Ok1 : respOk r1 = true) by (unfold respOk; now rewrite S1).
  assert (Ef : forall l,
            tried (fetchModelsWithFallback fetchWithRetry [u0; u1] l)
            = if negb (respOk r0) && (status r0 =? 404)%Z then [u0; u1] else [u0]).
  { intros l. unfold fetchModelsWithFallback. rewrite uniq_two by assumption.
    cbn [fallbackLoop app]. rewrite F0.
    destruct (respOk r0) eqn:Ok0; cbn [negb andb].
    - destruct (parseModelIds (json r0)); reflexivity.
    - destruct (status r0 =? 404)%Z; [| reflexivity].
      rewrite F1, Ok1, P1. reflexivity. }
  assert (Et : tried (fetchOpenAiCompatibleModels fetchWithRetry requireString
                        normalizeRawToken joinBaseUrl baseUrl apiKey extraHeaders)
               = if negb (respOk r0) && (status r0 =? 404)%Z then [u0; u1] else [u0]).
  { unfold fetchOpenAiCompatibleModels. rewrite Hb.
    pose proof Hkey as Hk. apply truthy_str in Hk. rewrite Hk. cbn [negb andb].
    unfold openAiModelUrls. rewrite Hv1, Hu0, Hu1. cbn [negb app]. apply Ef. }
  assert (Hiff : In u1 (if negb (respOk r0) && (status r0 =? 404)%Z
                        then [u0; u1] else [u0]) <-> status r0 = 404%Z).
  { destruct (respOk r0) eqn:Ok0; cbn [negb andb].
    - pose proof (respOk_not_404 r0 Ok0) as Hne. apply Z.eqb_neq in Hne.
      cbn [In]. intuition congruence.
    - destruct (Z.eqb_spec (status r0) 404) as [S0 | S0]; cbn [In];
        intuition congruence. }
  refine (conj _ (conj _ _)).
  - intros S0.
    assert (Hrun : forall l, fetchModelsWithFallback fetchWithRetry [u0; u1] l
                   = {| result := inl (m :: ms); tried := [u0; u1] |}).
    { intros l. unfold fetchModelsWithFallback. rewrite uniq_two by assumption.
      cbn [fallbackLoop app]. rewrite F0, (respOk_404 r0 S0), S0.
      cbn [negb Z.eqb Pos.eqb]. rewrite F1, Ok1, P1. reflexivity. }
    split; [| apply Hrun].
    unfold fetchOpenAiCompatibleModels. rewrite Hb.
    pose proof Hkey as Hk. apply truthy_str in Hk. rewrite Hk. cbn [negb andb].
    unfold openAiModelUrls. rewrite Hv1, Hu0, Hu1. cbn [negb app].
    apply Hrun.
  - rewrite Ef. exact Hiff.
  - rewrite Et. exact Hiff.
Qed.

End ModelsFacts.

Lemma fallback_after_404_witness :
  @Models.fetchOpenAiCompatibleModels asciiHost Examples.discovery
    (fun s => Some s) (fun s => s) Examples.joinUrl "https://x" "k" JUndefined
  = {| Models.result := inl ["m1"];
       Models.tried := ["https://x/models"; "https://x/v1/models"] |}.
Proof.
  refine (proj1 (proj1 (@fallback_after_404 asciiHost Examples.discovery
                   (fun s => Some s) (fun s => s) Examples.joinUrl
                   "OpenAI(models)" "https://x" "k" "https://x"
                   "https://x/models" "https://x/v1/models" JUndefined
                   {| Models.status := 404; Models.json := JNull |}
                   {| Models.status := 200;
                      Models.json := JObj [("data", JArr [JObj [("id", JStr "m1")]])] |}
                   "m1" [] _ _ _ _ _ _ _ _ _ _ _ _ _ _) _));
    try reflexivity; try discriminate.
Defined.

(* ================================================================= *)
(** ** The self-test of one provider *)

Section ProbeFacts.
Import SelfTest.

Lemma Sound_recordOn : forall t e, Sound e -> Sound (recordOn t e).
Proof.
  intros t e He. unfold Sound in *. cbn [recordOn entryOk tests].
  rewrite forallb_app. cbn [forallb]. rewrite <- He.
  destruct (ok t), (entryOk e); reflexivity.
Qed.

Lemma Keeps_ret : forall (A : Type) (a : A), Keeps (ret a).
Proof. intros A a e He. exact He. Qed.

Lemma Keeps_record : forall t, Keeps (record t).
Proof. intros t e He. now apply Sound_recordOn. Qed.

Lemma Keeps_setModel : forall m, Keeps (setModel m).
Proof. intros m e He. exact He. Qed.

Lemma Keeps_getModel : Keeps getModel.
Proof. intros e He. exact He. Qed.

Lemma Keeps_returnEntry : forall A : Type, Keeps (@returnEntry A).
Proof. intros A e He. exact He. Qed.

Lemma Keeps_bind : forall (A B : Type) (m : Probe A) (k : A -> Probe B),
  Keeps m -> (forall a, Keeps (k a)) -> Keeps (bind m k).
Proof.
  intros A B m k Hm Hk e He. unfold bind.
  specialize (Hm e He). destruct (m e) as [[a|] e']; cbn [snd] in *.
  - now apply Hk.
  - exact Hm.
Qed.

Lemma t_ok_res : forall (A : Type) (c : Call A),
  t_ok (withTimed c) = match t_res (withTimed c) with Some _ => true | None => false end.
Proof. intros A c. unfold withTimed. now destruct (ending c). Qed.

End ProbeFacts.

(** A probe built from [bind], [record] and branches keeps the
    agreement between the flag of the entry and its tests. *)
Ltac keeps :=
  repeat first
    [ apply Keeps_bind; [| intros ? ]
    | apply Keeps_record | apply Keeps_ret | apply Keeps_setModel
    | apply Keeps_getModel | apply Keeps_returnEntry
    | match goal with
      | |- SelfTest.Keeps (match ?x with _ => _ end) => destruct x
      | |- SelfTest.Keeps (if ?c then _ else _) => destruct c
      end ].

Section ProviderFacts.
Context `{Host}.
Import SelfTest.
Variable RESPONSE_NODE_TOOL_USE : Z.
Variable RESPONSE_NODE_TOKEN_USAGE : Z.
Variable STOP_REASON_TOOL_USE_REQUESTED : value.
Variable resolveToolSchema : value -> value.
Variable convertOpenAiTools : value -> value.
Variable convertAnthropicTools : value -> value.
Variable convertGeminiTools : value -> value.
Variable convertOpenAiResponsesTools : value -> value.

Lemma Keeps_providerBody : forall w provider type captured,
  Keeps (providerBody RESPONSE_NODE_TOOL_USE RESPONSE_NODE_TOKEN_USAGE
           STOP_REASON_TOOL_USE_REQUESTED resolveToolSchema convertOpenAiTools
           convertAnthropicTools convertGeminiTools convertOpenAiResponsesTools
           w provider type captured).
Proof.
  intros. unfold providerBody, textProbe, chatProbe, realToolsProbes, toolProbes.
  keeps.
Qed.

Lemma Sound_selfTestProvider : forall w provider captured,
  Sound (selfTestProvider RESPONSE_NODE_TOOL_USE RESPONSE_NODE_TOKEN_USAGE
           STOP_REASON_TOOL_USE_REQUESTED resolveToolSchema convertOpenAiTools
           convertAnthropicTools convertGeminiTools convertOpenAiResponsesTools
           w provider captured).
Proof.
  intros. unfold selfTestProvider.
  match goal with |- Sound (withMsTotal _ ?e) => assert (S0 : Sound e) end.
  { apply Keeps_providerBody. reflexivity. }
  exact S0.
Qed.

Ltac run_probes :=
  cbn [bind record ret setModel getModel returnEntry recordOn withModel withMsTotal
       tests model fst snd].

Lemma t_res_withTimed : forall (A : Type) (c : Call A),
  t_res (withTimed c)
  = match ending c with Returns r => Some r | Throws _ => None end.
Proof. intros A c. unfold withTimed. now destruct (ending c). Qed.

Lemma t_res_timedChat : forall type c,
  t_res (timedChat type c)
  = match chatStreamByProvider type (chatStream c) with
    | Returns r => Some r
    | Throws _ => None
    end.
Proof. intros type c. unfold timedChat. now rewrite t_res_withTimed. Qed.

Lemma flag_textTest : forall label c,
  flagOf (textTest label c) = (label, textPasses c).
Proof.
  intros label c. unfold flagOf, textTest, textPasses, withTimed.
  destruct (ending c) as [res|m]; cbn [t_res]; [| reflexivity].
  now destruct (nonEmpty _).
Qed.

Lemma flag_chatTest : forall type c,
  flagOf (chatTest RESPONSE_NODE_TOKEN_USAGE type c) = ("chatStream", chatPasses type c).
Proof.
  intros type c. unfold flagOf, chatTest, chatPasses, timedChat, withTimed.
  cbn [ending elapsed].
  destruct (chatStreamByProvider type (chatStream c)) as [res|m]; cbn [t_res];
    [| reflexivity].
  now destruct (_ || _).
Qed.

Lemma flag_realToolsSchemaTest : forall w type defs,
  flagOf (realToolsSchemaTest convertOpenAiTools convertAnthropicTools
            convertGeminiTools convertOpenAiResponsesTools w type defs)
  = ("realToolsSchema",
     returned (schemaCheck convertOpenAiTools convertAnthropicTools convertGeminiTools
                 convertOpenAiResponsesTools type defs)).
Proof.
  intros w type defs. unfold flagOf, realToolsSchemaTest, withTimed.
  cbn [ending elapsed]. now destruct (schemaCheck _ _ _ _ type defs).
Qed.

Lemma flag_realToolsRoundtripTest : forall w provider defs,
  flagOf (realToolsRoundtripTest RESPONSE_NODE_TOOL_USE resolveToolSchema w provider defs)
  = ("realToolsToolRoundtrip",
     match realToolsToolRoundtripByProvider RESPONSE_NODE_TOOL_USE resolveToolSchema
             provider defs (JNum 9999) (realToolsBatch w) with
     | Returns r => probeOk r
     | Throws _ => false
     end).
Proof.
  intros w provider defs. unfold flagOf, realToolsRoundtripTest, withTimed.
  cbn [ending elapsed].
  destruct (realToolsToolRoundtripByProvider _ _ provider defs _ _) as [r|m];
    cbn [t_res]; [| reflexivity].
  now destruct (probeOk r).
Qed.

Lemma flag_toolRoundtripTest : forall type c,
  flagOf (toolRoundtripTest (timedChat type c))
  = ("toolRoundtrip", toolRoundtripPasses type c).
Proof.
  intros type c. unfold flagOf, toolRoundtripTest, toolRoundtripPasses, timedChat,
    withTimed.
  cbn [ending elapsed].
  destruct (chatStreamByProvider type (chatStream c)) as [res|m]; cbn [t_res];
    [| reflexivity].
  now destruct (nonEmpty _).
Qed.

(** Gives every test that is handed to [record] its name and its flag
    and forgets the rest of it. *)
Ltac flag_as t F :=
  match goal with
  | |- context [record ?x] =>
      match x with
      | _ => is_var x; fail 1
      | _ => idtac
      end;
      first
        [ pose proof (flag_textTest _ _ : flagOf x = _) as F
        | pose proof (flag_chatTest _ _ : flagOf x = _) as F
        | pose proof (flag_realToolsSchemaTest _ _ _ : flagOf x = _) as F
        | pose proof (flag_realToolsRoundtripTest _ _ _ : flagOf x = _) as F
        | pose proof (flag_toolRoundtripTest _ _ : flagOf x = _) as F
        | match x with
          | test ?n ?b _ _ => pose proof (eq_refl : flagOf x = (n, b)) as F
          end ];
      generalize dependent x; intros t F
  end.

Ltac flag_all := repeat (let t := fresh "t" in let F := fresh "F" in flag_as t F).

Ltac flags_done :=
  rewrite ?map_app; cbn [map app];
  repeat match goal with F : flagOf _ = _ |- _ => rewrite F; clear F end.

Ltac is_short :=
  exists []; refine (conj _ (conj (Forall_nil _) _)); [cbn [length]; lia |];
  run_probes; flags_done; reflexivity.

(** The names and flags of the recorded tests, by how far the probes
    went. *)
Lemma provider_flags : forall w provider captured,
  exists notes,
    length notes <= 2
    /\ Forall (fun f => f = ("note", true)) notes
    /\ map flagOf
         (tests (selfTestProvider RESPONSE_NODE_TOOL_USE RESPONSE_NODE_TOKEN_USAGE
                   STOP_REASON_TOOL_USE_REQUESTED resolveToolSchema
                   convertOpenAiTools convertAnthropicTools convertGeminiTools
                   convertOpenAiResponsesTools w provider captured))
       = if negb (configComplete provider) then [("config", false)]
         else if negb (nonEmpty (resolvedModel w provider))
         then [("models", returned (ending (modelsCall w))); ("model", false)]
         else
           let type := normalizeString (get provider "type") in
           [("models", returned (ending (modelsCall w)));
            ("completeText", textPasses (completeTextCall w));
            ("streamText", textPasses (streamTextCall w));
            ("nextEdit", textPasses (nextEditCall w));
            ("nextEditLoc", textPasses (nextEditLocCall w));
            ("chatStream", chatPasses type (chatCall w));
            ("realToolsSchema",
             realToolsSchemaPasses convertOpenAiTools convertAnthropicTools
               convertGeminiTools convertOpenAiResponsesTools type captured);
            ("realToolsToolRoundtrip",
             realToolsRoundtripPasses RESPONSE_NODE_TOOL_USE resolveToolSchema
               w provider captured);
            ("tools+multimodal",
             returned (chatStreamByProvider type (chatStream (toolChatCall w))))]
           ++ match chatStreamByProvider type (chatStream (toolChatCall w)) with
              | Throws _ => []
              | Returns res =>
                  match extractToolUsesFromNodes RESPONSE_NODE_TOOL_USE
                          (ChatStream.nodes res) with
                  | [] => [("toolRoundtrip", true)]
                  | _ :: _ =>
                      ("toolRoundtrip", toolRoundtripPasses type (toolRoundtripCall w))
                      :: notes
                  end
              end.
Proof.
  intros w provider captured.
  unfold selfTestProvider, providerBody, configComplete, resolvedModel, discoveredModel,
    realToolsSchemaPasses, realToolsRoundtripPasses.
  unfold textProbe, chatProbe, realToolsProbes, toolProbes.
  cbv zeta.
  rewrite !t_res_timedChat, !t_res_withTimed.
  generalize (pickProviderModel provider). intros pick.
  generalize (normalizeString (get provider "type")). intros type.
  destruct (nonEmpty type); cbn [negb orb andb]; [| is_short].
  destruct (nonEmpty (normalizeString (get provider "baseUrl"))); cbn [negb orb andb];
    [| is_short].
  destruct (authOk provider); cbn [negb orb andb]; [| is_short].
  destruct (ending (modelsCall w)) as [res|m]; cbn [returned]; run_probes.
  all: match goal with
       | |- context [nonEmpty (normalizeString (JStr ?m))] =>
           destruct (nonEmpty (normalizeString (JStr m)))
       end; cbn [negb]; [| is_short].
  all: cbn [elements]; destruct (elements captured) as [|d ds];
    cbn [length Nat.ltb Nat.leb].
  all: destruct (chatStreamByProvider type (chatStream (toolChatCall w))) as [r1|m1];
    cbn [returned]; [| flag_all; is_short].
  all: destruct (extractToolUsesFromNodes RESPONSE_NODE_TOOL_USE (ChatStream.nodes r1))
         as [|first rest]; [flag_all; is_short |].
  all: flag_all.
  all: repeat match goal with
       | |- context [if ?c then record _ else ret tt] => destruct c
       end; run_probes.
  all: eexists; refine (conj _ (conj _ _)); [| | flags_done; reflexivity];
    [cbn [length]; lia | repeat constructor].
Qed.

(** C3 (as amended): every probe that runs records one test, and the
    flag of the test tells whether the probe passed: [ok] is false
    exactly when its call threw or gave nothing ([models]: the call
    threw; the text probes: threw or blank text; [chatStream]: threw or
    neither text nor nodes; [realToolsSchema]: conversion or validation
    threw; [realToolsToolRoundtrip]: threw or a result that is not ok;
    [tools+multimodal]: threw; [toolRoundtrip]: threw or blank text).
    The flag of the entry is the conjunction of the flags.  From
    [models] to [tools+multimodal] the probes run in a row whatever the
    earlier ones gave.  They stop early in four cases: an incomplete
    configuration (only [config] is recorded, with [ok:false]); no model
    after discovery (only [models] and [model]); a tools+multimodal chat
    that throws (the tool-result round trip is not run); and a
    tools+multimodal chat without tool use ([toolRoundtrip] is recorded
    as skipped, with [ok:true], and not run).  Only notes, with
    [ok:true], may follow the round trip. *)
Theorem provider_probe_sequence :
  forall (w : ProviderWorld) (provider captured : value),
    let e := selfTestProvider RESPONSE_NODE_TOOL_USE RESPONSE_NODE_TOKEN_USAGE
               STOP_REASON_TOOL_USE_REQUESTED resolveToolSchema convertOpenAiTools
               convertAnthropicTools convertGeminiTools convertOpenAiResponsesTools
               w provider captured in
    let type := normalizeString (get provider "type") in
    let toolChat := chatStreamByProvider type (chatStream (toolChatCall w)) in
    (exists notes,
       length notes <= 2
       /\ Forall (fun f => f = ("note", true)) notes
       /\ map flagOf (tests e)
          = if negb (configComplete provider) then [("config", false)]
            else if negb (nonEmpty (resolvedModel w provider))
            then [("models", returned (ending (modelsCall w))); ("model", false)]
            else
              [("models", returned (ending (modelsCall w)));
               ("completeText", textPasses (completeTextCall w));
               ("streamText", textPasses (streamTextCall w));
               ("nextEdit", textPasses (nextEditCall w));
               ("nextEditLoc", textPasses (nextEditLocCall w));
               ("chatStream", chatPasses type (chatCall w));
               ("realToolsSchema",
                realToolsSchemaPasses convertOpenAiTools convertAnthropicTools
                  convertGeminiTools convertOpenAiResponsesTools type captured);
               ("realToolsToolRoundtrip",
                realToolsRoundtripPasses RESPONSE_NODE_TOOL_USE resolveToolSchema
                  w provider captured);
               ("tools+multimodal", returned toolChat)]
              ++ match toolChat with
                 | Throws _ => []
                 | Returns res =>
                     match extractToolUsesFromNodes RESPONSE_NODE_TOOL_USE
                             (ChatStream.nodes res) with
                     | [] => [("toolRoundtrip", true)]
                     | _ :: _ =>
                         ("toolRoundtrip",
                          toolRoundtripPasses type (toolRoundtripCall w)) :: notes
                     end
                 end)
    /\ entryOk e = forallb ok (tests e).
Proof.
  intros w provider captured e type toolChat.
  split.
  - apply provider_flags.
  - apply Sound_selfTestProvider.
Qed.

End ProviderFacts.

(** C3, as stated, fails for a provider whose configuration is complete
    and whose tools+multimodal chat call throws: the failure is recorded,
    but the tool-result round trip, the next probe, is never run. *)
Lemma tool_chat_failure_stops_the_probes :
  @SelfTest.configComplete asciiHost Examples.provider1 = true
  /\ map SelfTest.name
       (SelfTest.tests
          (@SelfTest.selfTestProvider asciiHost Examples.toolUseTag Examples.tokenUsageTag
             Examples.stopToolUse Examples.inputSchemaOf Examples.noTools Examples.noTools
             Examples.noTools Examples.noTools
             Examples.toolChatFails Examples.provider1 (JArr [])))
     = SelfTest.firstProbes
  /\ ~ In "toolRoundtrip" SelfTest.firstProbes.
Proof.
  split; [vm_compute; reflexivity|]. split; [vm_compute; reflexivity|].
  cbn. intuition discriminate.
Qed.

(* ================================================================= *)
(** ** The report of a run *)

Section ReportFacts.
Context `{Host}.
Import SelfTest.
Variable RESPONSE_NODE_TOOL_USE : Z.
Variable RESPONSE_NODE_TOKEN_USAGE : Z.
Variable STOP_REASON_TOOL_USE_REQUESTED : value.
Variable resolveToolSchema : value -> value.
Variable convertOpenAiTools : value -> value.
Variable convertAnthropicTools : value -> value.
Variable convertGeminiTools : value -> value.
Variable convertOpenAiResponsesTools : value -> value.

(** The provider loop runs every provider, in order, and lowers the
    flag exactly when a test of an entry failed. *)
Lemma providerLoop_spec : forall w toolDefs ps i okSoFar done,
  Forall Sound done ->
  exists fresh,
    providerLoop RESPONSE_NODE_TOOL_USE RESPONSE_NODE_TOKEN_USAGE
      STOP_REASON_TOOL_USE_REQUESTED resolveToolSchema convertOpenAiTools
      convertAnthropicTools convertGeminiTools convertOpenAiResponsesTools
      w toolDefs i ps okSoFar done
    = (okSoFar && forallb (fun e => forallb ok (tests e)) fresh, done ++ fresh)
    /\ length fresh = length ps /\ Forall Sound fresh.
Proof.
  induction ps as [|p rest IH]; intros i okSoFar done Hdone; cbn [providerLoop].
  - exists []. rewrite app_nil_r. cbn [forallb]. rewrite andb_true_r. auto.
  - set (res := selfTestProvider RESPONSE_NODE_TOOL_USE RESPONSE_NODE_TOKEN_USAGE
                  STOP_REASON_TOOL_USE_REQUESTED resolveToolSchema convertOpenAiTools
                  convertAnthropicTools convertGeminiTools convertOpenAiResponsesTools
                  (w i) p toolDefs).
    assert (Sres : Sound res) by apply Sound_selfTestProvider.
    destruct (IH (S i) (if negb (entryOk res) then false else okSoFar) (done ++ [res]))
      as [fresh [E [Hlen Hs]]].
    { apply Forall_app. split; [assumption | now constructor]. }
    exists (res :: fresh). rewrite E. repeat split.
    + f_equal.
      * cbn [forallb]. rewrite <- Sres.
        destruct (entryOk res), okSoFar; reflexivity.
      * now rewrite <- app_assoc.
    + cbn [length]. now rewrite Hlen.
    + now constructor.
Qed.

Lemma name_historySummary : forall r1 r2,
  name (selfTestHistorySummary r1 r2) = "historySummary".
Proof.
  intros r1 r2. unfold selfTestHistorySummary.
  now destruct (_ && _).
Qed.

Lemma name_strictCapturedTest : forall w toolDefs,
  name (strictCapturedTest convertOpenAiResponsesTools w toolDefs)
  = "responsesStrictSchema(capturedTools)".
Proof. intros. unfold strictCapturedTest. now destruct (t_res _). Qed.

Lemma name_toolsExecTest : forall w toolDefs,
  name (toolsExecTest w toolDefs) = "toolsExec".
Proof. intros. unfold toolsExecTest. now destruct (t_res _). Qed.

(** C2: the flag [ok] of the report is true exactly when every global
    test and every test of every provider entry has [ok] true; and
    whatever fails, the report is complete: its six global tests are
    there, in order, and there is one entry per configured provider. *)
Theorem report_ok_iff_all_tests_pass :
  forall (w : RunWorld) (cfg : value),
    let report := runSelfTest RESPONSE_NODE_TOOL_USE RESPONSE_NODE_TOKEN_USAGE
                    STOP_REASON_TOOL_USE_REQUESTED resolveToolSchema convertOpenAiTools
                    convertAnthropicTools convertGeminiTools convertOpenAiResponsesTools
                    w cfg in
    reportOk report
    = forallb ok (globalTests report)
      && forallb (fun e => forallb ok (tests e)) (providers report)
    /\ map name (globalTests report)
       = ["capturedToolsAvailable"; "capturedToolsSchemaSamples";
          "responsesStrictSchema"; "responsesStrictSchema(capturedTools)";
          "toolsExec"; "historySummary"]
    /\ length (providers report)
       = length (elements (get (if isObjectLike cfg then cfg else JObj []) "providers")).
Proof.
  intros w cfg report. subst report. unfold runSelfTest.
  match goal with
  | |- context [providerLoop ?c1 ?c2 ?c3 ?c4 ?c5 ?c6 ?c7 ?c8 ?a ?b ?c ?d ?e ?f] =>
      destruct (providerLoop_spec a b d c e f (Forall_nil _)) as [fresh [E [Hlen _]]];
      rewrite E
  end.
  cbn [reportOk globalTests providers forallb app map].
  refine (conj _ (conj _ _)).
  - rewrite !flag_and.
    match goal with
    | |- context [if ?c then true else false] => destruct c
    end; cbn [ok]; btauto.
  - repeat match goal with
           | |- context [if ?c then _ else _] => destruct c
           end;
      cbn [name test];
      rewrite ?name_historySummary, ?name_strictCapturedTest, ?name_toolsExecTest;
      reflexivity.
  - exact Hlen.
Qed.

End ReportFacts.

(* ================================================================= *)
(** ** The real-tool round trip *)

Section RoundtripFacts.
Context `{Host}.
Import SelfTest.
Variable RESPONSE_NODE_TOOL_USE : Z.

Lemma Grows_refl : forall t, Grows t t.
Proof. intros t. exists []. now rewrite app_nil_r. Qed.

Lemma Grows_trans : forall a b c, Grows a b -> Grows b c -> Grows a c.
Proof.
  intros a b c [x Hx] [y Hy]. exists (x ++ y). now rewrite Hy, Hx, app_assoc.
Qed.

Lemma Grows_failCalls : forall ns t, Grows t (failCalls ns t).
Proof. intros ns t. exists []. cbn. now rewrite app_nil_r. Qed.

Lemma Grows_failRoundtrips : forall ns t, Grows t (failRoundtrips ns t).
Proof. intros ns t. exists []. cbn. now rewrite app_nil_r. Qed.

Lemma Grows_passRoundtrips : forall n t, Grows t (passRoundtrips n t).
Proof. intros n t. exists []. cbn. now rewrite app_nil_r. Qed.

Lemma Grows_checkTool : forall idx used t n, Grows t (checkTool idx used t n).
Proof.
  intros idx used t n. unfold checkTool.
  destruct (mapGet n used); [| apply Grows_failCalls].
  eexists. cbn [metaMismatches]. reflexivity.
Qed.

Lemma Grows_fold_checkTool : forall idx used ns t,
  Grows t (fold_left (checkTool idx used) ns t).
Proof.
  intros idx used ns. induction ns as [|n rest IH]; intros t; cbn [fold_left].
  - apply Grows_refl.
  - eapply Grows_trans; [apply Grows_checkTool | apply IH].
Qed.

(** Whatever the later turns and batches do, no recorded mismatch is
    taken back. *)
Lemma Grows_batchLoop : forall type w idx batches bi t tEnd,
  batchLoop RESPONSE_NODE_TOOL_USE type w idx bi batches t = Returns tEnd ->
  Grows t tEnd.
Proof.
  intros type w idx batches. induction batches as [|b rest IH]; intros bi t tEnd E;
    cbn [batchLoop] in E.
  - inversion E. apply Grows_refl.
  - destruct (flat_map _ b) as [|d ds]; [now apply IH in E|].
    destruct (chatStreamByProvider type (firstTurn (w bi))) as [res1|m].
    + set (used := usedByNameOf b (extractToolUsesFromNodes RESPONSE_NODE_TOOL_USE
                                     (ChatStream.nodes res1))) in *.
      pose proof (Grows_fold_checkTool idx used b t) as G1.
      destruct used as [|u us]; [apply IH in E; eapply Grows_trans; eassumption|].
      destruct (chatStreamByProvider type (secondTurn (w bi))) as [res2|m2].
      * destruct (negb (nonEmpty _)); apply IH in E;
          (eapply Grows_trans; [exact G1|]);
          (eapply Grows_trans; [| exact E]);
          [apply Grows_failRoundtrips | apply Grows_passRoundtrips].
      * destruct (secondAborted (w bi)); [discriminate|]. apply IH in E.
        eapply Grows_trans; [exact G1|]. eapply Grows_trans; [| exact E].
        apply Grows_failRoundtrips.
    + destruct (firstAborted (w bi)); [discriminate|]. apply IH in E.
      eapply Grows_trans; [| exact E]. apply Grows_failCalls.
Qed.

Lemma verdict_ok : forall n u t,
  probeOk (roundtripVerdict n u t) = true
  <-> callFailed t = [] /\ roundtripFailed t = [] /\ metaMismatches t = [].
Proof.
  intros n u t. unfold roundtripVerdict. cbn [probeOk].
  rewrite !andb_true_iff, !Nat.eqb_eq, !length_zero_iff_nil. tauto.
Qed.

(** C6 (as amended): when a tool of the batch is matched by a tool-use
    entry, a difference between its declared MCP server or tool name and
    the echoed one is recorded as a metadata mismatch and as nothing
    else: the tool counts as called and enters neither the list of
    failed calls nor that of failed round trips.  But a recorded
    mismatch lasts to the end of the loop, and the probe is ok only if
    no call failed, no round trip failed and no mismatch was recorded:
    after a mismatch the verdict of the probe is a failure. *)
Theorem meta_mismatch_is_recorded_and_fails_the_probe :
  forall (toolDefsByName : list (string * value))
         (usedByName : list (string * ToolUse)) (t : Tally) (toolName : string)
         (used : ToolUse) (type : string) (w : nat -> BatchWorld) (bi : nat)
         (batches : list (list string)) (tEnd : Tally) (n u : nat),
    mapGet toolName usedByName = Some used ->
    let toolDef :=
      match mapGet toolName toolDefsByName with Some d => d | None => JNull end in
    let t' := checkTool toolDefsByName usedByName t toolName in
    metaMismatchesOf toolName toolDef used <> [] ->
    batchLoop RESPONSE_NODE_TOOL_USE type w toolDefsByName bi batches t' = Returns tEnd ->
    (callFailed t' = callFailed t
     /\ roundtripFailed t' = roundtripFailed t
     /\ calledOk t' = calledOk t + 1
     /\ metaMismatches t' = metaMismatches t ++ metaMismatchesOf toolName toolDef used)
    /\ probeOk (roundtripVerdict n u t') = false
    /\ probeOk (roundtripVerdict n u tEnd) = false.
Proof.
  intros idx usedMap t toolName used type w bi batches tEnd n u Hused toolDef t'
    Hmis Hloop.
  assert (Hstep : callFailed t' = callFailed t
     /\ roundtripFailed t' = roundtripFailed t
     /\ calledOk t' = calledOk t + 1
     /\ metaMismatches t' = metaMismatches t ++ metaMismatchesOf toolName toolDef used).
  { subst t' toolDef. unfold checkTool. rewrite Hused. cbn. auto. }
  assert (Hne : metaMismatches t' <> []).
  { destruct Hstep as (_ & _ & _ & Hm). rewrite Hm. intros Happ.
    apply app_eq_nil in Happ. tauto. }
  refine (conj Hstep (conj _ _)).
  - destruct (probeOk (roundtripVerdict n u t')) eqn:E; [| reflexivity].
    apply verdict_ok in E. tauto.
  - destruct (probeOk (roundtripVerdict n u tEnd)) eqn:E; [| reflexivity].
    apply verdict_ok in E. destruct E as (_ & _ & Hnil).
    apply Grows_batchLoop in Hloop. destruct Hloop as [extra Hg].
    rewrite Hg in Hnil. apply app_eq_nil in Hnil. tauto.
Qed.

End RoundtripFacts.

Lemma meta_mismatch_witness :
  SelfTest.probeOk
    (@SelfTest.roundtripVerdict asciiHost 1 1
       (@SelfTest.checkTool asciiHost [("t", Examples.mcpTool)] [("t", Examples.echoed)]
          SelfTest.emptyTally "t")) = false.
Proof.
  refine (proj1 (proj2
            (@meta_mismatch_is_recorded_and_fails_the_probe asciiHost Examples.toolUseTag
               [("t", Examples.mcpTool)] [("t", Examples.echoed)] SelfTest.emptyTally "t"
               Examples.echoed "openai_compatible" (fun _ => Examples.mismatchBatch) 0 []
               (@SelfTest.checkTool asciiHost [("t", Examples.mcpTool)]
                  [("t", Examples.echoed)] SelfTest.emptyTally "t")
               1 1 _ _ _))).
  - reflexivity.
  - vm_compute. discriminate.
  - reflexivity.
Defined.

(** C6, as stated, fails: a provider calls the one real tool and
    completes the round trip, but echoes another MCP server name than
    the declared one; the call and the round trip both count as passed,
    and the probe result is a failure. *)
Lemma meta_mismatch_fails_the_probe :
  @SelfTest.realToolsToolRoundtripByProvider asciiHost Examples.toolUseTag
    Examples.inputSchemaOf Examples.provider1 (JArr [Examples.mcpTool]) (JNum 9999)
    (fun _ => Examples.mismatchBatch)
  = SelfTest.Returns
      {| SelfTest.probeOk := false;
         SelfTest.probeDetail :=
           "tools=1/1 call=1/1 roundtrip=1/1 meta_mismatch=1 first=mcp_server_name t: expected=srv got=other" |}.
Proof. vm_compute. reflexivity. Qed.

(* ================================================================= *)
(** ** Text built-ins *)

Section TextFacts.
Import Text.

Lemma chars_append : forall a b, chars (a +++ b) = chars a ++ chars b.
Proof.
  induction a as [|c a IH]; intros b; cbn [String.append chars app].
  - reflexivity.
  - now rewrite IH.
Qed.

Lemma replaceChar_append : forall c r a b,
  replaceChar c r (a +++ b) = replaceChar c r a +++ replaceChar c r b.
Proof.
  intros c r. induction a as [|d a IH]; intros b; cbn [String.append replaceChar].
  - reflexivity.
  - rewrite IH. destruct (Ascii.eqb d c).
    + now rewrite append_assoc.
    + reflexivity.
Qed.

(** A character of a replaced text comes from the replacement or is a
    character of the text other than the replaced one. *)
Lemma replaceChar_chars : forall c r s x,
  In x (chars (replaceChar c r s)) -> In x (chars r) \/ (In x (chars s) /\ x <> c).
Proof.
  intros c r. induction s as [|d s IH]; intros x Hin; cbn [replaceChar chars] in *.
  - contradiction.
  - destruct (Ascii.eqb_spec d c) as [-> | Hne].
    + rewrite chars_append in Hin. apply in_app_or in Hin.
      destruct Hin as [Hr | Hs]; [now left|].
      destruct (IH x Hs) as [Hr | [Hs' Hx]]; [now left | right].
      split; [now right | assumption].
    + cbn [chars In] in Hin. destruct Hin as [<- | Hs].
      * right. split; [now left | assumption].
      * destruct (IH x Hs) as [Hr | [Hs' Hx]]; [now left | right].
        split; [now right | assumption].
Qed.

Lemma replaceChar_absent : forall c r s,
  ~ In c (chars s) -> replaceChar c r s = s.
Proof.
  intros c r. induction s as [|d s IH]; intros Hno; cbn [replaceChar].
  - reflexivity.
  - cbn [chars In] in Hno. destruct (Ascii.eqb_spec d c) as [-> | Hne].
    + exfalso. apply Hno. now left.
    + rewrite IH; [reflexivity|]. intros Hin. apply Hno. now right.
Qed.

Lemma replaceCrLf_noCR : forall s, ~ In CR (chars s) -> replaceCrLf s = s.
Proof.
  induction s as [|c s IH]; intros Hno; cbn [replaceCrLf].
  - reflexivity.
  - cbn [chars In] in Hno. destruct s as [|d s']; [reflexivity|].
    destruct (Ascii.eqb_spec c CR) as [-> | Hne]; [exfalso; apply Hno; now left|].
    cbn [andb]. rewrite IH; [reflexivity|]. intros Hin. apply Hno. now right.
Qed.

Lemma replaceCrLf_noLF : forall s, ~ In LF (chars s) -> replaceCrLf s = s.
Proof.
  induction s as [|c s IH]; intros Hno; cbn [replaceCrLf].
  - reflexivity.
  - cbn [chars In] in Hno. destruct s as [|d s']; [reflexivity|].
    destruct (Ascii.eqb_spec d LF) as [-> | Hne].
    + exfalso. apply Hno. right. now left.
    + rewrite andb_false_r. rewrite IH; [reflexivity|].
      intros Hin. apply Hno. now right.
Qed.

(** A line without carriage return, then CR LF: the pair becomes one
    line feed and the rewriting goes on behind it. *)
Lemma replaceCrLf_line : forall l rest,
  ~ In CR (chars l) ->
  replaceCrLf (l +++ String CR (String LF rest)) = l +++ String LF (replaceCrLf rest).
Proof.
  induction l as [|c l IH]; intros rest Hno; cbn [String.append].
  - cbn [replaceCrLf]. now rewrite !Ascii.eqb_refl.
  - cbn [chars In] in Hno.
    assert (Hc : Ascii.eqb c CR = false)
      by (apply Ascii.eqb_neq; intros ->; apply Hno; now left).
    assert (Hl : ~ In CR (chars l)) by (intros Hin; apply Hno; now right).
    cbn [replaceCrLf]. rewrite Hc. cbn [andb].
    destruct (l +++ String CR (String LF rest)) eqn:E.
    + destruct l; discriminate.
    + rewrite <- E. now rewrite IH.
Qed.

Lemma splitOn_plain : forall c l, ~ In c (chars l) -> splitOn c l = [l].
Proof.
  intros c. induction l as [|d l IH]; intros Hno; cbn [splitOn].
  - reflexivity.
  - cbn [chars In] in Hno.
    destruct (Ascii.eqb_spec d c) as [-> | Hne]; [exfalso; apply Hno; now left|].
    rewrite IH; [reflexivity|]. intros Hin. apply Hno. now right.
Qed.

Lemma splitOn_line : forall c l rest,
  ~ In c (chars l) -> splitOn c (l +++ String c rest) = l :: splitOn c rest.
Proof.
  intros c. induction l as [|d l IH]; intros rest Hno; cbn [String.append splitOn].
  - now rewrite Ascii.eqb_refl.
  - cbn [chars In] in Hno.
    destruct (Ascii.eqb_spec d c) as [-> | Hne]; [exfalso; apply Hno; now left|].
    rewrite IH; [reflexivity|]. intros Hin. apply Hno. now right.
Qed.

(** The pieces of a split hold no separator. *)
Lemma splitOn_pieces : forall c s piece,
  In piece (splitOn c s) -> ~ In c (chars piece).
Proof.
  intros c. induction s as [|d s IH]; intros piece Hin; cbn [splitOn] in Hin.
  - destruct Hin as [<- | []]. intros [].
  - destruct (Ascii.eqb_spec d c) as [-> | Hne].
    + destruct Hin as [<- | Hin]; [intros [] | now apply IH].
    + destruct (splitOn c s) as [|p ps] eqn:E.
      * destruct Hin as [<- | []]. cbn [chars In]. intros [Heq | []]. congruence.
      * destruct Hin as [<- | Hin].
        -- cbn [chars In]. intros [Heq | Hin']; [congruence|].
           apply (IH p); [now left | assumption].
        -- apply IH. now right.
Qed.

Lemma join_cons2 : forall sep l l2 rest,
  join sep (l :: l2 :: rest) = l +++ sep +++ join sep (l2 :: rest).
Proof. reflexivity. Qed.

Lemma chars_join : forall sep lines c,
  In c (chars (join sep lines)) ->
  In c (chars sep) \/ exists l, In l lines /\ In c (chars l).
Proof.
  intros sep. induction lines as [|l rest IH]; intros c Hin.
  - contradiction.
  - destruct rest as [|l2 rest'].
    + cbn [join] in Hin. right. exists l. split; [now left | assumption].
    + rewrite join_cons2, !chars_append in Hin.
      apply in_app_or in Hin. destruct Hin as [Hin | Hin].
      * right. exists l. split; [now left | assumption].
      * apply in_app_or in Hin. destruct Hin as [Hin | Hin]; [now left|].
        destruct (IH c Hin) as [Hs | [l' [Hl Hc]]]; [now left|].
        right. exists l'. split; [now right | assumption].
Qed.

Lemma splitOn_join : forall c lines,
  lines <> [] ->
  Forall (fun l => ~ In c (chars l)) lines ->
  splitOn c (join (String c EmptyString) lines) = lines.
Proof.
  intros c. induction lines as [|l rest IH]; intros Hne Hall; [congruence|].
  inversion Hall as [|? ? Hl Hrest]; subst.
  destruct rest as [|l2 rest'].
  - cbn [join]. now apply splitOn_plain.
  - rewrite join_cons2. cbn [String.append].
    rewrite splitOn_line by assumption. rewrite IH; [reflexivity | discriminate | assumption].
Qed.

(** Whichever of the three line breaks joins the lines, rewriting CR LF
    and then CR to LF gives the lines joined by LF. *)
Lemma line_breaks_to_LF : forall sep lines,
  lines <> [] ->
  Forall (fun l => ~ In CR (chars l) /\ ~ In LF (chars l)) lines ->
  sep = String LF EmptyString \/ sep = String CR (String LF EmptyString)
  \/ sep = String CR EmptyString ->
  replaceChar CR (String LF EmptyString) (replaceCrLf (join sep lines))
  = join (String LF EmptyString) lines.
Proof.
  intros sep lines Hne Hall Hsep.
  assert (Hclean : forall c l, In l lines -> In c (chars l) -> c <> CR /\ c <> LF).
  { intros c l Hl Hc. rewrite Forall_forall in Hall. destruct (Hall l Hl) as [A B].
    split; intros ->; contradiction. }
  destruct Hsep as [-> | [-> | ->]].
  - assert (Hno : ~ In CR (chars (join (String LF EmptyString) lines))).
    { intros Hin. apply chars_join in Hin. destruct Hin as [Hin | [l [Hl Hc]]].
      - cbn in Hin. destruct Hin as [Hin | []]. discriminate.
      - destruct (Hclean _ _ Hl Hc). congruence. }
    rewrite replaceCrLf_noCR by assumption. now apply replaceChar_absent.
  - clear Hclean. induction lines as [|l rest IH]; [congruence|].
    inversion Hall as [|? ? [Hcr Hlf] Hrest]; subst.
    destruct rest as [|l2 rest'].
    + cbn [join]. rewrite replaceCrLf_noCR by assumption.
      now apply replaceChar_absent.
    + rewrite !join_cons2. cbn [String.append].
      rewrite replaceCrLf_line by assumption.
      rewrite replaceChar_append. rewrite (replaceChar_absent CR _ l) by assumption.
      cbn [replaceChar]. replace (Ascii.eqb LF CR) with false by reflexivity.
      rewrite IH; [reflexivity | discriminate | assumption].
  - assert (Hno : ~ In LF (chars (join (String CR EmptyString) lines))).
    { intros Hin. apply chars_join in Hin. destruct Hin as [Hin | [l [Hl Hc]]].
      - cbn in Hin. destruct Hin as [Hin | []]. discriminate.
      - destruct (Hclean _ _ Hl Hc). congruence. }
    rewrite replaceCrLf_noLF by assumption.
    clear Hno Hclean. induction lines as [|l rest IH]; [congruence|].
    inversion Hall as [|? ? [Hcr Hlf] Hrest]; subst.
    destruct rest as [|l2 rest'].
    + cbn [join]. now apply replaceChar_absent.
    + rewrite !join_cons2. cbn [String.append].
      rewrite replaceChar_append. rewrite (replaceChar_absent CR _ l) by assumption.
      cbn [replaceChar]. rewrite Ascii.eqb_refl. cbn [String.append].
      rewrite IH; [reflexivity | discriminate | assumption].
Qed.

Lemma indexOfChar_append : forall c a rest,
  ~ In c (chars a) -> indexOfChar c (a +++ String c rest) = Some (String.length a).
Proof.
  intros c. induction a as [|d a IH]; intros rest Hno;
    cbn [String.append indexOfChar String.length].
  - now rewrite Ascii.eqb_refl.
  - cbn [chars In] in Hno.
    destruct (Ascii.eqb_spec d c) as [-> | Hne]; [exfalso; apply Hno; now left|].
    rewrite IH; [reflexivity|]. intros Hin. apply Hno. now right.
Qed.

(** The index [indexOfChar] finds splits the text at the first
    occurrence of the character. *)
Lemma indexOfChar_split : forall c s i,
  indexOfChar c s = Some i ->
  s = sliceTo i s +++ String c (sliceFrom (i + 1) s)
  /\ ~ In c (chars (sliceTo i s)) /\ String.length (sliceTo i s) = i.
Proof.
  intros c. induction s as [|d s IH]; intros i Hi; cbn [indexOfChar] in Hi.
  - discriminate.
  - destruct (Ascii.eqb_spec d c) as [-> | Hne].
    + inversion Hi; subst. cbn. repeat split; try reflexivity. intros [].
    + destruct (indexOfChar c s) as [j|] eqn:E; [|discriminate].
      inversion Hi; subst. destruct (IH j eq_refl) as (A & B & C).
      cbn [sliceTo sliceFrom Nat.add String.append chars In String.length].
      repeat split.
      * now rewrite <- A.
      * intros [Heq | Hin]; [congruence | contradiction].
      * now rewrite C.
Qed.

Lemma sliceTo_append : forall a b, sliceTo (String.length a) (a +++ b) = a.
Proof.
  induction a as [|c a IH]; intros b; cbn [String.length String.append sliceTo].
  - reflexivity.
  - now rewrite IH.
Qed.

Lemma sliceFrom_append : forall a b, sliceFrom (String.length a) (a +++ b) = b.
Proof.
  induction a as [|c a IH]; intros b; cbn [String.length String.append sliceFrom].
  - reflexivity.
  - now rewrite IH.
Qed.

Lemma sliceFrom_after : forall a c b,
  sliceFrom (String.length a + 1) (a +++ String c b) = b.
Proof.
  induction a as [|d a IH]; intros c b; cbn [String.length String.append sliceFrom Nat.add].
  - reflexivity.
  - apply IH.
Qed.

Lemma prefix_append : forall a b, String.prefix a (a +++ b) = true.
Proof.
  induction a as [|c a IH]; intros b; cbn [String.append String.prefix].
  - now destruct b.
  - destruct (Ascii.ascii_dec c c) as [_ | N]; [apply IH | congruence].
Qed.

Lemma prefix_split : forall a s,
  String.prefix a s = true -> s = a +++ sliceFrom (String.length a) s.
Proof.
  induction a as [|c a IH]; intros s Hp.
  - reflexivity.
  - destruct s as [|d s]; cbn [String.prefix] in Hp; [discriminate|].
    destruct (Ascii.ascii_dec c d) as [-> | N]; [|discriminate].
    cbn [String.length sliceFrom String.append]. now rewrite <- (IH s Hp).
Qed.

End TextFacts.

(* ================================================================= *)
(** ** The panel helpers *)

Section PanelFacts.
Context `{Host}.
Import Text Panel.

Lemma setOf_spec : forall xs seen,
  NoDup seen ->
  NoDup (setOf xs seen)
  /\ (forall s, In s (setOf xs seen) <-> In s seen \/ In s xs).
Proof.
  induction xs as [|x xs IH]; intros seen Hnd; cbn [setOf].
  - split; [assumption|]. intros s. cbn [In]. tauto.
  - destruct (mem x seen) eqn:E.
    + destruct (IH seen Hnd) as [Hn Hin]. split; [assumption|].
      intros s. rewrite Hin. cbn [In]. apply mem_true_iff in E.
      split; [tauto|]. intros [Hs | [<- | Hs]]; tauto.
    + assert (Hnd' : NoDup (seen ++ [x])).
      { apply mem_false_iff in E. apply NoDup_app; try assumption.
        - repeat constructor. intros [].
        - intros a Ha [<- | []]. contradiction. }
      destruct (IH (seen ++ [x]) Hnd') as [Hn Hin]. split; [assumption|].
      intros s. rewrite Hin, in_app_iff. cbn [In]. tauto.
Qed.


(** Markup characters never survive [escapeHtml]: the result holds no
    [<], [>], double quote or single quote, whatever value is rendered;
    every piece of a text is escaped on its own, so escaping commutes
    with concatenation; and a text without the five special characters
    comes back unchanged. *)
Theorem escapeHtml_leaves_no_markup :
  forall (v : value) (a b : string),
    (forall c, In c (chars (escapeHtml v)) ->
       c <> "<"%char /\ c <> ">"%char /\ c <> ascii_of_nat 34 /\ c <> "'"%char)
    /\ escapeHtml (JStr (a +++ b)) = escapeHtml (JStr a) +++ escapeHtml (JStr b)
    /\ ((forall c, In c (chars a) ->
           c <> "&"%char /\ c <> "<"%char /\ c <> ">"%char
           /\ c <> ascii_of_nat 34 /\ c <> "'"%char) ->
        escapeHtml (JStr a) = a).
Proof.
  intros v a b. refine (conj _ (conj _ _)).
  - intros c Hin. unfold escapeHtml in Hin.
    apply replaceChar_chars in Hin.
    destruct Hin as [Hin | [Hin N5]].
    { cbn in Hin. repeat split; intros ->; intuition discriminate. }
    apply replaceChar_chars in Hin.
    destruct Hin as [Hin | [Hin N4]].
    { cbn in Hin. repeat split; intros ->; intuition discriminate. }
    apply replaceChar_chars in Hin.
    destruct Hin as [Hin | [Hin N3]].
    { cbn in Hin. repeat split; intros ->; intuition discriminate. }
    apply replaceChar_chars in Hin.
    destruct Hin as [Hin | [Hin N2]].
    { cbn in Hin. repeat split; intros ->; intuition discriminate. }
    repeat split; assumption.
  - unfold escapeHtml. cbn [orElse toString].
    now rewrite !replaceChar_append.
  - intros Hclean. unfold escapeHtml. cbn [orElse toString].
    rewrite (replaceChar_absent "&" _ a), (replaceChar_absent "<" _ a),
      (replaceChar_absent ">" _ a), (replaceChar_absent (ascii_of_nat 34) _ a),
      (replaceChar_absent "'" _ a); try reflexivity;
      intros Hin; apply Hclean in Hin; tauto.
Qed.

(** [uniq] gives each non-empty normalised entry exactly once. *)
Theorem uniq_distinct_nonempty :
  forall (xs : value),
    NoDup (uniq xs)
    /\ forall s, In s (uniq xs)
                 <-> s <> "" /\ In s (map normalizeStr (elements xs)).
Proof.
  intros xs. unfold uniq.
  destruct (setOf_spec
              (filter (fun s => truthy (JStr s)) (map normalizeStr (elements xs))) []
              (NoDup_nil _)) as [Hnd Hin].
  split; [assumption|]. intros s. rewrite Hin, filter_In, truthy_str.
  cbn [In]. tauto.
Qed.

(** The models text area reads the same list of models whichever line
    break (LF, CR LF or CR) separates the lines: splitting what [join]
    put together gives the lines back, which [uniq] then cleans. *)
Theorem parseModelsTextarea_any_line_break :
  forall (lines : list string) (sep : string),
    lines <> [] ->
    Forall (fun l => ~ In CR (chars l) /\ ~ In LF (chars l)) lines ->
    sep = String LF EmptyString \/ sep = String CR (String LF EmptyString)
    \/ sep = String CR EmptyString ->
    parseModelsTextarea (JStr (join sep lines)) = uniq (JArr (map JStr lines)).
Proof.
  intros lines sep Hne Hall Hsep. unfold parseModelsTextarea.
  cbn [orElse toString]. rewrite line_breaks_to_LF by assumption.
  rewrite splitOn_join; [reflexivity | assumption |].
  eapply Forall_impl; [| exact Hall]. cbn. tauto.
Qed.

Lemma find_app_first : forall (A : Type) (f : A -> bool) (l1 l2 : list A),
  find f (l1 ++ l2) = match find f l1 with Some x => Some x | None => find f l2 end.
Proof.
  intros A f. induction l1 as [|x l1 IH]; intros l2; cbn [app find].
  - reflexivity.
  - destruct (f x); [reflexivity | apply IH].
Qed.

Lemma index_fold : forall ps out id,
  lookup id
    (fold_left
       (fun out p =>
          let i := normalizeStr (get p "id") in
          if truthy (JStr i)
          then (if i =? "__proto__" then out else set i p out)
          else out) ps out)
  = match (if (id =? "") || (id =? "__proto__") then None
           else find (fun p => normalizeStr (get p "id") =? id) (rev ps)) with
    | Some p => Some p
    | None => lookup id out
    end.
Proof.
  induction ps as [|p ps IH]; intros out id; cbn [fold_left rev].
  - cbn [find]. now destruct ((id =? "") || (id =? "__proto__")).
  - rewrite IH. cbv zeta.
    destruct ((id =? "") || (id =? "__proto__")) eqn:Hskip.
    + destruct (truthy (JStr (normalizeStr (get p "id")))) eqn:E; [|reflexivity].
      destruct (String.eqb_spec (normalizeStr (get p "id")) "__proto__") as [Hp | Hp];
        [reflexivity|].
      apply truthy_str in E. apply lookup_set_other.
      intros Heq. apply orb_true_iff in Hskip.
      destruct Hskip as [Hs | Hs]; apply String.eqb_eq in Hs; congruence.
    + apply orb_false_iff in Hskip. destruct Hskip as [He Hp].
      apply String.eqb_neq in He. apply String.eqb_neq in Hp.
      rewrite find_app_first.
      destruct (find (fun q => normalizeStr (get q "id") =? id) (rev ps)); [reflexivity|].
      cbn [find].
      destruct (String.eqb_spec (normalizeStr (get p "id")) id) as [Heq | Hne].
      * rewrite Heq. apply truthy_str in He. rewrite He.
        apply String.eqb_neq in Hp. rewrite Hp.
        now rewrite lookup_set_same.
      * destruct (truthy (JStr (normalizeStr (get p "id")))); [|reflexivity].
        destruct (normalizeStr (get p "id") =? "__proto__"); [reflexivity|].
        now rewrite lookup_set_other by assumption.
Qed.

(** In the index of providers by id the last provider of an id wins:
    the own property of an id is the last provider of the list that
    carries it (after normalisation); the empty id and the name
    [__proto__] never become own properties. *)
Theorem provider_index_last_wins :
  forall (cfg : value) (id : string),
    lookup id (computeProviderIndexById cfg)
    = if (id =? "") || (id =? "__proto__") then None
      else find (fun p => normalizeStr (get p "id") =? id)
                (rev (elements (get cfg "providers"))).
Proof.
  intros cfg id. unfold computeProviderIndexById. rewrite index_fold.
  cbn [lookup]. now destruct (if (id =? "") || (id =? "__proto__") then None else _).
Qed.

(** A model id of the form [byok:<provider>:<model>] is read back into
    its two parts, split at the first colon after the prefix, so the
    model part may itself hold colons. *)
Theorem parseByokModelId_round_trip :
  forall (p m : string),
    trim ("byok:" +++ p +++ ":" +++ m) = "byok:" +++ p +++ ":" +++ m ->
    trim p = p -> trim m = m ->
    p <> "" -> m <> "" ->
    ~ In ":"%char (chars p) ->
    parseByokModelId (JStr ("byok:" +++ p +++ ":" +++ m)) = Some (p, m).
Proof.
  intros p m Hs Hp Hm Pne Mne Hcolon. unfold parseByokModelId, normalizeStr.
  cbn [orElse toString]. rewrite Hs.
  unfold startsWithByok. rewrite prefix_append.
  cbn [negb]. replace (sliceFrom 5 ("byok:" +++ p +++ ":" +++ m)) with (p +++ ":" +++ m)
    by reflexivity.
  change (p +++ ":" +++ m) with (p +++ String ":" m).
  rewrite indexOfChar_append by assumption.
  rewrite sliceTo_append, sliceFrom_after.
  cbn [orElse toString]. rewrite Hp, Hm.
  apply truthy_str in Mne. rewrite Mne.
  destruct p as [|c p']; [congruence|].
  cbn [String.length Nat.leb truthy String.eqb negb orb]. reflexivity.
Qed.

(** What [parseByokModelId] accepts: only a text that starts with
    [byok:] followed by a part without colon, a colon and a rest; the
    two ids it returns are the trimmed parts and neither is empty. *)
Theorem parseByokModelId_sound :
  forall (raw : value) (p m : string),
    parseByokModelId raw = Some (p, m) ->
    p <> "" /\ m <> ""
    /\ exists p0 m0,
         normalizeStr raw = "byok:" +++ p0 +++ ":" +++ m0
         /\ ~ In ":"%char (chars p0)
         /\ p = trim p0 /\ m = trim m0.
Proof.
  intros raw p m Hparse. unfold parseByokModelId in Hparse.
  destruct (startsWithByok (normalizeStr raw)) eqn:Hpre; [|discriminate].
  cbn [negb] in Hparse.
  destruct (indexOfChar ":" (sliceFrom 5 (normalizeStr raw))) as [idx|] eqn:Hidx;
    [|discriminate].
  destruct (idx <=? 0)%nat; [discriminate|].
  match type of Hparse with
  | (if negb (truthy (JStr ?a)) || negb (truthy (JStr ?b)) then _ else _) = _ =>
      destruct (truthy (JStr a)) eqn:Ta; [|discriminate];
      destruct (truthy (JStr b)) eqn:Tb; [|discriminate]
  end.
  cbn [negb orb] in Hparse. inversion Hparse; subst. clear Hparse.
  apply truthy_str in Ta. apply truthy_str in Tb.
  refine (conj Ta (conj Tb _)).
  destruct (indexOfChar_split _ _ _ Hidx) as (Hsplit & Hno & _).
  exists (sliceTo idx (sliceFrom 5 (normalizeStr raw))),
         (sliceFrom (idx + 1) (sliceFrom 5 (normalizeStr raw))).
  refine (conj _ (conj Hno (conj eq_refl eq_refl))).
  change (sliceTo idx (sliceFrom 5 (normalizeStr raw)) +++ ":"
          +++ sliceFrom (idx + 1) (sliceFrom 5 (normalizeStr raw)))
    with (sliceTo idx (sliceFrom 5 (normalizeStr raw))
          +++ String ":" (sliceFrom (idx + 1) (sliceFrom 5 (normalizeStr raw)))).
  rewrite <- Hsplit.
  exact (prefix_split "byok:" _ Hpre).
Qed.

End PanelFacts.

Lemma parseModelsTextarea_any_line_break_witness :
  @Panel.parseModelsTextarea asciiHost
    (JStr (join (String Text.CR (String Text.LF EmptyString)) ["gpt-4o"; " claude "; "gpt-4o"]))
  = @Panel.uniq asciiHost (JArr (map JStr ["gpt-4o"; " claude "; "gpt-4o"])).
Proof.
  refine (@parseModelsTextarea_any_line_break asciiHost
            ["gpt-4o"; " claude "; "gpt-4o"] _ _ _ _).
  - discriminate.
  - repeat constructor; cbn; intuition discriminate.
  - right. left. reflexivity.
Defined.

Lemma parseByokModelId_round_trip_witness :
  @Panel.parseByokModelId asciiHost (JStr "byok:openai:gpt-4o:beta")
  = Some ("openai", "gpt-4o:beta").
Proof.
  refine (@parseByokModelId_round_trip asciiHost "openai" "gpt-4o:beta" _ _ _ _ _ _).
  - reflexivity.
  - reflexivity.
  - reflexivity.
  - discriminate.
  - discriminate.
  - cbn. intuition discriminate.
Defined.

Lemma parseByokModelId_sound_witness : "p1" <> "".
Proof.
  refine (proj1 (@parseByokModelId_sound asciiHost (JStr " byok:p1 : m:x ") "p1" "m:x" _)).
  vm_compute. reflexivity.
Defined.

(* ================================================================= *)
(** ** One conversation, four encodings *)

Section PromptFacts.
Context `{Host}.
Import Prompt.

(** A message is kept by the Gemini and Responses loops exactly when
    the Anthropic filter keeps it. *)
Lemma turnOf_spec : forall assistantRole m,
  assistantRole <> "" ->
  turnOf assistantRole m
  = if truthy m
       && (isStr (get m "role") "user" || isStr (get m "role") "assistant")
       && hasText m
    then Some (if isStr (get m "role") "assistant" then assistantRole else "user",
               match get m "content" with JStr c => c | _ => "" end)
    else None.
Proof.
  intros a m Ha. apply truthy_str in Ha. unfold turnOf, hasText.
  destruct m as [| |b|n|s|xs|fields]; try reflexivity.
  - destruct b; reflexivity.
  - unfold isObjectLike. cbn [truthy typeofObject get].
    destruct (n =? 0)%Z; reflexivity.
  - unfold isObjectLike. cbn [truthy typeofObject get].
    destruct (s =? ""); reflexivity.
  - unfold isObjectLike.
    replace (truthy (JObj fields)) with true by reflexivity.
    cbn [typeofObject andb negb].
    destruct (isStr (get (JObj fields) "role") "assistant") eqn:Ea.
    + rewrite Ha, orb_true_r. cbn [negb orb andb].
      destruct (get (JObj fields) "content"); try reflexivity.
      now destruct (truthy (JStr s)).
    + destruct (isStr (get (JObj fields) "role") "user") eqn:Eu; cbn [negb orb andb].
      * replace (truthy (JStr "user")) with true by reflexivity. cbn [negb orb].
        destruct (get (JObj fields) "content"); try reflexivity.
        now destruct (truthy (JStr s)).
      * reflexivity.
Qed.

(** The Anthropic, Gemini and Responses encodings carry the same
    conversation: the Gemini contents and the Responses input are the
    Anthropic messages re-encoded one by one, in order ([assistant] is
    [model] for Gemini), the system text is the same in all three, and
    every message kept is a user or assistant turn with a non-empty
    text. *)
Theorem provider_encodings_agree :
  forall (system messages : value),
    let turns := elements (get (asAnthropicMessages system messages) "messages") in
    get (asGeminiContents system messages) "contents"
    = JArr (map (fun m =>
                   JObj [("role", JStr (if isStr (get m "role") "assistant"
                                        then "model" else "user"));
                         ("parts", JArr [JObj [("text", get m "content")]])])
                turns)
    /\ get (asOpenAiResponsesInput system messages) "input"
       = JArr (map (fun m =>
                      JObj [("type", JStr "message"); ("role", get m "role");
                            ("content", get m "content")])
                   turns)
    /\ get (asGeminiContents system messages) "systemInstruction"
       = get (asAnthropicMessages system messages) "system"
    /\ get (asOpenAiResponsesInput system messages) "instructions"
       = get (asAnthropicMessages system messages) "system"
    /\ Forall (fun m =>
                 hasText m = true
                 /\ (isStr (get m "role") "user" || isStr (get m "role") "assistant")
                    = true)
              turns.
Proof.
  intros system messages turns. subst turns.
  unfold asGeminiContents, asOpenAiResponsesInput, asAnthropicMessages.
  cbn [get lookup String.eqb Ascii.eqb Bool.eqb elements].
  refine (conj _ (conj _ (conj eq_refl (conj eq_refl _)))).
  - f_equal. induction (elements messages) as [|m ms IH]; cbn [flat_map filter map];
      [reflexivity|].
    rewrite turnOf_spec by discriminate.
    destruct (truthy m && _ && hasText m) eqn:E; cbn [app map]; [| exact IH].
    rewrite IH. f_equal.
    apply andb_prop in E. destruct E as [_ Ht]. unfold hasText in Ht.
    cbn [get lookup String.eqb Ascii.eqb Bool.eqb].
    destruct (get m "content") as [| | | |c| |]; try discriminate.
    reflexivity.
  - f_equal. induction (elements messages) as [|m ms IH]; cbn [flat_map filter map];
      [reflexivity|].
    rewrite turnOf_spec by discriminate.
    destruct (truthy m && _ && hasText m) eqn:E; cbn [app map]; [| exact IH].
    rewrite IH. f_equal.
    apply andb_prop in E. destruct E as [E Ht]. apply andb_prop in E.
    destruct E as [_ Er]. unfold hasText in Ht.
    cbn [get lookup String.eqb Ascii.eqb Bool.eqb].
    destruct (get m "content") as [| | | |c| |]; try discriminate.
    destruct (get m "role") as [| | | |r| |]; cbn [isStr orb] in Er; try discriminate.
    cbn [isStr]. destruct (r =? "assistant") eqn:Ea.
    + apply String.eqb_eq in Ea. now rewrite Ea.
    + rewrite orb_false_r in Er. apply String.eqb_eq in Er. now rewrite Er.
  - induction (elements messages) as [|m ms IH]; cbn [filter map]; [constructor|].
    destruct (truthy m && _ && hasText m) eqn:E; cbn [map]; [| exact IH].
    constructor; [| exact IH].
    apply andb_prop in E. destruct E as [E Ht]. apply andb_prop in E.
    destruct E as [_ Er]. unfold hasText in *.
    cbn [get lookup String.eqb Ascii.eqb Bool.eqb]. split; assumption.
Qed.

End PromptFacts.

(* ================================================================= *)
(** ** Newlines *)

Section LinesFacts.
Import Text Lines.

(** Rewriting CR LF to LF keeps every line feed. *)
Lemma countLF_replaceCrLf : forall n s,
  String.length s <= n -> countLF (replaceCrLf s) = countLF s.
Proof.
  induction n as [|n IH]; intros s Hlen.
  - destruct s; [reflexivity | cbn in Hlen; lia].
  - destruct s as [|c rest]; [reflexivity|].
    cbn [String.length] in Hlen. cbn [replaceCrLf].
    destruct rest as [|d rest']; [reflexivity|].
    destruct (Ascii.eqb c CR && Ascii.eqb d LF) eqn:E.
    + apply andb_prop in E. destruct E as [Ec Ed].
      apply Ascii.eqb_eq in Ec. apply Ascii.eqb_eq in Ed. subst.
      cbn [countLF]. rewrite IH by (cbn [String.length] in Hlen; lia).
      reflexivity.
    + cbn [countLF]. rewrite IH by lia. reflexivity.
Qed.

Lemma countLF_append : forall a b, countLF (a +++ b) = countLF a + countLF b.
Proof.
  induction a as [|c a IH]; intros b; cbn [String.append countLF].
  - reflexivity.
  - rewrite IH. lia.
Qed.

Lemma countLF_lineFeeds : forall k, countLF (lineFeeds k) = k.
Proof.
  induction k as [|k IH]; cbn [lineFeeds countLF]; [reflexivity|].
  rewrite IH. reflexivity.
Qed.

(** What is stripped is a run of line feeds, and what is left does not
    end with one. *)
Lemma stripTrailingLF_spec : forall t,
  (exists k, t = stripTrailingLF t +++ lineFeeds k)
  /\ (forall u, stripTrailingLF t <> u +++ String LF EmptyString).
Proof.
  induction t as [|c t [[k Hk] Hend]]; cbn [stripTrailingLF].
  - split; [exists 0; reflexivity|]. intros [|d u]; discriminate.
  - destruct (stripTrailingLF t) as [|d r] eqn:E.
    + destruct (Ascii.eqb_spec c LF) as [-> | Hne].
      * split; [exists (S k); cbn [String.append lineFeeds]; now rewrite Hk|].
        intros [|d u]; discriminate.
      * split; [exists k; cbn [String.append]; now rewrite Hk|].
        intros [|d [|e u]]; cbn [String.append]; try discriminate.
        intros Heq. inversion Heq. congruence.
    + split; [exists k; cbn [String.append] in *; now rewrite Hk|].
      intros [|e u]; cbn [String.append]; [discriminate|].
      intros Heq. inversion Heq; subst. apply (Hend u). assumption.
Qed.

(** Rewriting CR LF to LF never changes the number of line feeds of a
    text, and trimming removes exactly a run of [k] trailing line feeds:
    the normalised text is the trimmed one followed by [k] line feeds,
    the trimmed text has [k] line feeds fewer, and it does not end with
    a line feed. *)
Theorem trailing_newlines_accounted :
  forall (s : string),
    countNewlines (JStr (normalizeNewlines (JStr s))) = countNewlines (JStr s)
    /\ (exists k,
          normalizeNewlines (JStr s) = trimTrailingNewlines (JStr s) +++ lineFeeds k
          /\ countNewlines (JStr (trimTrailingNewlines (JStr s))) + k
             = countNewlines (JStr s))
    /\ forall u, trimTrailingNewlines (JStr s) <> u +++ String LF EmptyString.
Proof.
  intros s. unfold countNewlines, normalizeNewlines, trimTrailingNewlines.
  assert (Hc : countLF (replaceCrLf s) = countLF s)
    by (apply (countLF_replaceCrLf (String.length s)); lia).
  destruct (stripTrailingLF_spec (replaceCrLf s)) as [[k Hk] Hend].
  refine (conj Hc (conj _ Hend)).
  exists k. split; [exact Hk|].
  rewrite <- Hc.
  transitivity (countLF (stripTrailingLF (replaceCrLf s) +++ lineFeeds k)).
  - now rewrite countLF_append, countLF_lineFeeds.
  - now rewrite <- Hk.
Qed.

End LinesFacts.

(* ================================================================= *)
(** ** Lists of ids *)

Section SourcesFacts.
Context `{Host}.
Import Sources.

(** The invariant of the loop of [normalizeStringList]: the list built
    so far holds distinct non-empty strings and is shorter than the
    limit. *)
Lemma stringListLoop_spec : forall lim items out,
  NoDup out -> ~ In "" out -> (Z.of_nat (length out) < lim)%Z ->
  NoDup (stringListLoop lim items out out)
  /\ ~ In "" (stringListLoop lim items out out)
  /\ (Z.of_nat (length (stringListLoop lim items out out)) <= lim)%Z
  /\ (forall s, In s (stringListLoop lim items out out) ->
        In s out
        \/ In s (map (fun v => normalizeString (JStr (toString (orElse v (JStr "")))))
                     items)).
Proof.
  intros lim. induction items as [|v rest IH]; intros out Hnd Hne Hlen;
    cbn [stringListLoop].
  - repeat split; try assumption; try lia. intros s Hs. now left.
  - set (s0 := normalizeString (JStr (toString (orElse v (JStr ""))))).
    destruct (truthy (JStr s0)) eqn:Ts; cbn [negb orb].
    + destruct (mem s0 out) eqn:Em.
      * destruct (IH out Hnd Hne Hlen) as (A & B & C & D).
        repeat split; try assumption.
        intros s Hs. destruct (D s Hs); [now left | right; now right].
      * apply mem_false_iff in Em. apply truthy_str in Ts.
        assert (Hnd' : NoDup (out ++ [s0])).
        { apply NoDup_app; try assumption.
          - repeat constructor. intros [].
          - intros a Ha [<- | []]. contradiction. }
        assert (Hne' : ~ In "" (out ++ [s0])).
        { rewrite in_app_iff. cbn [In]. intros [Hin | [Heq | []]];
            [contradiction | congruence]. }
        destruct (lim <=? Z.of_nat (length (out ++ [s0])))%Z eqn:El.
        -- repeat split; try assumption.
           ++ rewrite length_app in *. cbn [length] in *. lia.
           ++ intros s Hs. apply in_app_or in Hs. destruct Hs as [Hs | [<- | []]];
                [now left | right; now left].
        -- apply Z.leb_gt in El.
           destruct (IH (out ++ [s0]) Hnd' Hne' El) as (A & B & C & D).
           repeat split; try assumption.
           intros s Hs. destruct (D s Hs) as [Hs' | Hs'].
           ++ apply in_app_or in Hs'. destruct Hs' as [Hs' | [<- | []]];
                [now left | right; now left].
           ++ right. now right.
    + destruct (IH out Hnd Hne Hlen) as (A & B & C & D).
      repeat split; try assumption.
      intros s Hs. destruct (D s Hs); [now left | right; now right].
Qed.

Lemma listLimit_positive : forall maxItems, (0 < listLimit maxItems)%Z.
Proof.
  intros maxItems. unfold listLimit. destruct (toNumber maxItems) as [n|]; [|lia].
  destruct (0 <? n)%Z eqn:E; [now apply Z.ltb_lt in E | lia].
Qed.

(** [normalizeStringList] gives distinct non-empty strings, at most
    [maxItems] of them (100 when [maxItems] is no positive number), each
    the normalised text of an item of the list. *)
Theorem normalizeStringList_bounded_distinct :
  forall (raw maxItems : value),
    NoDup (normalizeStringList raw maxItems)
    /\ ~ In "" (normalizeStringList raw maxItems)
    /\ (Z.of_nat (length (normalizeStringList raw maxItems)) <= listLimit maxItems)%Z
    /\ forall s, In s (normalizeStringList raw maxItems) ->
         exists v, In v (elements raw)
                   /\ s = normalizeString (JStr (toString (orElse v (JStr "")))).
Proof.
  intros raw maxItems. unfold normalizeStringList.
  destruct (stringListLoop_spec (listLimit maxItems) (elements raw) []
              (NoDup_nil _) (fun F => F) (listLimit_positive maxItems))
    as (A & B & C & D).
  repeat split; try assumption.
  intros s Hs. destruct (D s Hs) as [[] | Hin].
  apply in_map_iff in Hin. destruct Hin as [v [Hv Hin]]. exists v. now split.
Qed.

(** Whatever the shape of the upstream answer, the implicit external
    source ids are at most 200 distinct non-empty strings. *)
Theorem implicit_source_ids_bounded :
  forall (raw : value),
    NoDup (normalizeExternalSourceIdsFromImplicitResult raw)
    /\ ~ In "" (normalizeExternalSourceIdsFromImplicitResult raw)
    /\ length (normalizeExternalSourceIdsFromImplicitResult raw) <= 200.
Proof.
  intros raw. unfold normalizeExternalSourceIdsFromImplicitResult, normalizeStringList.
  match goal with
  | |- context [stringListLoop ?lim ?items [] []] =>
      destruct (stringListLoop_spec lim items [] (NoDup_nil _) (fun F => F)
                  (listLimit_positive (JNum 200))) as (A & B & C & _)
  end.
  change (listLimit (JNum 200)) with 200%Z in *.
  repeat split; try assumption. lia.
Qed.

End SourcesFacts.

(* ================================================================= *)
(** ** The cache of context canvases *)

Section MapFacts.
Import SelfTest.
Context {A : Type}.

Lemma mapGet_mapSet_same : forall k (a : A) m, mapGet k (mapSet k a m) = Some a.
Proof.
  intros k a. induction m as [|[k' a'] rest IH]; cbn [mapSet mapGet].
  - now rewrite String.eqb_refl.
  - destruct (String.eqb_spec k' k) as [-> | Hne]; cbn [mapGet].
    + now rewrite String.eqb_refl.
    + apply String.eqb_neq in Hne. now rewrite Hne.
Qed.

Lemma mapGet_mapSet_other : forall k k' (a : A) m,
  k <> k' -> mapGet k' (mapSet k a m) = mapGet k' m.
Proof.
  intros k k' a m Hne. induction m as [|[k0 a0] rest IH]; cbn [mapSet mapGet].
  - apply String.eqb_neq in Hne. now rewrite Hne.
  - destruct (String.eqb_spec k0 k) as [-> | Hne0]; cbn [mapGet].
    + apply String.eqb_neq in Hne. now rewrite Hne.
    + now rewrite IH.
Qed.

Lemma mapGet_mapDelete_same : forall k (m : list (string * A)),
  mapGet k (CanvasCache.mapDelete k m) = None.
Proof.
  intros k. unfold CanvasCache.mapDelete.
  induction m as [|[k' a'] rest IH]; cbn [filter mapGet fst].
  - reflexivity.
  - destruct (k' =? k) eqn:E; cbn [negb mapGet]; [assumption|]. now rewrite E.
Qed.

End MapFacts.

Section CanvasFacts.
Context `{Host}.
Import SelfTest CanvasCache.

Lemma upsertAll_app : forall xs ys ids,
  upsertAll (xs ++ ys) ids = upsertAll ys (upsertAll xs ids).
Proof. intros. unfold upsertAll. apply fold_left_app. Qed.

(** Canvases with other ids leave the binding of [id] alone. *)
Lemma upsertAll_other : forall post ids id,
  (forall d, In d post -> isObjectLike d = true -> normalizeString (get d "id") <> id) ->
  mapGet id (upsertAll post ids) = mapGet id ids.
Proof.
  induction post as [|d post IH]; intros ids id Hother; [reflexivity|].
  change (upsertAll (d :: post) ids) with (upsertAll ([d] ++ post) ids).
  rewrite upsertAll_app, IH by (intros; apply Hother; [now right | assumption]).
  unfold upsertAll. cbn [fold_left].
  destruct (isObjectLike d) eqn:Ed; cbn [negb]; [|reflexivity].
  destruct (truthy (JStr (normalizeString (get d "id")))); cbn [negb]; [|reflexivity].
  apply mapGet_mapSet_other. apply Hother; [now left | assumption].
Qed.

Lemma cacheKey_eq : forall url,
  normalizeString url <> "" -> cacheKeyForCanvas url = normalizeString url.
Proof.
  intros url Hkey. unfold cacheKeyForCanvas. apply truthy_str in Hkey.
  now rewrite Hkey.
Qed.

(** After an upsert the entry of the URL is stored under its key and
    lives for the whole time to live from the last reading of the
    clock. *)
Lemma upsert_stores : forall now1 now2 now3 url canvases cache,
  normalizeString url <> "" ->
  normalizeString (JStr (normalizeString url)) = normalizeString url ->
  exists ids0,
    mapGet (normalizeString url) (upsertCanvasCache now1 now2 now3 url canvases cache)
    = Some {| expiresAtMs := (now3 + CONTEXT_CANVAS_CACHE_TTL_MS)%Z;
              byId := upsertAll (elements canvases) ids0 |}.
Proof.
  intros now1 now2 now3 url canvases cache Hkey Hidem.
  pose proof Hkey as Tk. apply truthy_str in Tk.
  unfold upsertCanvasCache, ensureCanvasCacheEntry, getCanvasCacheEntry,
    cacheKeyForCanvas.
  rewrite Tk. cbn [negb]. rewrite Hidem. rewrite !Tk. cbn [negb].
  destruct (mapGet (normalizeString url) cache) as [e|].
  - destruct (expiresAtMs e <=? now1)%Z; cbv beta iota.
    + exists []. now rewrite mapGet_mapSet_same.
    + exists (byId e). now rewrite mapGet_mapSet_same.
  - cbv beta iota. exists []. now rewrite mapGet_mapSet_same.
Qed.

(** A canvas put into the cache is read back under its id until the
    entry expires; among canvases of one id the last one wins. *)
Theorem canvas_cache_round_trip :
  forall (cache : Cache) (url canvasId : value) (pre post : list value) (c : value)
         (id : string) (now1 now2 now3 now : Z),
    normalizeString url <> "" ->
    normalizeString (JStr (normalizeString url)) = normalizeString url ->
    isObjectLike c = true ->
    normalizeString (get c "id") = id ->
    id <> "" ->
    (forall d, In d post -> isObjectLike d = true -> normalizeString (get d "id") <> id) ->
    normalizeString canvasId = id ->
    (now < now3 + CONTEXT_CANVAS_CACHE_TTL_MS)%Z ->
    fst (getCanvasFromCache now url canvasId
           (upsertCanvasCache now1 now2 now3 url (JArr (pre ++ c :: post)) cache))
    = c.
Proof.
  intros cache url canvasId pre post c id now1 now2 now3 now
    Hkey Hidem Hc Hid Hne Hpost Hask Hlive.
  destruct (upsert_stores now1 now2 now3 url (JArr (pre ++ c :: post)) cache Hkey Hidem)
    as [ids0 Hstored].
  pose proof Hkey as Tk. apply truthy_str in Tk.
  pose proof Hne as Ti. apply truthy_str in Ti.
  unfold getCanvasFromCache, getCanvasCacheEntry.
  rewrite cacheKey_eq by assumption.
  rewrite Tk. cbn [negb]. rewrite Hstored. cbn [expiresAtMs byId].
  apply Z.leb_gt in Hlive. rewrite Hlive. cbv beta iota.
  rewrite Hask, Ti. cbn [negb elements byId].
  rewrite upsertAll_app.
  change (c :: post) with ([c] ++ post). rewrite upsertAll_app.
  rewrite upsertAll_other by assumption.
  unfold upsertAll at 1. cbn [fold_left]. rewrite Hc, Hid, Ti. cbn [negb].
  rewrite mapGet_mapSet_same. cbn [fst]. unfold orVal.
  unfold isObjectLike in Hc. apply andb_prop in Hc. destruct Hc as [Hc _].
  now rewrite Hc.
Qed.

(** Once the time to live has passed, a read finds nothing and drops
    the entry of the URL from the cache. *)
Theorem canvas_cache_expires :
  forall (cache : Cache) (url canvases canvasId : value) (now1 now2 now3 now : Z),
    normalizeString url <> "" ->
    normalizeString (JStr (normalizeString url)) = normalizeString url ->
    (now3 + CONTEXT_CANVAS_CACHE_TTL_MS <= now)%Z ->
    fst (getCanvasFromCache now url canvasId
           (upsertCanvasCache now1 now2 now3 url canvases cache)) = JNull
    /\ mapGet (normalizeString url)
         (snd (getCanvasFromCache now url canvasId
                 (upsertCanvasCache now1 now2 now3 url canvases cache))) = None.
Proof.
  intros cache url canvases canvasId now1 now2 now3 now Hkey Hidem Hdead.
  destruct (upsert_stores now1 now2 now3 url canvases cache Hkey Hidem)
    as [ids0 Hstored].
  pose proof Hkey as Tk. apply truthy_str in Tk.
  unfold getCanvasFromCache, getCanvasCacheEntry.
  rewrite cacheKey_eq by assumption.
  rewrite Tk. cbn [negb]. rewrite Hstored. cbn [expiresAtMs].
  apply Z.leb_le in Hdead. rewrite Hdead. cbn [fst snd].
  split; [reflexivity | apply mapGet_mapDelete_same].
Qed.

End CanvasFacts.

Lemma canvas_cache_round_trip_witness :
  fst (@CanvasCache.getCanvasFromCache asciiHost 1299999 (JStr "https://t.example/ ")
         (JStr " c1")
         (@CanvasCache.upsertCanvasCache asciiHost 1000000 1000000 1000000
            (JStr " https://t.example/")
            (JArr ([JObj [("id", JStr "c1"); ("name", JStr "old")]]
                   ++ JObj [("id", JStr "c1 "); ("name", JStr "new")]
                   :: [JObj [("id", JStr "c2"); ("name", JStr "other")]]))
            []))
  = JObj [("id", JStr "c1 "); ("name", JStr "new")].
Proof.
  refine (@canvas_cache_round_trip asciiHost [] (JStr " https://t.example/") (JStr " c1")
            [JObj [("id", JStr "c1"); ("name", JStr "old")]]
            [JObj [("id", JStr "c2"); ("name", JStr "other")]]
            (JObj [("id", JStr "c1 "); ("name", JStr "new")])
            "c1" 1000000 1000000 1000000 1299999 _ _ _ _ _ _ _ _).
  - vm_compute. discriminate.
  - reflexivity.
  - reflexivity.
  - reflexivity.
  - discriminate.
  - intros d [<- | []] _. vm_compute. discriminate.
  - reflexivity.
  - vm_compute. reflexivity.
Defined.

Lemma canvas_cache_expires_witness :
  fst (@CanvasCache.getCanvasFromCache asciiHost 1300000 (JStr "https://t.example/")
         (JStr "c1")
         (@CanvasCache.upsertCanvasCache asciiHost 1000000 1000000 1000000
            (JStr "https://t.example/")
            (JArr [JObj [("id", JStr "c1")]]) [])) = JNull.
Proof.
  refine (proj1 (@canvas_cache_expires asciiHost [] (JStr "https://t.example/")
                   (JArr [JObj [("id", JStr "c1")]]) (JStr "c1")
                   1000000 1000000 1000000 1300000 _ _ _)).
  - vm_compute. discriminate.
  - reflexivity.
  - vm_compute. discriminate.
Defined.

(* ================================================================= *)
(** ** Model ids and the discovery loop *)

Section DiscoveryFacts.
Context `{Host}.
Import Models.

(** The invariant of the loop of [uniqKeepOrder]: [seen] and [out] hold
    the same strings, distinct and non-empty. *)
Lemma uniqLoop_spec : forall xs out,
  NoDup out -> ~ In "" out ->
  NoDup (uniqLoop xs out out)
  /\ ~ In "" (uniqLoop xs out out)
  /\ forall s, In s (uniqLoop xs out out)
               <-> In s out \/ (s <> "" /\ In s (map normalizeString xs)).
Proof.
  induction xs as [|x xs IH]; intros out Hnd Hne; cbn [uniqLoop map].
  - repeat split; try assumption; cbn [In]; tauto.
  - destruct (truthy (JStr (normalizeString x))) eqn:Ts; cbn [negb orb].
    + apply truthy_str in Ts. destruct (mem (normalizeString x) out) eqn:Em.
      * apply mem_true_iff in Em. destruct (IH out Hnd Hne) as (A & B & C).
        repeat split; try assumption; rewrite C; cbn [In].
        -- tauto.
        -- intros [Hs | [Hs [<- | Hin]]]; tauto.
      * apply mem_false_iff in Em.
        assert (Hnd' : NoDup (out ++ [normalizeString x])).
        { apply NoDup_app; try assumption.
          - repeat constructor. intros [].
          - intros a Ha [<- | []]. contradiction. }
        assert (Hne' : ~ In "" (out ++ [normalizeString x])).
        { rewrite in_app_iff. cbn [In]. intros [Hin | [Heq | []]];
            [contradiction | congruence]. }
        destruct (IH _ Hnd' Hne') as (A & B & C).
        repeat split; try assumption; rewrite C, in_app_iff; cbn [In].
        -- intros [[Hs | [<- | []]] | [Hs Hin]]; tauto.
        -- intros [Hs | [Hs [<- | Hin]]]; tauto.
    + assert (E : normalizeString x = "").
      { destruct (String.eqb_spec (normalizeString x) "") as [E | E]; [assumption|].
        apply truthy_str in E. congruence. }
      destruct (IH out Hnd Hne) as (A & B & C).
      repeat split; try assumption; rewrite C; cbn [In].
      * tauto.
      * intros [Hs | [Hs [Heq | Hin]]]; [tauto | congruence | tauto].
Qed.

(** [uniqKeepOrder] gives each non-empty normalised entry once. *)
Theorem uniqKeepOrder_distinct_nonempty :
  forall (xs : value),
    NoDup (uniqKeepOrder xs)
    /\ forall s, In s (uniqKeepOrder xs)
                 <-> s <> "" /\ In s (map normalizeString (elements xs)).
Proof.
  intros xs. unfold uniqKeepOrder.
  destruct (uniqLoop_spec (elements xs) [] (NoDup_nil _) (fun F => F)) as (A & _ & C).
  split; [assumption|]. intros s. rewrite C. cbn [In]. tauto.
Qed.

(** Whatever the body of the answer, the model ids read from it are
    distinct and none is empty; a body that is not an object gives no
    id. *)
Theorem parseModelIds_distinct_nonempty :
  forall (j : value),
    NoDup (parseModelIds j)
    /\ ~ In "" (parseModelIds j)
    /\ (isObjectLike j = false -> parseModelIds j = []).
Proof.
  intros j.
  assert (U : forall xs, NoDup (uniqKeepOrder xs) /\ ~ In "" (uniqKeepOrder xs)).
  { intros xs. unfold uniqKeepOrder.
    destruct (uniqLoop_spec (elements xs) [] (NoDup_nil _) (fun F => F)) as (A & B & _).
    now split. }
  unfold parseModelIds, isObjectLike.
  destruct (truthy j); cbn [negb orb andb].
  - destruct (typeofObject j); cbn [negb].
    + repeat split; try discriminate;
        repeat match goal with
               | |- context [match ?v with JArr _ => _ | _ => _ end] => destruct v
               end;
        first [apply (proj1 (U _)) | apply (proj2 (U _)) | constructor | intros []].
    + repeat split; [constructor | intros []].
  - repeat split; [constructor | intros []].
Qed.

Variable fetchWithRetry : string -> Response + string.

(** How a run of the loop relates to the URLs it was given: what it
    tried is a prefix of them, every attempt before the last answered
    404, and each way of ending says what the last attempt met. *)
Lemma fallbackLoop_spec : forall label urls tried0,
  let r := fallbackLoop fetchWithRetry label urls tried0 in
  exists attempted rest,
    urls = attempted ++ rest
    /\ tried r = tried0 ++ attempted
    /\ (forall ms, result r = inl ms ->
          ms <> []
          /\ exists pre u resp,
               attempted = pre ++ [u]
               /\ Forall (fun v => exists a, fetchWithRetry v = inl a /\ status a = 404%Z) pre
               /\ fetchWithRetry u = inl resp /\ respOk resp = true
               /\ parseModelIds (json resp) = ms)
    /\ (forall l n, result r = inr (AllNotFound l n) ->
          rest = [] /\ n = length (tried r)
          /\ Forall (fun v => exists a, fetchWithRetry v = inl a /\ status a = 404%Z)
                    attempted)
    /\ (forall l st, result r = inr (UpstreamHttpError l st) ->
          st <> 404%Z
          /\ exists pre u resp,
               attempted = pre ++ [u]
               /\ Forall (fun v => exists a, fetchWithRetry v = inl a /\ status a = 404%Z) pre
               /\ fetchWithRetry u = inl resp /\ respOk resp = false
               /\ status resp = st).
Proof.
  intros label. induction urls as [|url urls IH]; intros tried0; cbn [fallbackLoop].
  - exists [], []. cbn [result tried].
    refine (conj eq_refl (conj _ (conj _ (conj _ _)))).
    + now rewrite app_nil_r.
    + intros ms E. discriminate E.
    + intros l n E. inversion E. repeat split. constructor.
    + intros l st E. discriminate E.
  - destruct (fetchWithRetry url) as [resp | message] eqn:F.
    + destruct (respOk resp) eqn:Ok; cbn [negb].
      * destruct (parseModelIds (json resp)) as [|m ms] eqn:P; cbn [result tried];
          exists [url], urls;
          (refine (conj eq_refl (conj eq_refl (conj _ (conj _ _)))));
          try (intros; discriminate).
        intros ms' E. inversion E; subst. split; [discriminate|].
        exists [], url, resp. repeat split; try assumption. constructor.
      * destruct (Z.eqb_spec (status resp) 404) as [S404 | Sne].
        -- destruct (IH (tried0 ++ [url]))
             as (attempted & rest & Hu & Ht & Hok & Hall & Herr).
           exists (url :: attempted), rest.
           assert (N : exists a, fetchWithRetry url = inl a /\ status a = 404%Z)
             by (exists resp; now split).
           refine (conj _ (conj _ (conj _ (conj _ _)))).
           ++ cbn [app]. now rewrite Hu.
           ++ rewrite Ht, <- app_assoc. reflexivity.
           ++ intros ms E. destruct (Hok ms E) as [A (pre & u & r' & B & C & D)].
              split; [assumption|].
              exists (url :: pre), u, r'. split; [cbn [app]; now rewrite B|].
              split; [now constructor | assumption].
           ++ intros l n E. destruct (Hall l n E) as (A & B & C).
              split; [assumption|]. split; [assumption | now constructor].
           ++ intros l st E. destruct (Herr l st E) as [A (pre & u & r' & B & C & D)].
              split; [assumption|].
              exists (url :: pre), u, r'. split; [cbn [app]; now rewrite B|].
              split; [now constructor | assumption].
        -- cbn [result tried]. exists [url], urls.
           refine (conj eq_refl (conj eq_refl (conj _ (conj _ _))));
             try (intros; discriminate).
           intros l st E. inversion E; subst. split; [assumption|].
           exists [], url, resp. repeat split; try assumption. constructor.
    + cbn [result tried]. exists [url], urls.
      refine (conj eq_refl (conj eq_refl (conj _ (conj _ _)))); intros; discriminate.
Qed.

(** Discovery asks the distinct URLs in order and goes on to the next
    one only after a 404: what it tried is a prefix of the distinct
    URLs; a success carries at least one model, read from the 2xx answer
    of the last URL tried; the all-404 failure means every URL was tried
    and answered 404; and an upstream HTTP error is the first answer
    that was neither 2xx nor 404. *)
Theorem discovery_moves_on_only_after_404 :
  forall (urls : list string) (label : string),
    let r := fetchModelsWithFallback fetchWithRetry urls label in
    exists rest,
      uniqKeepOrder (JArr (map JStr urls)) = tried r ++ rest
      /\ (forall ms, result r = inl ms ->
            ms <> []
            /\ exists pre u resp,
                 tried r = pre ++ [u]
                 /\ Forall (fun v => exists a, fetchWithRetry v = inl a
                                               /\ status a = 404%Z) pre
                 /\ fetchWithRetry u = inl resp /\ respOk resp = true
                 /\ parseModelIds (json resp) = ms)
      /\ (forall l n, result r = inr (AllNotFound l n) ->
            rest = [] /\ n = length (tried r)
            /\ Forall (fun v => exists a, fetchWithRetry v = inl a
                                          /\ status a = 404%Z) (tried r))
      /\ (forall l st, result r = inr (UpstreamHttpError l st) ->
            st <> 404%Z
            /\ exists pre u resp,
                 tried r = pre ++ [u]
                 /\ Forall (fun v => exists a, fetchWithRetry v = inl a
                                               /\ status a = 404%Z) pre
                 /\ fetchWithRetry u = inl resp /\ respOk resp = false
                 /\ status resp = st).
Proof.
  intros urls label r. subst r. unfold fetchModelsWithFallback.
  destruct (fallbackLoop_spec label (uniqKeepOrder (JArr (map JStr urls))) [])
    as (attempted & rest & Hu & Ht & Hok & Hall & Herr).
  cbn [app] in Ht. exists rest. rewrite Ht.
  refine (conj Hu (conj Hok (conj _ Herr))).
  intros l n E. destruct (Hall l n E) as (A & B & C).
  rewrite Ht in B. now repeat split.
Qed.

End DiscoveryFacts.

(* ================================================================= *)
(** ** The summary of a tool list *)

Section SummaryFacts.
Context `{Host}.
Import ToolDefs.

(** The loop of [summarizeToolDefs] walks the list as the loop of
    [dedupeToolDefsByName] does and stops at the limit. *)
Lemma summarizeLoop_kept : forall lim defs seen ns,
  (Z.of_nat (length ns) < lim)%Z ->
  summarizeLoop lim defs seen ns
  = ns ++ firstn (Z.to_nat lim - length ns) (map nameOf (kept defs seen)).
Proof.
  intros lim. induction defs as [|d rest IH]; intros seen ns Hlen;
    cbn [summarizeLoop kept].
  - cbn [map]. now rewrite firstn_nil, app_nil_r.
  - fold (nameOf d). destruct (isObjectLike d); cbn [negb andb orb]; [| now apply IH].
    destruct (truthy (JStr (nameOf d))); cbn [negb andb orb]; [| now apply IH].
    destruct (mem (nameOf d) seen); cbn [negb andb orb]; [now apply IH|].
    cbn [map]. rewrite length_app. cbn [length].
    destruct (lim <=? Z.of_nat (length ns + 1))%Z eqn:El.
    + apply Z.leb_le in El.
      replace (Z.to_nat lim - length ns) with 1 by lia.
      cbn [firstn]. reflexivity.
    + apply Z.leb_gt in El. rewrite IH by (rewrite length_app; cbn [length]; lia).
      rewrite length_app. cbn [length].
      replace (Z.to_nat lim - length ns) with (S (Z.to_nat lim - (length ns + 1))) by lia.
      cbn [firstn]. now rewrite <- app_assoc.
Qed.

Lemma nameLimit_positive : forall maxNames, (1 <= nameLimit maxNames)%Z.
Proof. intros maxNames. unfold nameLimit. lia. Qed.

(** The names of a summary are the names of the first definitions that
    de-duplication keeps, up to the limit (12 by default, at least 1):
    they are distinct, while [count] is the length of the list as given,
    duplicates included. *)
Theorem summary_names_are_the_first_kept :
  forall (toolDefs : value) (maxNames : Z),
    names (summarizeToolDefs toolDefs maxNames)
    = firstn (Z.to_nat (nameLimit maxNames))
             (map nameOf (dedupeToolDefsByName toolDefs))
    /\ NoDup (names (summarizeToolDefs toolDefs maxNames))
    /\ length (names (summarizeToolDefs toolDefs maxNames))
       <= Z.to_nat (nameLimit maxNames)
    /\ count (summarizeToolDefs toolDefs maxNames) = length (elements toolDefs).
Proof.
  intros toolDefs maxNames.
  pose proof (nameLimit_positive maxNames) as Hpos.
  assert (E : names (summarizeToolDefs toolDefs maxNames)
              = firstn (Z.to_nat (nameLimit maxNames))
                       (map nameOf (dedupeToolDefsByName toolDefs))).
  { unfold summarizeToolDefs. cbn [names].
    rewrite summarizeLoop_kept by (cbn [length]; lia).
    cbn [app length]. rewrite Nat.sub_0_r. now rewrite dedupe_kept. }
  refine (conj E (conj _ (conj _ eq_refl))).
  - rewrite E.
    pose proof (kept_nodup (elements toolDefs) []) as Hnd.
    rewrite <- dedupe_kept in Hnd.
    rewrite <- (firstn_skipn (Z.to_nat (nameLimit maxNames))) in Hnd.
    now apply NoDup_app_remove_r in Hnd.
  - rewrite E. apply firstn_le_length.
Qed.

End SummaryFacts.

(* ================================================================= *)
(** ** The keys of a sampled object *)

Section SampleKeysFacts.
Context `{Host}.
Import SchemaSample.

Lemma keys_set : forall k v fs k',
  In k' (keys (set k v fs)) <-> k' = k \/ In k' (keys fs).
Proof.
  intros k v. induction fs as [|[k0 v0] rest IH]; intros k'; cbn [set keys map fst In].
  - intuition congruence.
  - destruct (String.eqb_spec k0 k) as [-> | Hne]; cbn [keys map fst In].
    + intuition congruence.
    + unfold keys in IH. rewrite IH. tauto.
Qed.

Lemma keys_set_nodup : forall k v fs, NoDup (keys fs) -> NoDup (keys (set k v fs)).
Proof.
  intros k v. induction fs as [|[k0 v0] rest IH]; intros Hnd; cbn [set keys map fst].
  - repeat constructor. intros [].
  - cbn [keys map fst] in Hnd. inversion Hnd as [|? ? Hnotin Hnd']; subst.
    destruct (String.eqb_spec k0 k) as [-> | Hne]; cbn [keys map fst].
    + now constructor.
    + constructor; [| now apply IH].
      intros Hin. apply (keys_set k v rest k0) in Hin.
      destruct Hin as [Heq | Hin]; [congruence | now apply Hnotin].
Qed.

Lemma length_set : forall k v fs, length (set k v fs) <= S (length fs).
Proof.
  intros k v. induction fs as [|[k0 v0] rest IH]; cbn [set length]; [lia|].
  destruct (k0 =? k); cbn [length]; lia.
Qed.

Lemma keys_fold_set : forall (f : string -> value) ks acc,
  NoDup (keys acc) ->
  NoDup (keys (fold_left (fun out k => set k (f k) out) ks acc))
  /\ (forall k, In k (keys (fold_left (fun out k => set k (f k) out) ks acc))
                <-> In k (keys acc) \/ In k ks)
  /\ length (fold_left (fun out k => set k (f k) out) ks acc) <= length acc + length ks.
Proof.
  intros f. induction ks as [|k ks IH]; intros acc Hnd; cbn [fold_left].
  - repeat split; try assumption; cbn [In length]; try tauto; lia.
  - destruct (IH (set k (f k) acc) (keys_set_nodup k (f k) acc Hnd)) as (A & B & C).
    repeat split; try assumption.
    + intros Hin. apply B in Hin. rewrite keys_set in Hin. cbn [In].
      intuition congruence.
    + intros Hin. apply B. rewrite keys_set. cbn [In] in Hin.
      intuition congruence.
    + pose proof (length_set k (f k) acc). cbn [length]. lia.
Qed.

Lemma in_firstn : forall (A : Type) n (l : list A) x, In x (firstn n l) -> In x l.
Proof.
  intros A n l x Hin. rewrite <- (firstn_skipn n l). apply in_or_app. now left.
Qed.

(** For a schema that is an object with a [properties] object and
    without [const], non-empty [enum], [default] or union, the sample is
    an object whose keys are the first 60 chosen keys, each once: the
    required names that are declared properties or, when nothing is
    required, all declared properties.  So every key of the sample is a
    declared property.  No property is to be named [__proto__]: an
    assignment to that name sets the prototype of the sample and adds
    no key. *)
Theorem sample_object_keys_are_declared :
  forall (fields ps : list (string * value)) (depth : nat),
    depth <= 8 ->
    hasOwn (JObj fields) "const" = false ->
    match get (JObj fields) "enum" with JArr (_ :: _) => False | _ => True end ->
    hasOwn (JObj fields) "default" = false ->
    truthy (orVal (orVal (pickFirst (get (JObj fields) "oneOf"))
                         (pickFirst (get (JObj fields) "anyOf")))
                  (pickFirst (get (JObj fields) "allOf"))) = false ->
    get (JObj fields) "properties" = JObj ps ->
    ~ In "__proto__" (keys ps) ->
    exists out,
      sampleJsonFromSchema (JObj fields) depth = JObj out
      /\ NoDup (keys out)
      /\ (forall k, In k (keys out)
                    <-> In k (firstn 60 (SampleKeys.chosenKeys (JObj fields) ps)))
      /\ (forall k, In k (keys out) -> In k (keys ps))
      /\ length out <= 60.
Proof.
  intros fields ps depth Hd Hconst Henum Hdefault Hunion Hprops Hproto.
  assert (Hsub : forall k, In k (SampleKeys.chosenKeys (JObj fields) ps) -> In k (keys ps)).
  { intros k Hk. unfold SampleKeys.chosenKeys in Hk.
    destruct (SampleKeys.requiredOf (JObj fields)); [exact Hk|].
    apply filter_In in Hk. destruct Hk as [_ Hk].
    destruct (keys ps); [discriminate | now apply mem_true_iff in Hk]. }
  destruct (keys_fold_set
              (fun k => sampleFuel (8 - depth) (get (JObj ps) k))
              (firstn 60 (SampleKeys.chosenKeys (JObj fields) ps)) [] (NoDup_nil _))
    as (A & B & C).
  exists (fold_left
            (fun out k => set k (sampleFuel (8 - depth) (get (JObj ps) k)) out)
            (firstn 60 (SampleKeys.chosenKeys (JObj fields) ps)) []).
  refine (conj _ (conj A (conj _ (conj _ _)))).
  - unfold sampleJsonFromSchema.
    replace (9 - depth) with (S (8 - depth)) by lia.
    cbn [sampleFuel].
    replace (isPlainObject (JObj fields)) with true by reflexivity.
    rewrite Hconst.
    destruct (get (JObj fields) "enum") as [| | | | |[|e es]|] eqn:Eenum;
      try contradiction; rewrite Hdefault, Hunion, Hprops, orb_true_r;
      reflexivity.
  - intros k. rewrite B. cbn [keys map In]. tauto.
  - intros k Hk. apply B in Hk. destruct Hk as [[] | Hk].
    apply Hsub. eapply in_firstn. exact Hk.
  - pose proof (firstn_le_length 60 (SampleKeys.chosenKeys (JObj fields) ps)).
    cbn [length] in C. lia.
Qed.

End SampleKeysFacts.

Lemma sample_object_keys_are_declared_witness :
  exists out,
    @SchemaSample.sampleJsonFromSchema asciiHost
      (JObj [("type", JStr "object");
             ("required", JArr [JStr "a"; JStr "zz"]);
             ("properties", JObj [("a", JObj [("type", JStr "string")]);
                                  ("b", JObj [("type", JStr "integer")])])]) 0
    = JObj out
    /\ NoDup (keys out)
    /\ (forall k, In k (keys out)
          <-> In k (firstn 60
                      (@SampleKeys.chosenKeys asciiHost
                         (JObj [("type", JStr "object");
                                ("required", JArr [JStr "a"; JStr "zz"]);
                                ("properties",
                                 JObj [("a", JObj [("type", JStr "string")]);
                                       ("b", JObj [("type", JStr "integer")])])])
                         [("a", JObj [("type", JStr "string")]);
                          ("b", JObj [("type", JStr "integer")])])))
    /\ (forall k, In k (keys out)
          -> In k (keys [("a", JObj [("type", JStr "string")]);
                         ("b", JObj [("type", JStr "integer")])]))
    /\ length out <= 60.
Proof.
  refine (@sample_object_keys_are_declared asciiHost _ _ 0 _ _ _ _ _ _ _).
  - lia.
  - reflexivity.
  - exact I.
  - reflexivity.
  - reflexivity.
  - reflexivity.
  - simpl. intros [E | [E | []]]; discriminate E.
Defined.

(* ================================================================= *)
(** ** What the strict-schema validator accepts *)

Section ValidatorFacts.
Context `{Host}.
Import StrictSchema.

Lemma fold_cond_append : forall (c : string -> bool) (m : string -> string) ks acc,
  fold_left (fun acc k => if c k then acc ++ [m k] else acc) ks acc
  = acc ++ flat_map (fun k => if c k then [m k] else []) ks.
Proof.
  intros c m. induction ks as [|k ks IH]; intros acc; cbn [fold_left flat_map].
  - now rewrite app_nil_r.
  - rewrite IH. destruct (c k); [now rewrite <- app_assoc | reflexivity].
Qed.

(** The checks at a node only append. *)
Lemma nodeIssues_appends : forall schema issues path,
  nodeIssues schema issues path = issues ++ nodeIssues schema [] path.
Proof.
  intros schema issues path. unfold nodeIssues.
  destruct (hasObjectType schema || isSome (propsOf schema)); [| now rewrite app_nil_r].
  destruct (negb (isFalse (get schema "additionalProperties")));
    destruct (get schema "required"); destruct (propsOf schema);
    rewrite ?fold_cond_append; cbn [app]; rewrite <- ?app_assoc; cbn [app];
    rewrite ?app_nil_r; reflexivity.
Qed.

Section Walk.
Variable rec : value -> list string -> string -> list string.
Hypothesis rec_appends : forall s acc p, rec s acc p = acc ++ rec s [] p.

Lemma walkArray_appends : forall xs issues path,
  walkArray rec xs issues path = issues ++ walkArray rec xs [] path.
Proof.
  intros xs issues path. unfold walkArray. generalize 0%nat as i. revert issues.
  induction xs as [|x xs IH]; intros issues i; cbn [fold_left fst snd].
  - now rewrite app_nil_r.
  - rewrite IH. rewrite (IH (rec x [] _)). rewrite rec_appends.
    now rewrite <- app_assoc.
Qed.

Lemma ifPresent_appends : forall schema path k acc,
  ifPresent rec schema path k acc = acc ++ ifPresent rec schema path k [].
Proof.
  intros. unfold ifPresent. destruct (notNullish _); [apply rec_appends|].
  now rewrite app_nil_r.
Qed.

Lemma ifArray_appends : forall schema path k acc,
  ifArray rec schema path k acc = acc ++ ifArray rec schema path k [].
Proof.
  intros. unfold ifArray. destruct (isArray _); [apply rec_appends|].
  now rewrite app_nil_r.
Qed.

Lemma fold_rec_appends : forall (A : Type) (g : A -> value) (q : A -> string) ks acc,
  fold_left (fun acc' k' => rec (g k') acc' (q k')) ks acc
  = acc ++ fold_left (fun acc' k' => rec (g k') acc' (q k')) ks [].
Proof.
  intros A g q. induction ks as [|k ks IH]; intros acc; cbn [fold_left].
  - now rewrite app_nil_r.
  - rewrite IH. rewrite (IH (rec _ [] _)). rewrite rec_appends.
    now rewrite <- app_assoc.
Qed.

Lemma eachOf_appends : forall schema path k acc,
  eachOf rec schema path k acc = acc ++ eachOf rec schema path k [].
Proof.
  intros. unfold eachOf. destruct (get schema k); try (now rewrite app_nil_r).
  apply (fold_rec_appends string (fun k' => get (JObj fields) k')
           (fun k' => under path (k +++ "." +++ k'))).
Qed.

(** The issues of an object are the issues of its node followed by
    those of its parts, in the order of the walk. *)
Lemma walkObject_pieces : forall schema issues path,
  walkObject rec schema issues path
  = issues
    ++ nodeIssues schema [] path
    ++ eachOf rec schema path "properties" []
    ++ ifPresent rec schema path "items" []
    ++ ifPresent rec schema path "prefixItems" []
    ++ ifPresent rec schema path "not" []
    ++ ifPresent rec schema path "if" []
    ++ ifPresent rec schema path "then" []
    ++ ifPresent rec schema path "else" []
    ++ ifArray rec schema path "anyOf" []
    ++ ifArray rec schema path "oneOf" []
    ++ ifArray rec schema path "allOf" []
    ++ eachOf rec schema path "$defs" []
    ++ eachOf rec schema path "definitions" [].
Proof.
  intros schema issues path. unfold walkObject. cbv zeta.
  rewrite (eachOf_appends schema path "definitions").
  rewrite (eachOf_appends schema path "$defs").
  rewrite (ifArray_appends schema path "allOf").
  rewrite (ifArray_appends schema path "oneOf").
  rewrite (ifArray_appends schema path "anyOf").
  rewrite (ifPresent_appends schema path "else").
  rewrite (ifPresent_appends schema path "then").
  rewrite (ifPresent_appends schema path "if").
  rewrite (ifPresent_appends schema path "not").
  rewrite (ifPresent_appends schema path "prefixItems").
  rewrite (ifPresent_appends schema path "items").
  rewrite (eachOf_appends schema path "properties").
  rewrite (nodeIssues_appends schema issues).
  rewrite <- !app_assoc. reflexivity.
Qed.

End Walk.

Lemma validateFuel_appends : forall fuel schema issues path,
  validateFuel fuel schema issues path = issues ++ validateFuel fuel schema [] path.
Proof.
  induction fuel as [|fuel IH]; intros schema issues path; cbn [validateFuel].
  - now rewrite app_nil_r.
  - destruct (negb (truthy schema)); [now rewrite app_nil_r|].
    destruct schema; try (now rewrite app_nil_r).
    + apply walkArray_appends. exact IH.
    + rewrite (walkObject_pieces _ IH _ issues), (walkObject_pieces _ IH _ []).
      reflexivity.
Qed.

(** The validator only adds to the list it is given: the issues found
    before stay, in order, and the issues it adds do not depend on
    them. *)
Theorem validator_only_appends :
  forall (schema : value) (found : list string) (path : string) (depth : nat),
    validateOpenAiStrictJsonSchema schema found path depth
    = found ++ validateOpenAiStrictJsonSchema schema [] path depth.
Proof.
  intros. unfold validateOpenAiStrictJsonSchema. apply validateFuel_appends.
Qed.

Lemma fold_rec_nil : forall (rec : value -> list string -> string -> list string)
    (g : string -> value) (q : string -> string) ks,
  (forall s acc p, rec s acc p = acc ++ rec s [] p) ->
  fold_left (fun acc' k' => rec (g k') acc' (q k')) ks [] = [] ->
  forall k, In k ks -> rec (g k) [] (q k) = [].
Proof.
  intros rec g q ks Happ. induction ks as [|k0 ks IH]; intros Hnil k Hin;
    [contradiction|].
  cbn [fold_left] in Hnil.
  rewrite (fold_rec_appends rec Happ string g q) in Hnil.
  apply app_eq_nil in Hnil. destruct Hnil as [H0 Hrest].
  destruct Hin as [<- | Hin]; [assumption | now apply IH].
Qed.

(** With any depth budget left: an object-typed or has-properties
    schema on which the validator finds nothing is strict at its root
    and the validator finds nothing on its declared properties. *)
Lemma strict_root_fuel : forall fuel fields path,
  (hasObjectType (JObj fields) || isSome (propsOf (JObj fields))) = true ->
  validateFuel (S fuel) (JObj fields) [] path = [] ->
  get (JObj fields) "additionalProperties" = JBool false
  /\ exists req,
       get (JObj fields) "required" = JArr req
       /\ forall ps, propsOf (JObj fields) = Some ps ->
            forall k, In k (keys ps) ->
              includesStr req k = true
              /\ validateFuel fuel (get (JObj ps) k) [] (under path ("properties." +++ k))
                 = [].
Proof.
  intros fuel fields path Hcond Hnil.
  cbn [validateFuel] in Hnil.
  replace (truthy (JObj fields)) with true in Hnil by reflexivity.
  cbn [negb] in Hnil.
  rewrite (walkObject_pieces _ (validateFuel_appends fuel)) in Hnil.
  cbn [app] in Hnil.
  apply app_eq_nil in Hnil. destruct Hnil as [Hnode Hrest].
  apply app_eq_nil in Hrest. destruct Hrest as [Hprops _].
  unfold nodeIssues in Hnode. rewrite Hcond in Hnode.
  assert (Hap : isFalse (get (JObj fields) "additionalProperties") = true).
  { destruct (isFalse (get (JObj fields) "additionalProperties")); [reflexivity|].
    cbn [negb app] in Hnode.
    destruct (get (JObj fields) "required"); destruct (propsOf (JObj fields));
      rewrite ?fold_cond_append in Hnode; discriminate. }
  rewrite Hap in Hnode. cbn [negb] in Hnode.
  split.
  { destruct (get (JObj fields) "additionalProperties") as [| |[|]| | | |];
      try discriminate. reflexivity. }
  destruct (get (JObj fields) "required") as [| | | | |req|]; try discriminate.
  exists req. split; [reflexivity|].
  intros ps Hps k Hk. rewrite Hps in Hnode. rewrite fold_cond_append in Hnode.
  cbn [app] in Hnode. split.
  - destruct (includesStr req k) eqn:E; [reflexivity|]. exfalso.
    assert (Hin : In (here path +++ ": required missing '" +++ k +++ "'")
                     (flat_map (fun k0 =>
                                  if negb (includesStr req k0)
                                  then [here path +++ ": required missing '" +++ k0 +++ "'"]
                                  else []) (keys ps))).
    { apply in_flat_map. exists k. split; [assumption|]. rewrite E. now left. }
    rewrite Hnode in Hin. contradiction.
  - unfold eachOf in Hprops. unfold propsOf in Hps.
    destruct (get (JObj fields) "properties") as [| | | | | |ds]; try discriminate.
    inversion Hps; subst ds.
    apply (fold_rec_nil (validateFuel fuel) (fun k' => get (JObj ps) k')
             (fun k' => under path ("properties" +++ "." +++ k')) (keys ps)
             (validateFuel_appends fuel) Hprops k Hk).
Qed.

(** A schema the validator accepts is strict at its root: when an
    object-typed or has-properties schema, met at a depth of at most
    50, yields no issue, its [additionalProperties] is [false], its
    [required] is an array that holds every declared property key, and
    every declared property yields no issue either, one level down. *)
Theorem accepted_schema_is_strict_at_root :
  forall (fields : list (string * value)) (path : string) (depth : nat),
    depth <= 50 ->
    (hasObjectType (JObj fields) || isSome (propsOf (JObj fields))) = true ->
    validateOpenAiStrictJsonSchema (JObj fields) [] path depth = [] ->
    get (JObj fields) "additionalProperties" = JBool false
    /\ exists req,
         get (JObj fields) "required" = JArr req
         /\ forall ps, propsOf (JObj fields) = Some ps ->
              forall k, In k (keys ps) ->
                includesStr req k = true
                /\ validateOpenAiStrictJsonSchema (get (JObj ps) k) []
                     (under path ("properties." +++ k)) (depth + 1) = [].
Proof.
  intros fields path depth Hd Hcond Hnil.
  unfold validateOpenAiStrictJsonSchema in *.
  replace (51 - depth) with (S (51 - (depth + 1))) in Hnil by lia.
  exact (strict_root_fuel _ fields path Hcond Hnil).
Qed.

(** The loop over the converted tools ends with no issue exactly when
    it started with none and every tool is accepted. *)
Lemma validateToolsLoop_nil : forall tools found,
  validateToolsLoop tools found = []
  <-> found = []
      /\ Forall (fun tool =>
                   validateOpenAiStrictJsonSchema
                     (orElse (get tool "parameters")
                             (get (get tool "function") "parameters")) [] "" 0 = [])
                tools.
Proof.
  induction tools as [|tool rest IH]; intros found; cbn [validateToolsLoop].
  - split; [intros ->; split; [reflexivity | constructor] | tauto].
  - destruct (validateOpenAiStrictJsonSchema
                (orElse (get tool "parameters") (get (get tool "function") "parameters"))
                [] "" 0) as [|first more] eqn:E.
    + destruct (30 <=? length found)%nat eqn:L.
      * apply Nat.leb_le in L. split.
        -- intros ->. cbn [length] in L. lia.
        -- intros [-> _]. cbn [length] in L. lia.
      * rewrite IH. split.
        -- intros [A B]. split; [assumption | now constructor].
        -- intros [A B]. inversion B; subst. now split.
    + split.
      * intros Hnil. exfalso.
        destruct (30 <=? length (found ++ [_]))%nat in Hnil.
        -- destruct found; discriminate.
        -- apply IH in Hnil. destruct Hnil as [Hnil _]. destruct found; discriminate.
      * intros [_ B]. inversion B; subst. congruence.
Qed.

Lemma validateToolsLoop_bound : forall tools found,
  length found < 30 ->
  length (validateToolsLoop tools found) <= 30
  /\ length (validateToolsLoop tools found) <= length found + length tools.
Proof.
  induction tools as [|tool rest IH]; intros found Hlen; cbn [validateToolsLoop].
  - cbn [length]. lia.
  - match goal with
    | |- context [if (30 <=? length ?i)%nat then _ else _] =>
        assert (Hi : length i <= S (length found));
        [ destruct (validateOpenAiStrictJsonSchema _ _ _ _);
          [lia | rewrite length_app; cbn [length]; lia]
        | destruct (30 <=? length i)%nat eqn:L ]
    end.
    + cbn [length]. lia.
    + apply Nat.leb_gt in L. destruct (IH _ L) as [A B]. cbn [length]. lia.
Qed.

(** For the OpenAI-responses family the check of a converted tool list
    answers ok exactly when the validator accepts the parameters of
    every tool; it reports at most one issue per tool and at most 30
    issues. *)
Theorem tools_ok_iff_every_tool_accepted :
  forall (providerType convertedTools : value),
    normalizeString providerType = "openai_responses" ->
    (ok (validateConvertedToolsForProvider providerType convertedTools) = true
     <-> Forall (fun tool =>
                   validateOpenAiStrictJsonSchema
                     (orElse (get tool "parameters")
                             (get (get tool "function") "parameters")) [] "" 0 = [])
                (elements convertedTools))
    /\ length (issues (validateConvertedToolsForProvider providerType convertedTools))
       <= 30
    /\ length (issues (validateConvertedToolsForProvider providerType convertedTools))
       <= length (elements convertedTools).
Proof.
  intros providerType convertedTools Ht. unfold validateConvertedToolsForProvider.
  rewrite Ht. cbn [String.eqb Ascii.eqb Bool.eqb andb negb ok issues].
  destruct (validateToolsLoop_bound (elements convertedTools) [])
    as [A B]; [cbn [length]; lia|].
  refine (conj _ (conj A B)).
  rewrite Nat.eqb_eq, length_zero_iff_nil, validateToolsLoop_nil. tauto.
Qed.

End ValidatorFacts.

Lemma accepted_schema_is_strict_at_root_witness :
  get (JObj [("type", JStr "object");
             ("additionalProperties", JBool false);
             ("properties", JObj [("a", JObj [("type", JStr "string")])]);
             ("required", JArr [JStr "a"])]) "additionalProperties"
  = JBool false
  /\ exists req,
       get (JObj [("type", JStr "object");
                  ("additionalProperties", JBool false);
                  ("properties", JObj [("a", JObj [("type", JStr "string")])]);
                  ("required", JArr [JStr "a"])]) "required"
       = JArr req
       /\ forall ps,
            StrictSchema.propsOf
              (JObj [("type", JStr "object");
                     ("additionalProperties", JBool false);
                     ("properties", JObj [("a", JObj [("type", JStr "string")])]);
                     ("required", JArr [JStr "a"])])
            = Some ps ->
            forall k, In k (keys ps) ->
              includesStr req k = true
              /\ @StrictSchema.validateOpenAiStrictJsonSchema asciiHost
                   (get (JObj ps) k) []
                   (StrictSchema.under "" ("properties." +++ k)) (0 + 1) = [].
Proof.
  refine (@accepted_schema_is_strict_at_root asciiHost _ "" 0 _ _ _).
  - lia.
  - reflexivity.
  - vm_compute. reflexivity.
Defined.

Lemma tools_ok_iff_every_tool_accepted_witness :
  length
    (StrictSchema.issues
       (@StrictSchema.validateConvertedToolsForProvider asciiHost
          (JStr "openai_responses")
          (JArr [JObj [("name", JStr "t");
                       ("parameters", JObj [("type", JStr "object")])]])))
  <= 30.
Proof.
  refine (proj1 (proj2 (@tools_ok_iff_every_tool_accepted asciiHost
                          (JStr "openai_responses") _ _))).
  reflexivity.
Defined.

(* ================================================================= *)
(** ** The tools picked for the round-trip probe *)

Section SortFacts.
Context {A : Type}.
Variable cmp : A -> A -> Z.

Lemma insertBy_perm : forall x xs, Permutation (insertBy cmp x xs) (x :: xs).
Proof.
  intros x. induction xs as [|y rest IH]; cbn [insertBy].
  - apply Permutation_refl.
  - destruct (cmp x y <=? 0)%Z; [apply Permutation_refl|].
    eapply perm_trans; [apply perm_skip, IH | apply perm_swap].
Qed.

Lemma sortBy_perm : forall xs, Permutation (sortBy cmp xs) xs.
Proof.
  induction xs as [|x rest IH]; cbn [sortBy fold_right].
  - apply perm_nil.
  - eapply perm_trans; [apply insertBy_perm | now apply perm_skip].
Qed.

End SortFacts.

Section MapOfFacts.
Import SelfTest.
Context {A : Type}.

Lemma mapGet_mapSet_inv : forall k k' (a d : A) m,
  mapGet k' (mapSet k a m) = Some d -> (k' = k /\ d = a) \/ mapGet k' m = Some d.
Proof.
  intros k k' a d m Hget. destruct (string_dec k k') as [-> | Hne].
  - rewrite mapGet_mapSet_same in Hget. inversion Hget. now left.
  - rewrite mapGet_mapSet_other in Hget by assumption. now right.
Qed.

(** A binding read from [new Map(pairs)] is one of the pairs. *)
Lemma mapOf_in : forall (pairs : list (string * A)) k d,
  mapGet k (mapOf pairs) = Some d -> In (k, d) pairs.
Proof.
  intros pairs k d. unfold mapOf.
  assert (G : forall m,
            mapGet k (fold_left (fun m kv => mapSet (fst kv) (snd kv) m) pairs m) = Some d ->
            In (k, d) pairs \/ mapGet k m = Some d).
  { induction pairs as [|[k0 a0] rest IH]; intros m Hget; cbn [fold_left fst snd] in Hget.
    - now right.
    - destruct (IH _ Hget) as [Hin | Hm]; [left; now right|].
      apply mapGet_mapSet_inv in Hm. destruct Hm as [[-> ->] | Hm].
      + left. now left.
      + now right. }
  intros Hget. destruct (G [] Hget) as [Hin | Hnil]; [assumption | discriminate].
Qed.

(** Every key of the pairs is bound in [new Map(pairs)]. *)
Lemma mapOf_bound : forall (pairs : list (string * A)) k,
  In k (map fst pairs) -> mapGet k (mapOf pairs) <> None.
Proof.
  intros pairs k. unfold mapOf.
  assert (G : forall m,
            In k (map fst pairs) \/ mapGet k m <> None ->
            mapGet k (fold_left (fun m kv => mapSet (fst kv) (snd kv) m) pairs m) <> None).
  { induction pairs as [|[k0 a0] rest IH]; intros m Hor; cbn [fold_left fst snd].
    - destruct Hor as [[] | Hm]. assumption.
    - apply IH. cbn [map fst In] in Hor. destruct Hor as [[-> | Hin] | Hm].
      + right. now rewrite mapGet_mapSet_same.
      + now left.
      + right. destruct (string_dec k0 k) as [-> | Hne].
        * now rewrite mapGet_mapSet_same.
        * now rewrite mapGet_mapSet_other. }
  intros Hin. apply G. now left.
Qed.

End MapOfFacts.

Section PickFacts.
Context `{Host}.
Import SelfTest.
Variable resolveToolSchema : value -> value.

Lemma pickByName_keeps : forall (P : value -> Prop) index n st,
  (forall k d, mapGet k index = Some d -> P d) ->
  Forall P (fst st) -> Forall P (fst (pickByName index n st)).
Proof.
  intros P index n st Hindex Hst. unfold pickByName.
  destruct (nonEmpty (normalizeString n)); [| assumption].
  destruct (mapGet (normalizeString n) index) as [d|] eqn:E; [| assumption].
  destruct (mem (normalizeString n) (snd st)); [assumption|].
  cbn [fst]. apply Forall_app. split; [assumption|].
  constructor; [| constructor]. eapply Hindex. exact E.
Qed.

Lemma pickWhileRoom_keeps : forall (P : value -> Prop) index maxTools xs st,
  (forall k d, mapGet k index = Some d -> P d) ->
  Forall P (fst st) -> Forall P (fst (pickWhileRoom index maxTools xs st)).
Proof.
  intros P index maxTools xs. unfold pickWhileRoom.
  induction xs as [|x xs IH]; intros st Hindex Hst; cbn [fold_left]; [assumption|].
  apply IH; [assumption|].
  destruct (maxTools <=? Z.of_nat (length (fst st)))%Z; [assumption|].
  now apply pickByName_keeps.
Qed.

(** The tools picked for the probe are captured tools, never more than
    the limit (at least 1; 4 when [maxTools] is 0); and when all the
    de-duplicated tools fit under the limit, every one of them is picked
    once: the probe then covers the whole captured set. *)
Theorem picked_tools_are_captured_tools :
  forall (toolDefs : value) (maxTools : Z),
    let picked := pickRealToolsForUsabilityProbe resolveToolSchema toolDefs maxTools in
    let limit := Z.max 1 (if (maxTools =? 0)%Z then 4 else maxTools) in
    (forall d, In d picked -> In d (ToolDefs.dedupeToolDefsByName toolDefs))
    /\ (Z.of_nat (length picked) <= limit)%Z
    /\ ((Z.of_nat (length (ToolDefs.dedupeToolDefsByName toolDefs)) <= limit)%Z ->
        Permutation picked (ToolDefs.dedupeToolDefsByName toolDefs)).
Proof.
  intros toolDefs maxTools picked limit. subst picked limit.
  unfold pickRealToolsForUsabilityProbe.
  set (defs := ToolDefs.dedupeToolDefsByName toolDefs).
  set (limit := Z.max 1 (if (maxTools =? 0)%Z then 4 else maxTools)).
  destruct (Z.of_nat (length defs) <=? limit)%Z eqn:Efit.
  - apply Z.leb_le in Efit.
    pose proof (sortBy_perm byName defs) as Hperm.
    refine (conj _ (conj _ (fun _ => Hperm))).
    + intros d Hd. eapply Permutation_in; [exact Hperm | exact Hd].
    + rewrite (Permutation_length Hperm). exact Efit.
  - apply Z.leb_gt in Efit.
    set (index := mapOf (filter (fun x => nonEmpty (fst x))
                                (map (fun d => (ToolDefs.nameOf d, d)) defs))).
    assert (Hindex : forall k d, mapGet k index = Some d -> In d defs).
    { intros k d Hget. subst index. apply mapOf_in in Hget.
      apply filter_In in Hget. destruct Hget as [Hin _].
      apply in_map_iff in Hin. destruct Hin as [d' [Heq Hin]].
      inversion Heq; subst. assumption. }
    refine (conj _ (conj _ _)).
    + intros d Hd. apply in_firstn in Hd. revert d Hd. apply Forall_forall.
      repeat match goal with
             | |- Forall _ (fst (if ?c then _ else _)) => destruct c
             | |- Forall _ (fst (pickWhileRoom _ _ _ _)) =>
                 apply pickWhileRoom_keeps; [exact Hindex|]
             end; constructor.
    + match goal with
      | |- (Z.of_nat (length (firstn ?n ?l)) <= _)%Z =>
          pose proof (firstn_le_length n l) as L
      end.
      subst limit. lia.
    + intros Hfit. lia.
Qed.

End PickFacts.

(* ================================================================= *)
(** ** Batches of the real-tool round trip *)

Section BatchFacts.
Context `{Host}.
Import SelfTest.
Variable RESPONSE_NODE_TOOL_USE : Z.

(** The batches partition the list: put together again they give it
    back, and each holds between one and [size] elements. *)
Lemma slices_partition : forall (A : Type) size fuel (xs : list A),
  0 < size -> length xs <= fuel ->
  concat (slices fuel size xs) = xs
  /\ Forall (fun b => 0 < length b <= size) (slices fuel size xs).
Proof.
  intros A size. induction fuel as [|fuel IH]; intros xs Hsize Hlen.
  - destruct xs; [split; [reflexivity | constructor] | cbn [length] in Hlen; lia].
  - destruct xs as [|x rest]; [split; [reflexivity | constructor]|].
    cbn [slices].
    assert (Hskip : length (skipn size (x :: rest)) <= fuel).
    { rewrite length_skipn. cbn [length] in *. lia. }
    destruct (IH (skipn size (x :: rest)) Hsize Hskip) as [Hc Hf].
    split.
    + cbn [concat]. rewrite Hc. apply firstn_skipn.
    + constructor; [| assumption].
      rewrite length_firstn. cbn [length]. lia.
Qed.

Lemma fold_checkTool_counts : forall idx used names t,
  calledOk (fold_left (checkTool idx used) names t)
  + length (callFailed (fold_left (checkTool idx used) names t))
  = calledOk t + length (callFailed t) + length names.
Proof.
  intros idx used. induction names as [|n names IH]; intros t; cbn [fold_left length].
  - lia.
  - rewrite IH. unfold checkTool.
    destruct (mapGet n used); cbn [calledOk callFailed failCalls];
      rewrite ?length_app; cbn [length]; lia.
Qed.

(** Whatever the provider answers, every tool name of every batch is
    counted once, as called or as a failed call. *)
Lemma batchLoop_counts : forall type w idx batches bi t tEnd,
  (forall b, In b batches -> b <> [] /\ forall n, In n b -> mapGet n idx <> None) ->
  batchLoop RESPONSE_NODE_TOOL_USE type w idx bi batches t = Returns tEnd ->
  calledOk tEnd + length (callFailed tEnd)
  = calledOk t + length (callFailed t) + length (concat batches).
Proof.
  intros type w idx. induction batches as [|b rest IH]; intros bi t tEnd Hall E;
    cbn [batchLoop] in E.
  - inversion E. cbn [concat length]. lia.
  - assert (Hrest : forall b', In b' rest ->
                      b' <> [] /\ forall n, In n b' -> mapGet n idx <> None)
      by (intros b' Hb'; apply Hall; now right).
    destruct (Hall b (or_introl eq_refl)) as [Hne Hbound].
    cbn [concat]. rewrite length_app.
    destruct (flat_map _ b) as [|d ds] eqn:Edefs.
    { exfalso. destruct b as [|n b']; [congruence|].
      cbn [flat_map] in Edefs.
      destruct (mapGet n idx) eqn:En; [discriminate|].
      apply (Hbound n); [now left | assumption]. }
    destruct (chatStreamByProvider type (firstTurn (w bi))) as [res1|m].
    + set (used := usedByNameOf b (extractToolUsesFromNodes RESPONSE_NODE_TOOL_USE
                                     (ChatStream.nodes res1))) in *.
      pose proof (fold_checkTool_counts idx used b t) as Hfold.
      destruct used as [|u us].
      * rewrite (IH _ _ _ Hrest E). lia.
      * destruct (chatStreamByProvider type (secondTurn (w bi))) as [res2|m2].
        -- destruct (negb (nonEmpty _)); rewrite (IH _ _ _ Hrest E);
             cbn [calledOk callFailed failRoundtrips passRoundtrips]; lia.
        -- destruct (secondAborted (w bi)); [discriminate|].
           rewrite (IH _ _ _ Hrest E).
           cbn [calledOk callFailed failRoundtrips]. lia.
    + destruct (firstAborted (w bi)); [discriminate|].
      rewrite (IH _ _ _ Hrest E).
      cbn [calledOk callFailed failCalls]. rewrite length_app. lia.
Qed.

(** The round trip accounts for every tool it set out to probe: with
    the names and the index built as [realToolsToolRoundtripByProvider]
    builds them from the picked definitions and the names cut into
    batches of six, a run that returns has counted each name once, as
    called or as a failed call, whatever the provider answered. *)
Theorem round_trip_accounts_for_every_tool :
  forall (type : string) (w : nat -> BatchWorld) (pickedToolDefs : list value)
         (tEnd : Tally),
    let toolNames := filter nonEmpty (map ToolDefs.nameOf pickedToolDefs) in
    let toolDefsByName :=
      mapOf (filter (fun x => nonEmpty (fst x))
                    (map (fun d => (ToolDefs.nameOf d, d)) pickedToolDefs)) in
    batchLoop RESPONSE_NODE_TOOL_USE type w toolDefsByName 0
      (slices (length toolNames) 6 toolNames) emptyTally = Returns tEnd ->
    calledOk tEnd + length (callFailed tEnd) = length toolNames.
Proof.
  intros type w picked tEnd toolNames idx Hrun.
  destruct (slices_partition string 6 (length toolNames) toolNames) as [Hc Hf];
    [lia | lia |].
  assert (Hbound : forall n, In n toolNames -> mapGet n idx <> None).
  { intros n Hn. subst idx toolNames. apply mapOf_bound.
    apply filter_In in Hn. destruct Hn as [Hin Hne].
    apply in_map_iff in Hin. destruct Hin as [d [Hd Hin]].
    apply in_map_iff. exists (ToolDefs.nameOf d, d). split; [exact Hd|].
    apply filter_In. split; [| cbn [fst]; now rewrite Hd].
    apply in_map_iff. now exists d. }
  assert (Hall : forall b, In b (slices (length toolNames) 6 toolNames) ->
                   b <> [] /\ forall n, In n b -> mapGet n idx <> None).
  { intros b Hb. split.
    - rewrite Forall_forall in Hf. specialize (Hf b Hb).
      intros ->. cbn [length] in Hf. lia.
    - intros n Hn. apply Hbound. rewrite <- Hc. apply in_concat.
      exists b. now split. }
  rewrite (batchLoop_counts _ _ _ _ _ _ _ Hall Hrun).
  rewrite Hc. reflexivity.
Qed.

End BatchFacts.

Lemma round_trip_accounts_for_every_tool_witness :
  SelfTest.calledOk
    {| SelfTest.metaMismatches := ["mcp_server_name t: expected=srv got=other"];
       SelfTest.callFailed := ["x"];
       SelfTest.roundtripFailed := [];
       SelfTest.calledOk := 1;
       SelfTest.roundtripOk := 1 |}
  + length
      (SelfTest.callFailed
         {| SelfTest.metaMismatches := ["mcp_server_name t: expected=srv got=other"];
            SelfTest.callFailed := ["x"];
            SelfTest.roundtripFailed := [];
            SelfTest.calledOk := 1;
            SelfTest.roundtripOk := 1 |})
  = length (filter SelfTest.nonEmpty
              (map (@ToolDefs.nameOf asciiHost) [Examples.mcpTool; Examples.firstX])).
Proof.
  refine (@round_trip_accounts_for_every_tool asciiHost Examples.toolUseTag
            "openai_compatible" (fun _ => Examples.mismatchBatch)
            [Examples.mcpTool; Examples.firstX] _ _).
  vm_compute. reflexivity.
Defined.

(* ================================================================= *)
(** ** A run without tool definitions *)

Section QuietRunFacts.
Context `{Host}.
Import SelfTest.
Variable RESPONSE_NODE_TOOL_USE : Z.
Variable RESPONSE_NODE_TOKEN_USAGE : Z.
Variable STOP_REASON_TOOL_USE_REQUESTED : value.
Variable resolveToolSchema : value -> value.
Variable convertOpenAiTools : value -> value.
Variable convertAnthropicTools : value -> value.
Variable convertGeminiTools : value -> value.
Variable convertOpenAiResponsesTools : value -> value.

(** A run that finds no tool definition, captured or fetched, never
    reports ok, whatever the providers do: its first global test fails,
    and the three tool-dependent global tests are recorded as skipped,
    with [ok] true. *)
Theorem run_without_tools_is_not_ok :
  forall (w : RunWorld) (cfg : value),
    let report := runSelfTest RESPONSE_NODE_TOOL_USE RESPONSE_NODE_TOKEN_USAGE
                    STOP_REASON_TOOL_USE_REQUESTED resolveToolSchema convertOpenAiTools
                    convertAnthropicTools convertGeminiTools convertOpenAiResponsesTools
                    w cfg in
    capturedCount report = 0 ->
    reportOk report = false
    /\ map ok (firstn 2 (globalTests report)) = [false; true]
    /\ map detail (skipn 3 (firstn 5 (globalTests report)))
       = [Some "skipped (no captured tools)"; Some "skipped (no tools)"].
Proof.
  intros w cfg report. subst report. unfold runSelfTest.
  match goal with
  | |- context [providerLoop ?c1 ?c2 ?c3 ?c4 ?c5 ?c6 ?c7 ?c8 ?a ?b ?c ?d ?e ?f] =>
      destruct (providerLoop_spec c1 c2 c3 c4 c5 c6 c7 c8 a b d c e f (Forall_nil _))
        as [fresh [E _]]; rewrite E
  end.
  cbn [capturedCount reportOk globalTests ToolDefs.summarizeToolDefs ToolDefs.count
       elements firstn skipn map].
  intros Hcount. rewrite Hcount.
  apply length_zero_iff_nil in Hcount. rewrite Hcount.
  cbn [Nat.ltb Nat.leb length ok detail test negb andb].
  refine (conj _ (conj eq_refl eq_refl)).
  match goal with
  | |- (if ?c then false else (if ?d then false else false) && _) = false =>
      destruct c; [reflexivity|]; destruct d; reflexivity
  end.
Qed.

End QuietRunFacts.

Lemma run_without_tools_is_not_ok_witness :
  SelfTest.reportOk
    (@SelfTest.runSelfTest asciiHost Examples.toolUseTag Examples.tokenUsageTag
       Examples.stopToolUse Examples.inputSchemaOf Examples.noTools Examples.noTools
       Examples.noTools Examples.noTools Quiet.noToolsWorld
       (JObj [("providers", JArr [Examples.provider1])])) = false.
Proof.
  refine (proj1 (@run_without_tools_is_not_ok asciiHost Examples.toolUseTag
                   Examples.tokenUsageTag Examples.stopToolUse Examples.inputSchemaOf
                   Examples.noTools Examples.noTools Examples.noTools Examples.noTools
                   Quiet.noToolsWorld
                   (JObj [("providers", JArr [Examples.provider1])]) _)).
  vm_compute. reflexivity.
Defined.

(* ================================================================= *)
(** ** The model a provider is tested with *)

Section ModelChoiceFacts.
Context `{Host}.
Import SelfTest.

Lemma firstNonEmpty_empty : forall xs,
  firstNonEmpty xs = "" <-> Forall (fun s => s = "") xs.
Proof.
  intros xs. unfold firstNonEmpty. induction xs as [|x xs IH]; cbn [find].
  - split; [constructor | reflexivity].
  - destruct (nonEmpty x) eqn:E.
    + unfold nonEmpty in E. apply truthy_str in E. split; [congruence|].
      intros Hall. inversion Hall. congruence.
    + assert (Hx : x = "").
      { unfold nonEmpty in E. destruct (String.eqb_spec x "") as [Hx | Hx];
          [assumption|]. apply truthy_str in Hx. congruence. }
      rewrite IH. split; [intros; now constructor | intros Hall; now inversion Hall].
Qed.

(** A provider is left without a model only when no source names one:
    neither [defaultModel], nor any entry of [models], nor any of the
    fetched models; and what the configuration names always wins over
    what discovery fetched. *)
Theorem model_is_found_when_any_source_names_one :
  forall (provider fetchedModels : value),
    (pickProviderModel provider fetchedModels = ""
     <-> normalizeString (get provider "defaultModel") = ""
         /\ Forall (fun x => normalizeString x = "") (elements (get provider "models"))
         /\ Forall (fun x => normalizeString x = "") (elements fetchedModels))
    /\ (pickProviderModel provider (JArr []) <> "" ->
        pickProviderModel provider fetchedModels = pickProviderModel provider (JArr [])).
Proof.
  intros provider fetched. unfold pickProviderModel.
  set (dm := normalizeString (get provider "defaultModel")).
  set (locals := map normalizeString (elements (get provider "models"))).
  assert (Hmap : forall xs, Forall (fun s => s = "") (map normalizeString xs)
                            <-> Forall (fun x => normalizeString x = "") xs).
  { intros xs. rewrite !Forall_forall. split.
    - intros Hall x Hx. apply Hall. now apply in_map.
    - intros Hall s Hs. apply in_map_iff in Hs. destruct Hs as [x [<- Hx]]. now apply Hall. }
  destruct (nonEmpty dm) eqn:Ed.
  - unfold nonEmpty in Ed. apply truthy_str in Ed. split; [| reflexivity].
    split; [intros; congruence | intros (A & _); congruence].
  - assert (Hdm : dm = "").
    { unfold nonEmpty in Ed. destruct (String.eqb_spec dm "") as [Hx | Hx];
        [assumption|]. apply truthy_str in Hx. congruence. }
    destruct (nonEmpty (firstNonEmpty locals)) eqn:El.
    + unfold nonEmpty in El. apply truthy_str in El. split; [| reflexivity].
      split; [intros Heq; exfalso; exact (El Heq)|]. intros (_ & Hl & _).
      apply Hmap, firstNonEmpty_empty in Hl. exfalso. exact (El Hl).
    + assert (Hl : firstNonEmpty locals = "").
      { unfold nonEmpty in El.
        destruct (String.eqb_spec (firstNonEmpty locals) "") as [Hx | Hx];
          [assumption|]. apply truthy_str in Hx. congruence. }
      split.
      * rewrite firstNonEmpty_empty, Hmap.
        apply firstNonEmpty_empty, Hmap in Hl. tauto.
      * cbn [elements map]. unfold firstNonEmpty at 1. cbn [find]. congruence.
Qed.

End ModelChoiceFacts.

(* ================================================================= *)
(** ** When a handler serves a request itself *)

Section ServeFacts.
Context `{Host}.
Import Shim ShimRead.
Variable normalizeEndpoint : value -> string.
Variable safeTransform : value -> option value.
Variable decideRoute : value -> string -> value -> bool -> value.
Variable serveByok : value -> string -> value -> value -> Answer.
Variable serveByokStream : value -> string -> value -> value -> Answer.

Lemma cache_never_serves : forall ep body,
  existsb servesByok
    (maybeDeleteHistorySummaryCacheForEndpoint normalizeEndpoint ep body) = false.
Proof.
  intros ep body. unfold maybeDeleteHistorySummaryCacheForEndpoint.
  repeat match goal with
         | |- context [if ?c then _ else _] => destruct c
         end; reflexivity.
Qed.

Lemma isStr_other : forall v a b, isStr v a = true -> a <> b -> isStr v b = false.
Proof.
  intros v a b Ha Hne. destruct v; try discriminate. cbn [isStr] in *.
  apply String.eqb_eq in Ha. subst. now apply String.eqb_neq.
Qed.

(** The branch of an endpoint is entered exactly when the endpoint is
    named, the runtime is enabled, the endpoint is not a disabled
    telemetry endpoint, the router answers the mode [byok] and the
    handler has a branch for the endpoint; the answer is then the one of
    that branch.  A [byok] route on an endpoint without a branch reaches
    the final [return undefined] and passes through.  This holds for the
    plain and for the streaming handler, each with its own endpoints. *)
Theorem byok_serves_only_a_byok_route :
  forall (runtimeEnabled : bool) (cfg endpoint body : value),
    let ep := normalizeEndpoint endpoint in
    let route := decideRoute cfg ep body runtimeEnabled in
    let routed :=
      truthy (JStr ep) && runtimeEnabled && negb (isTelemetryDisabled cfg ep)
      && isStr (get route "mode") "byok" in
    let plain := maybeHandleCallApi normalizeEndpoint safeTransform decideRoute serveByok
                   runtimeEnabled cfg endpoint body in
    let stream := maybeHandleCallApiStream normalizeEndpoint decideRoute serveByokStream
                    runtimeEnabled cfg endpoint body in
    existsb servesByok (snd plain) = routed && mem ep callApiEndpoints
    /\ existsb servesByok (snd stream) = routed && mem ep callApiStreamEndpoints
    /\ (routed && mem ep callApiEndpoints = true ->
        fst plain = serveByok cfg ep route body)
    /\ (routed && mem ep callApiStreamEndpoints = true ->
        fst stream = serveByokStream cfg ep route body)
    /\ (routed && negb (mem ep callApiEndpoints) = true -> fst plain = PassThrough)
    /\ (routed && negb (mem ep callApiStreamEndpoints) = true ->
        fst stream = PassThrough).
Proof.
  intros runtimeEnabled cfg endpoint body ep route routed plain stream.
  subst plain stream routed route.
  unfold maybeHandleCallApi, maybeHandleCallApiStream. fold ep.
  pose proof (cache_never_serves ep body) as Hc.
  destruct (truthy (JStr ep)); cbn [negb andb fst snd existsb];
    [| repeat split; intros; discriminate].
  destruct runtimeEnabled; cbn [negb andb fst snd];
    [| rewrite Hc; repeat split; intros; discriminate].
  destruct (isStr (get (decideRoute cfg ep body true) "mode") "official") eqn:Eo.
  { rewrite (isStr_other _ _ "byok" Eo) by discriminate.
    rewrite andb_false_r. cbn [andb].
    destruct (isTelemetryDisabled cfg ep); [destruct (safeTransform (JObj []))|];
      cbn [fst snd]; rewrite ?existsb_app, ?Hc;
      repeat split; intros; try discriminate; reflexivity. }
  destruct (isStr (get (decideRoute cfg ep body true) "mode") "disabled") eqn:Ed.
  { rewrite (isStr_other _ _ "byok" Ed) by discriminate.
    rewrite andb_false_r. cbn [andb].
    destruct (isTelemetryDisabled cfg ep); destruct (safeTransform (JObj []));
      cbn [fst snd]; rewrite ?existsb_app, ?Hc;
      repeat split; intros; try discriminate; reflexivity. }
  destruct (isStr (get (decideRoute cfg ep body true) "mode") "byok");
    destruct (isTelemetryDisabled cfg ep);
    try destruct (safeTransform (JObj []));
    destruct (mem ep callApiEndpoints); destruct (mem ep callApiStreamEndpoints);
    cbn [negb andb fst snd]; rewrite ?existsb_app, ?Hc; cbn [existsb servesByok orb];
    repeat split; intros; try discriminate; reflexivity.
Qed.

End ServeFacts.

(* ================================================================= *)
(** ** Merging twice *)

Section MergeAgainFacts.
Context `{Host}.
Import Official.
Variable makeModelInfo : string -> value.
Variable ensureModelRegistryFeatureFlags : value -> list string -> value -> value.

Lemma freshNames_none : forall names existing,
  (forall n, In n names -> n <> "" -> In n existing) ->
  freshNames names existing = [].
Proof.
  intros names existing Hall.
  destruct (freshNames names existing) as [|x rest] eqn:E; [reflexivity|].
  assert (Hx : In x (freshNames names existing)) by (rewrite E; now left).
  destruct (proj1 (freshNames_in makeModelInfo ensureModelRegistryFeatureFlags
                     names existing x) Hx) as (Hin & Hne & Hnot).
  exfalso. apply Hnot. now apply Hall.
Qed.

Lemma mergeModels_models : forall upstreamJson names opts,
  get (mergeModels makeModelInfo ensureModelRegistryFeatureFlags upstreamJson names opts)
      "models"
  = JArr (mergedModels makeModelInfo
            (if isObjectLike upstreamJson then upstreamJson else JObj []) names).
Proof.
  intros upstreamJson names opts. unfold mergeModels.
  rewrite (get_set_other "feature_flags" "models") by discriminate.
  now rewrite get_set_same.
Qed.

(** Merging the same BYOK names into an answer that already holds them
    adds nothing: the models of a merged answer are a fixed point of the
    merge, provided the model info built for a name carries that name. *)
Theorem mergeModels_twice_adds_nothing :
  forall (upstreamJson : value) (byokModelNames : list string) (opts opts' : value),
    (forall n, n <> "" -> modelName (makeModelInfo n) = n) ->
    let once := mergeModels makeModelInfo ensureModelRegistryFeatureFlags
                  upstreamJson byokModelNames opts in
    get (mergeModels makeModelInfo ensureModelRegistryFeatureFlags
           once byokModelNames opts') "models"
    = get once "models".
Proof.
  intros upstream names opts opts' Hname once.
  rewrite mergeModels_models.
  replace (isObjectLike once) with true by reflexivity.
  unfold mergedModels at 1. subst once. rewrite mergeModels_models.
  cbn [elements]. set (base := if isObjectLike upstream then upstream else JObj []).
  rewrite appendByok_fresh.
  rewrite freshNames_none; [cbn [map]; now rewrite app_nil_r|].
  intros n Hin Hne. apply filter_In. split; [| now apply truthy_str].
  unfold mergedModels. rewrite appendByok_fresh, map_app, in_app_iff.
  destruct (in_dec string_dec n
              (filter (fun n0 => truthy (JStr n0))
                      (map modelName (elements (get base "models"))))) as [Hold | Hnew].
  - left. apply filter_In in Hold. tauto.
  - right. rewrite map_map. apply in_map_iff. exists n. split; [now apply Hname|].
    apply (freshNames_in makeModelInfo ensureModelRegistryFeatureFlags).
    repeat split; assumption.
Qed.

End MergeAgainFacts.

Lemma mergeModels_twice_adds_nothing_witness :
  get (@Official.mergeModels asciiHost Examples.modelInfo Examples.keepFlags
         (@Official.mergeModels asciiHost Examples.modelInfo Examples.keepFlags
            (JObj Examples.upstreamModels) Examples.byokNames JUndefined)
         Examples.byokNames JUndefined) "models"
  = get (@Official.mergeModels asciiHost Examples.modelInfo Examples.keepFlags
           (JObj Examples.upstreamModels) Examples.byokNames JUndefined) "models".
Proof.
  refine (@mergeModels_twice_adds_nothing asciiHost Examples.modelInfo Examples.keepFlags
            (JObj Examples.upstreamModels) Examples.byokNames JUndefined JUndefined _).
  intros n Hn. reflexivity.
Defined.

(* ================================================================= *)
(** ** One credential check in three places *)

Section CredentialFacts.
Context `{Host}.



End CredentialFacts.

(* ================================================================= *)
(** ** The fetched tool definitions *)

Section FetchFacts.
Context `{Host}.
Import ToolsModel.

Lemma fetchedLoop_dedupe : forall items seen defs,
  fetchedLoop items seen defs
  = ToolDefs.dedupeLoop (map unwrapDefinition items) seen defs.
Proof.
  induction items as [|it rest IH]; intros seen defs;
    cbn [fetchedLoop map ToolDefs.dedupeLoop]; [reflexivity|].
  destruct (negb (isObjectLike (unwrapDefinition it))); [apply IH|].
  destruct (negb (truthy (JStr _)) || mem _ seen); apply IH.
Qed.

(** The definitions fetched from the tools model are the unwrapped
    items de-duplicated by name, so consumers that de-duplicate them
    again get the same list; the fetch answers ok exactly when it
    returns at least one definition, and it passes on what the tools
    model throws. *)
Theorem fetched_definitions_are_deduplicated :
  forall (defsRaw : value) (m : string),
    match fetchLocalToolDefinitionsFromUpstream (Some (SelfTest.Returns defsRaw)) with
    | SelfTest.Returns r =>
        (fetchedOk r = true ->
         fetchedDefs r
         = ToolDefs.dedupeToolDefsByName (JArr (map unwrapDefinition (elements defsRaw))))
        /\ ToolDefs.dedupeToolDefsByName (JArr (fetchedDefs r)) = fetchedDefs r
        /\ NoDup (map ToolDefs.nameOf (fetchedDefs r))
        /\ (fetchedOk r = true <-> fetchedDefs r <> [])
    | SelfTest.Throws _ => False
    end
    /\ fetchLocalToolDefinitionsFromUpstream (Some (SelfTest.Throws m))
       = SelfTest.Throws m.
Proof.
  intros defsRaw m. split; [| reflexivity].
  unfold fetchLocalToolDefinitionsFromUpstream.
  rewrite fetchedLoop_dedupe.
  change (ToolDefs.dedupeLoop (map unwrapDefinition (elements defsRaw)) [] [])
    with (ToolDefs.dedupeToolDefsByName (JArr (map unwrapDefinition (elements defsRaw)))).
  set (defs := ToolDefs.dedupeToolDefsByName _).
  destruct (length defs =? 0)%nat eqn:E; cbn [fetchedOk fetchedDefs].
  - refine (conj _ (conj eq_refl (conj _ _))).
    + discriminate.
    + constructor.
    + split; [discriminate | congruence].
  - refine (conj (fun _ => eq_refl) (conj _ (conj _ _))).
    + apply dedupe_idempotent.
    + subst defs. rewrite dedupe_kept. apply kept_nodup.
    + split; [| reflexivity]. intros _ Hnil. rewrite Hnil in E. discriminate.
Qed.

End FetchFacts.

(* ================================================================= *)
(** ** De-duplication and the consumers of tool definitions *)

Section DedupeInConsumers.
Context `{Host}.
Import ToolDefs SelfTest.
Variable RESPONSE_NODE_TOOL_USE : Z.
Variable resolveToolSchema : value -> value.
Variable convertOpenAiTools : value -> value.
Variable convertAnthropicTools : value -> value.
Variable convertGeminiTools : value -> value.
Variable convertOpenAiResponsesTools : value -> value.










End DedupeInConsumers.


